(** * Eventrix booking service: the booking lifecycle and waitlist promotion

    A shallow embedding of [services/booking-service/src/routes/bookings.js]:
    the [POST /api/bookings] and [PATCH /api/bookings/:id/cancel] handlers and
    [promoteWaitlistIfPossible], then the read routes, the analytics and the
    bulk cancellation of an event; and of the allowed origins computed at the
    top of each [server.js].  The [sync] route is left out: it depends on the
    timestamps and the match counts that Mongoose maintains.

    The collection is a list of documents in stored order.  Queries on it do
    not fail and ids are well formed; a sort leaves documents with equal keys
    in stored order, and [$group] lists its groups by first occurrence; the
    theorems on the read routes are stated up to these two choices.

    The handlers are written in a small state-and-exception monad over a
    [World].  The world holds the booking collection, the clock, an
    environment that fixes what the event service will answer to each call
    and what [Math.random()] will return, and the trace of the calls made so
    far.  Every property below is stated for an arbitrary environment, so it
    covers every behaviour of the event service, including the changes other
    requests make to it between two calls of one handler.

    JavaScript numbers are modelled by integers (ticket counts, seat counts,
    prices and timestamps in milliseconds).  A random draw is the rational
    that the binary64 number denotes; the product [Math.random() * 10000] and
    the literal [0.1] are rounded to binary64 as JavaScript does.  The clock
    does not move during one request. *)

From Stdlib Require Import ZArith QArith Qround Qabs List String Bool Lia Lqa.
From Stdlib Require Import Sorted Permutation DecimalString Ascii.
Import ListNotations.

Open Scope string_scope.
Open Scope Z_scope.

(** ** JSON values *)

#[warnings="-register-all"]
Inductive json : Type :=
| JUndefined
| JNull
| JBool (b : bool)
| JNum (z : Z)
| JStr (s : string)
| JObj (fields : list (string * json)).

(** [obj.key] on a value that may be anything: [undefined] unless [obj] is an
    object with that key. *)
Fixpoint lookupField (key : string) (fields : list (string * json)) : json :=
  match fields with
  | [] => JUndefined
  | (k, v) :: rest => if String.eqb k key then v else lookupField key rest
  end.

Definition getField (key : string) (v : json) : json :=
  match v with
  | JObj fields => lookupField key fields
  | _ => JUndefined
  end.

(** JavaScript truthiness, as used by [a || b]. *)
Definition truthy (v : json) : bool :=
  match v with
  | JUndefined | JNull => false
  | JBool b => b
  | JNum z => negb (z =? 0)
  | JStr s => negb (String.eqb s "")
  | JObj _ => true
  end.

(** [v !== undefined] *)
Definition isDefined (v : json) : bool :=
  match v with
  | JUndefined => false
  | _ => true
  end.

(** Decimal rendering of an integer inside a template literal. *)
Definition showZ (z : Z) : string := NilZero.string_of_int (Z.to_int z).

(** ** Records of the two services *)

Module Event.
Record t : Type := mk {
  _id : string;
  title : string;
  date : Z;
  venue : string;
  time : string;
  price : Z;
  status : string;
  availableSeats : Z;
  capacity : Z
}.
End Event.

Module User.
Record t : Type := mk {
  _id : string;
  name : string;
  email : string;
  role : string
}.
End User.

Inductive BookingStatus : Type := Pending | Confirmed | Waitlisted | Cancelled.
Inductive PaymentStatus : Type := PaymentPending | Completed | Failed | Refunded.

Definition BookingStatus_eqb (a b : BookingStatus) : bool :=
  match a, b with
  | Pending, Pending | Confirmed, Confirmed
  | Waitlisted, Waitlisted | Cancelled, Cancelled => true
  | _, _ => false
  end.

Definition PaymentStatus_eqb (a b : PaymentStatus) : bool :=
  match a, b with
  | PaymentPending, PaymentPending | Completed, Completed
  | Failed, Failed | Refunded, Refunded => true
  | _, _ => false
  end.

Definition bookingStatusName (s : BookingStatus) : string :=
  match s with
  | Pending => "pending"
  | Confirmed => "confirmed"
  | Waitlisted => "waitlisted"
  | Cancelled => "cancelled"
  end.

Definition paymentStatusName (s : PaymentStatus) : string :=
  match s with
  | PaymentPending => "pending"
  | Completed => "completed"
  | Failed => "failed"
  | Refunded => "refunded"
  end.

Module Booking.
Record t : Type := mk {
  _id : nat;
  bookingReference : string;
  userId : string;
  userName : string;
  userEmail : string;
  eventId : string;
  eventTitle : string;
  eventDate : Z;
  eventVenue : string;
  eventTime : string;
  numberOfTickets : Z;
  pricePerTicket : Z;
  totalAmount : Z;
  paymentMethod : string;
  bookingStatus : BookingStatus;
  paymentStatus : PaymentStatus;
  transactionId : option string;
  createdAt : Z
}.

(** [b.bookingStatus = s] *)
Definition set_bookingStatus (s : BookingStatus) (b : t) : t :=
  mk (_id b) (bookingReference b) (userId b) (userName b) (userEmail b)
     (eventId b) (eventTitle b) (eventDate b) (eventVenue b) (eventTime b)
     (numberOfTickets b) (pricePerTicket b) (totalAmount b) (paymentMethod b)
     s (paymentStatus b) (transactionId b) (createdAt b).

(** [b.paymentStatus = s] *)
Definition set_paymentStatus (s : PaymentStatus) (b : t) : t :=
  mk (_id b) (bookingReference b) (userId b) (userName b) (userEmail b)
     (eventId b) (eventTitle b) (eventDate b) (eventVenue b) (eventTime b)
     (numberOfTickets b) (pricePerTicket b) (totalAmount b) (paymentMethod b)
     (bookingStatus b) s (transactionId b) (createdAt b).

(** [b.transactionId = txn] *)
Definition set_transactionId (txn : string) (b : t) : t :=
  mk (_id b) (bookingReference b) (userId b) (userName b) (userEmail b)
     (eventId b) (eventTitle b) (eventDate b) (eventVenue b) (eventTime b)
     (numberOfTickets b) (pricePerTicket b) (totalAmount b) (paymentMethod b)
     (bookingStatus b) (paymentStatus b) (Some txn) (createdAt b).
End Booking.

(** ** Errors, replies of the event service, and the world *)

(** A thrown JavaScript error: [err.message] and, for an HTTP error reply,
    [err.response.data] ([JUndefined] when there was no reply). *)
Record Error : Type := mkError {
  message : string;
  responseData : json
}.

Inductive GetReply : Type :=
| GetOk (event : Event.t)
| GetErr (e : Error).

Inductive PatchReply : Type :=
| PatchOk (data : json)
| PatchErr (e : Error).

(** ** Binary64 numbers

    A finite binary64 number is kept as the rational it denotes.  The result
    of an arithmetic operation, and the value of a decimal literal, is the
    exact result rounded to the nearest binary64 number, ties to the even
    significand.  Overflow is left out: the numbers rounded here are below
    [10000]. *)

(** The exponent [e] with [2^e <= x < 2^(e+1)], for [x > 0]. *)
Definition binade (x : Q) : Z :=
  let e := Z.log2 (Qnum x) - Z.log2 (Zpos (Qden x)) in
  if Qle_bool (Qpower 2 e) x then e else e - 1.

Definition roundHalfEven (x : Q) : Z :=
  let below := Qfloor x in
  match Qcompare (x - inject_Z below) (1 # 2) with
  | Lt => below
  | Gt => below + 1
  | Eq => if Z.even below then below else below + 1
  end.

(** 53 bits of significand; below [2^-1022] the spacing stays [2^-1074]. *)
Definition binary64 (x : Q) : Q :=
  if Qeq_bool x 0 then 0%Q
  else
    let ulp := Qpower 2 (Z.max (binade (Qabs x) - 52) (-1074)) in
    (inject_Z (roundHalfEven (x / ulp)) * ulp)%Q.

(** What the handlers do not control: the values of [Math.random()], and what
    the event service answers to the [n]-th GET and the [n]-th PATCH. *)
Record Env : Type := mkEnv {
  mathRandom : nat -> Q;
  eventServiceGet : nat -> string -> GetReply;
  eventServicePatch : nat -> string -> Z -> PatchReply
}.

(** Calls that leave the process, in the order they are made. *)
Inductive Effect : Type :=
| AxiosGet (eventId : string)
| AxiosPatch (eventId : string) (seatsToBook : Z) (reply : PatchReply)
| BookingSave (doc : Booking.t)
| SendBookingEmail (doc : Booking.t) (event : Event.t)
| SendWaitlistEmail (doc : Booking.t) (event : Event.t)
| ConsoleError (label : string).

Record World : Type := mkWorld {
  env : Env;
  bookings : list Booking.t;
  nextId : nat;
  now : Z;
  randomsDrawn : nat;
  getsMade : nat;
  patchesMade : nat;
  trace : list Effect
}.

Definition log (e : Effect) (w : World) : World :=
  mkWorld (env w) (bookings w) (nextId w) (now w) (randomsDrawn w)
          (getsMade w) (patchesMade w) (trace w ++ [e]).

Definition set_bookings (bs : list Booking.t) (w : World) : World :=
  mkWorld (env w) bs (nextId w) (now w) (randomsDrawn w)
          (getsMade w) (patchesMade w) (trace w).

Definition bump_nextId (w : World) : World :=
  mkWorld (env w) (bookings w) (S (nextId w)) (now w) (randomsDrawn w)
          (getsMade w) (patchesMade w) (trace w).

Definition bump_randoms (w : World) : World :=
  mkWorld (env w) (bookings w) (nextId w) (now w) (S (randomsDrawn w))
          (getsMade w) (patchesMade w) (trace w).

Definition bump_gets (w : World) : World :=
  mkWorld (env w) (bookings w) (nextId w) (now w) (randomsDrawn w)
          (S (getsMade w)) (patchesMade w) (trace w).

Definition bump_patches (w : World) : World :=
  mkWorld (env w) (bookings w) (nextId w) (now w) (randomsDrawn w)
          (getsMade w) (S (patchesMade w)) (trace w).

(** ** The monad of handlers: state passing with exceptions *)

Inductive Outcome (A : Type) : Type :=
| Return (a : A)
| Throw (e : Error).
Arguments Return {A} a.
Arguments Throw {A} e.

Definition M (A : Type) : Type := World -> Outcome A * World.

Definition ret {A : Type} (a : A) : M A := fun w => (Return a, w).

Definition bind {A B : Type} (m : M A) (k : A -> M B) : M B :=
  fun w =>
    match m w with
    | (Return a, w') => k a w'
    | (Throw e, w') => (Throw e, w')
    end.

(** [try { m } catch (err) { handler(err) }] *)
Definition tryCatch {A : Type} (m : M A) (handler : Error -> M A) : M A :=
  fun w =>
    match m w with
    | (Return a, w') => (Return a, w')
    | (Throw e, w') => handler e w'
    end.

Declare Scope js_scope.
Delimit Scope js_scope with js.
Notation "x <- m ;; k" := (bind m (fun x => k))
  (at level 100, m at next level, right associativity) : js_scope.
Notation "m ;; k" := (bind m (fun _ => k))
  (at level 100, right associativity) : js_scope.
Open Scope js_scope.

(** ** Primitives *)

(** [await axios.get(`${EVENT_SERVICE_URL}/api/events/${eventId}`)], then
    [.data] of the response. *)
Definition axios_get (eventId : string) : M Event.t :=
  fun w =>
    let w' := log (AxiosGet eventId) (bump_gets w) in
    match eventServiceGet (env w) (getsMade w) eventId with
    | GetOk event => (Return event, w')
    | GetErr e => (Throw e, w')
    end.

(** [await axios.patch(`${EVENT_SERVICE_URL}/api/events/${eventId}/seats`,
    { seatsToBook })], then [.data] of the response. *)
Definition axios_patch (eventId : string) (seatsToBook : Z) : M json :=
  fun w =>
    let reply := eventServicePatch (env w) (patchesMade w) eventId seatsToBook in
    let w' := log (AxiosPatch eventId seatsToBook reply) (bump_patches w) in
    match reply with
    | PatchOk data => (Return data, w')
    | PatchErr e => (Throw e, w')
    end.

(** [Math.random()] *)
Definition math_random : M Q :=
  fun w => (Return (mathRandom (env w) (randomsDrawn w)), bump_randoms w).

(** [Date.now()], and the instant of [new Date()]. *)
Definition date_now : M Z := fun w => (Return (now w), w).

Definition console_error (label : string) : M unit :=
  fun w => (Return tt, log (ConsoleError label) w).

(** [const generateTransactionId = () =>
      `TXN${Date.now()}${Math.floor(Math.random() * 10000)}`] *)
Definition generateTransactionId : M string :=
  t <- date_now ;;
  r <- math_random ;;
  ret ("TXN" ++ showZ t ++ showZ (Qfloor (binary64 (r * 10000)))).

(** ** The Booking model and the handlers *)

Module Body.
(** [req.body] of [POST /api/bookings]; [None] is a missing property. *)
Record t : Type := mk {
  eventId : option string;
  numberOfTickets : option Z;
  paymentMethod : option string;
  joinWaitlist : bool
}.
End Body.

Record CreateRequest : Type := mkCreateRequest {
  user : User.t;
  body : Body.t
}.

Record CancelRequest : Type := mkCancelRequest {
  caller : User.t;
  params_id : nat
}.

Record Response : Type := mkResponse {
  statusCode : Z;
  payload : json
}.

(** [!eventId || !numberOfTickets] is false: both are present and truthy. *)
Definition requiredFields (b : Body.t) : option (string * Z) :=
  match Body.eventId b, Body.numberOfTickets b with
  | Some eventId, Some numberOfTickets =>
      if String.eqb eventId "" || (numberOfTickets =? 0) then None
      else Some (eventId, numberOfTickets)
  | _, _ => None
  end.

(** [paymentMethod || 'credit_card'] *)
Definition paymentMethodOrDefault (m : option string) : string :=
  match m with
  | Some s => if String.eqb s "" then "credit_card" else s
  | None => "credit_card"
  end.

(** [err.response?.data || err.message] *)
Definition errorDetails (err : Error) : json :=
  if truthy (responseData err) then responseData err else JStr (message err).

(** [typeof availableSeatsHint === 'number' ? availableSeatsHint
                                             : event.availableSeats] *)
Definition initialAvailableSeats (availableSeatsHint : json) (event : Event.t) : Z :=
  match availableSeatsHint with
  | JNum hint => hint
  | _ => Event.availableSeats event
  end.

(** [Math.random() > 0.1] *)
Definition paymentSucceeds (r : Q) : bool :=
  negb (Qle_bool r (binary64 (1 # 10))).

Definition isWaitlistedFor (eventId : string) (b : Booking.t) : bool :=
  String.eqb (Booking.eventId b) eventId
  && BookingStatus_eqb (Booking.bookingStatus b) Waitlisted.

(** [.sort({ createdAt: 1 })]: ascending, documents with equal keys keep
    their stored order. *)
Fixpoint insertByCreatedAt (b : Booking.t) (l : list Booking.t) : list Booking.t :=
  match l with
  | [] => [b]
  | x :: rest =>
      if Booking.createdAt b <=? Booking.createdAt x then b :: l
      else x :: insertByCreatedAt b rest
  end.

Definition sortByCreatedAt (l : list Booking.t) : list Booking.t :=
  fold_right insertByCreatedAt [] l.

(** The documents [Booking.find({ eventId, bookingStatus: 'waitlisted' })
    .sort({ createdAt: 1 })] yields. *)
Definition waitlistOf (eventId : string) (bs : list Booking.t) : list Booking.t :=
  sortByCreatedAt (filter (isWaitlistedFor eventId) bs).

(** Replace the stored document with the same [_id], or add a new one. *)
Fixpoint upsert (doc : Booking.t) (bs : list Booking.t) : list Booking.t :=
  match bs with
  | [] => [doc]
  | b :: rest =>
      if Nat.eqb (Booking._id b) (Booking._id doc) then doc :: rest
      else b :: upsert doc rest
  end.

Fixpoint findById (id : nat) (bs : list Booking.t) : option Booking.t :=
  match bs with
  | [] => None
  | b :: rest => if Nat.eqb (Booking._id b) id then Some b else findById id rest
  end.

(** The statuses a promoted or newly paid booking gets. *)
Definition markConfirmed (txn : string) (b : Booking.t) : Booking.t :=
  Booking.set_transactionId txn
    (Booking.set_paymentStatus Completed
       (Booking.set_bookingStatus Confirmed b)).

Definition markWaitlisted (b : Booking.t) : Booking.t :=
  Booking.set_paymentStatus PaymentPending
    (Booking.set_bookingStatus Waitlisted b).

Definition markPaymentFailed (b : Booking.t) : Booking.t :=
  Booking.set_bookingStatus Pending
    (Booking.set_paymentStatus Failed b).

Definition markCancelled (b : Booking.t) : Booking.t :=
  let b' := Booking.set_bookingStatus Cancelled b in
  if PaymentStatus_eqb (Booking.paymentStatus b') Completed
  then Booking.set_paymentStatus Refunded b'
  else b'.

Definition errorBody (msg : string) : json := JObj [("error", JStr msg)].

Definition transactionIdJson (txn : option string) : json :=
  match txn with
  | Some s => JStr s
  | None => JUndefined
  end.

(** ** The read-only routes and the bulk cancellation *)

(** [.sort({ createdAt: -1 })]: descending, documents with equal keys keep
    their stored order. *)
Fixpoint insertByCreatedAtDesc (b : Booking.t) (l : list Booking.t) : list Booking.t :=
  match l with
  | [] => [b]
  | x :: rest =>
      if Booking.createdAt x <=? Booking.createdAt b then b :: l
      else x :: insertByCreatedAtDesc b rest
  end.

Definition sortByCreatedAtDesc (l : list Booking.t) : list Booking.t :=
  fold_right insertByCreatedAtDesc [] l.

Definition isOwnedBy (userId : string) (b : Booking.t) : bool :=
  String.eqb (Booking.userId b) userId.

Definition isForEvent (eventId : string) (b : Booking.t) : bool :=
  String.eqb (Booking.eventId b) eventId.

Definition hasStatus (s : BookingStatus) (b : Booking.t) : bool :=
  BookingStatus_eqb (Booking.bookingStatus b) s.

Definition hasPayment (s : PaymentStatus) (b : Booking.t) : bool :=
  PaymentStatus_eqb (Booking.paymentStatus b) s.

(** The filter [{ eventId, bookingStatus: { $ne: 'cancelled' } }]. *)
Definition isActiveFor (eventId : string) (b : Booking.t) : bool :=
  isForEvent eventId b && negb (hasStatus Cancelled b).

(** The filter [{ eventId, userId, bookingStatus: { $ne: 'cancelled' } }]. *)
Definition isActiveForUser (eventId userId : string) (b : Booking.t) : bool :=
  isForEvent eventId b && isOwnedBy userId b && negb (hasStatus Cancelled b).

Fixpoint findByReference (reference : string) (bs : list Booking.t)
    : option Booking.t :=
  match bs with
  | [] => None
  | b :: rest =>
      if String.eqb (Booking.bookingReference b) reference then Some b
      else findByReference reference rest
  end.

(** [bookings.filter(...).reduce((sum, b) => sum + b.totalAmount, 0)] over the
    bookings whose payment is completed. *)
Definition totalRevenueOf (bs : list Booking.t) : Z :=
  fold_left (fun sum b => sum + Booking.totalAmount b)
    (filter (hasPayment Completed) bs) 0.

(** [bookings.filter(...).reduce((sum, b) => sum + b.numberOfTickets, 0)] over
    the confirmed bookings. *)
Definition totalTicketsSoldOf (bs : list Booking.t) : Z :=
  fold_left (fun sum b => sum + Booking.numberOfTickets b)
    (filter (hasStatus Confirmed) bs) 0.

Module Stats.
(** The [stats] object of [GET /api/bookings/analytics]. *)
Record t : Type := mk {
  totalBookings : nat;
  confirmedBookings : nat;
  cancelledBookings : nat;
  waitlistedBookings : nat;
  totalRevenue : Z;
  totalTicketsSold : Z
}.
End Stats.

Module EventStats.
(** The [stats] object of [GET /api/bookings/event/:eventId]. *)
Record t : Type := mk {
  totalBookings : nat;
  confirmedBookings : nat;
  cancelledBookings : nat;
  totalRevenue : Z;
  totalTicketsSold : Z
}.
End EventStats.

Definition analyticsStats (bs : list Booking.t) : Stats.t :=
  Stats.mk (List.length bs)
    (List.length (filter (hasStatus Confirmed) bs))
    (List.length (filter (hasStatus Cancelled) bs))
    (List.length (filter (hasStatus Waitlisted) bs))
    (totalRevenueOf bs)
    (totalTicketsSoldOf bs).

Definition eventStats (bs : list Booking.t) : EventStats.t :=
  EventStats.mk (List.length bs)
    (List.length (filter (hasStatus Confirmed) bs))
    (List.length (filter (hasStatus Cancelled) bs))
    (totalRevenueOf bs)
    (totalTicketsSoldOf bs).

Module WaitlistEntry.
(** One element of [waitlistByEvent]: the group key, its count and the title
    looked up for it. *)
Record t : Type := mk {
  _id : string;
  count : nat;
  title : string
}.
End WaitlistEntry.

(** [{ $group: { _id: '$eventId', count: { $sum: 1 } } }]: one group per event
    id, here in the order in which the ids first occur. *)
Fixpoint countInto (eventId : string) (groups : list (string * nat))
    : list (string * nat) :=
  match groups with
  | [] => [(eventId, 1%nat)]
  | (key, n) :: rest =>
      if String.eqb key eventId then (key, S n) :: rest
      else (key, n) :: countInto eventId rest
  end.

(** [Booking.aggregate([{ $match: { bookingStatus: 'waitlisted' } },
                        { $group: ... }])] *)
Definition waitlistGroups (bs : list Booking.t) : list (string * nat) :=
  fold_left (fun groups b => countInto (Booking.eventId b) groups)
    (filter (hasStatus Waitlisted) bs) [].

(** What a route hands to [res.json]: a plain object, or an object holding
    stored documents. *)
Inductive Reply : Type :=
| ReplyJson (r : Response)
| ReplyBooking (doc : Booking.t)
| ReplyBookings (count : nat) (docs : list Booking.t)
| ReplyEventBookings (stats : EventStats.t) (docs : list Booking.t)
| ReplyAnalytics (stats : Stats.t) (waitlistByEvent : list WaitlistEntry.t).

Definition failedWith (label : string) (msg : string) (err : Error) : M Reply :=
  console_error label ;;
  ret (ReplyJson (mkResponse 500
                    (JObj [("error", JStr msg);
                           ("details", JStr (message err))]))).

(** [Booking.find(filter)], in stored order. *)
Definition Booking_find (keep : Booking.t -> bool) : M (list Booking.t) :=
  fun w => (Return (filter keep (bookings w)), w).

(** [Booking.find(filter).sort({ createdAt: -1 })] *)
Definition Booking_find_newest_first (keep : Booking.t -> bool)
    : M (list Booking.t) :=
  fun w => (Return (sortByCreatedAtDesc (filter keep (bookings w))), w).

(** [Booking.findOne(filter)]: the first stored document that matches. *)
Definition Booking_findOne (keep : Booking.t -> bool) : M (option Booking.t) :=
  fun w => (Return (find keep (bookings w)), w).

(** [router.get('/', verifyToken, ...)] *)
Definition listMyBookings (u : User.t) : M Reply :=
  tryCatch
    (bookings <- Booking_find_newest_first (isOwnedBy (User._id u)) ;;
     ret (ReplyBookings (List.length bookings) bookings))
    (failedWith "Get bookings error:" "Failed to fetch bookings").

(** [router.get('/event/:eventId/me', verifyToken, ...)] *)
Definition checkMyBooking (u : User.t) (eventId : string) : M Reply :=
  tryCatch
    (found <- Booking_findOne (isActiveForUser eventId (User._id u)) ;;
     match found with
     | None => ret (ReplyJson (mkResponse 200 (JObj [("hasBooking", JBool false)])))
     | Some booking =>
         ret (ReplyJson
                (mkResponse 200
                   (JObj [("hasBooking", JBool true);
                          ("bookingStatus",
                           JStr (bookingStatusName (Booking.bookingStatus booking)));
                          ("bookingReference",
                           JStr (Booking.bookingReference booking))])))
     end)
    (failedWith "Check event booking error:" "Failed to verify booking").

(** The [waitlistByEvent.map(async entry => ...)] of the analytics route: one
    event fetch per group, issued in order; a failed fetch gives the title
    ['Unknown event']. *)
Fixpoint withEventTitles (groups : list (string * nat)) : M (list WaitlistEntry.t) :=
  match groups with
  | [] => ret []
  | (eventId, n) :: rest =>
      entry <- tryCatch
                 (event <- axios_get eventId ;;
                  ret (WaitlistEntry.mk eventId n (Event.title event)))
                 (fun err => ret (WaitlistEntry.mk eventId n "Unknown event")) ;;
      entries <- withEventTitles rest ;;
      ret (entry :: entries)
  end.

(** [Booking.aggregate([...])] of the analytics route. *)
Definition Booking_aggregate_waitlist : M (list (string * nat)) :=
  fun w => (Return (waitlistGroups (bookings w)), w).

(** [router.get('/analytics', verifyToken, ...)] *)
Definition getAnalytics (u : User.t) : M Reply :=
  if negb (String.eqb (User.role u) "admin")
  then ret (ReplyJson (mkResponse 403 (errorBody "Access denied. Admin only.")))
  else
    tryCatch
      (bookings <- Booking_find (fun _ => true) ;;
       let stats := analyticsStats bookings in
       waitlistByEvent <- Booking_aggregate_waitlist ;;
       waitlistWithEvents <- withEventTitles waitlistByEvent ;;
       ret (ReplyAnalytics stats waitlistWithEvents))
      (failedWith "Get analytics error:" "Failed to fetch booking analytics").

(** The ownership test shared by the two single-booking reads:
    [booking.userId !== req.user._id && req.user.role !== 'admin']. *)
Definition accessDenied (u : User.t) (booking : Booking.t) : bool :=
  negb (String.eqb (Booking.userId booking) (User._id u))
  && negb (String.eqb (User.role u) "admin").

Definition bookingOrRefusal (u : User.t) (found : option Booking.t) : M Reply :=
  match found with
  | None => ret (ReplyJson (mkResponse 404 (errorBody "Booking not found")))
  | Some booking =>
      if accessDenied u booking
      then ret (ReplyJson (mkResponse 403 (errorBody "Access denied")))
      else ret (ReplyBooking booking)
  end.

(** [router.get('/:id', verifyToken, ...)] *)
Definition getBooking (u : User.t) (id : nat) : M Reply :=
  tryCatch
    (found <- (fun w => (Return (findById id (bookings w)), w)) ;;
     bookingOrRefusal u found)
    (failedWith "Get booking error:" "Failed to fetch booking").

(** [router.get('/reference/:reference', verifyToken, ...)] *)
Definition getBookingByReference (u : User.t) (reference : string) : M Reply :=
  tryCatch
    (found <- (fun w => (Return (findByReference reference (bookings w)), w)) ;;
     bookingOrRefusal u found)
    (failedWith "Get booking by reference error:" "Failed to fetch booking").

(** [router.get('/event/:eventId', verifyToken, ...)] *)
Definition getEventBookings (u : User.t) (eventId : string) : M Reply :=
  tryCatch
    (if negb (String.eqb (User.role u) "admin")
     then ret (ReplyJson (mkResponse 403 (errorBody "Access denied. Admin only.")))
     else
       bookings <- Booking_find_newest_first (isForEvent eventId) ;;
       ret (ReplyEventBookings (eventStats bookings) bookings))
    (failedWith "Get event bookings error:" "Failed to fetch bookings").

(** [$set: { bookingStatus: 'cancelled', paymentStatus: 'refunded' }] *)
Definition cancelAndRefund (b : Booking.t) : Booking.t :=
  Booking.set_paymentStatus Refunded (Booking.set_bookingStatus Cancelled b).

(** [Booking.updateMany({ eventId, bookingStatus: { $ne: 'cancelled' } },
      { $set: ... })]: an update in place, which does not go through
    [save()]. *)
Definition Booking_updateMany_cancel (eventId : string) : M unit :=
  fun w =>
    (Return tt,
     set_bookings
       (map (fun b => if isActiveFor eventId b then cancelAndRefund b else b)
          (bookings w))
       w).

(** [router.patch('/event/:eventId/cancel-all', ...)] *)
Definition cancelAllForEvent (eventId : string) : M Response :=
  tryCatch
    (bookings <- Booking_find (isActiveFor eventId) ;;
     Booking_updateMany_cancel eventId ;;
     ret (mkResponse 200
            (JObj [("message", JStr "All bookings cancelled successfully");
                   ("count", JNum (Z.of_nat (List.length bookings)))])))
    (fun err =>
       console_error "Cancel all bookings error:" ;;
       ret (mkResponse 500
              (JObj [("error", JStr "Failed to cancel bookings");
                     ("details", JStr (message err))]))).

(** ** The allowed origins of [server.js] *)

(** [s.split(',')]: the pieces between the separators; never empty, an empty
    string gives one empty piece. *)
Fixpoint splitOn (sep : Ascii.ascii) (s : string) : list string :=
  match s with
  | EmptyString => [EmptyString]
  | String c rest =>
      if Ascii.eqb c sep then EmptyString :: splitOn sep rest
      else
        match splitOn sep rest with
        | piece :: pieces => String c piece :: pieces
        | [] => [String c EmptyString]
        end
  end.

(** [[...new Set(l)]]: each value once, at the place where it first occurs. *)
Fixpoint uniqueInOrder (l : list string) (seen : list string) : list string :=
  match l with
  | [] => []
  | x :: rest =>
      if existsb (String.eqb x) seen then uniqueInOrder rest seen
      else x :: uniqueInOrder rest (x :: seen)
  end.

Definition defaultAllowedOrigins : list string :=
  ["http://localhost:3000";
   "https://wonderful-water-07646600f.3.azurestaticapps.net";
   "https://wonderful-water-07646600f-preview.eastus2.3.azurestaticapps.net"].

(** [process.env.CORS_ALLOWED_ORIGINS || ''] *)
Definition corsSetting (CORS_ALLOWED_ORIGINS : option string) : string :=
  match CORS_ALLOWED_ORIGINS with
  | Some s => s
  | None => ""
  end.

Section AllowedOrigins.

(** [String.prototype.trim], a built-in, is taken as given. *)
Variable trim : string -> string.

(** [(process.env.CORS_ALLOWED_ORIGINS || '').split(',')
      .map(origin => origin.trim()).filter(Boolean)] *)
Definition envAllowedOrigins (CORS_ALLOWED_ORIGINS : option string) : list string :=
  filter (fun origin => negb (String.eqb origin ""))
    (map trim (splitOn ","%char (corsSetting CORS_ALLOWED_ORIGINS))).

(** [[...new Set([...defaultAllowedOrigins, ...envAllowedOrigins])]] *)
Definition allowedOrigins (CORS_ALLOWED_ORIGINS : option string) : list string :=
  uniqueInOrder (defaultAllowedOrigins ++ envAllowedOrigins CORS_ALLOWED_ORIGINS) [].

End AllowedOrigins.

(** A trimmer of blanks, to run the definitions on sample settings. *)
Fixpoint dropLeadingBlanks (s : string) : string :=
  match s with
  | String " "%char rest => dropLeadingBlanks rest
  | _ => s
  end.

Fixpoint reverseString (s acc : string) : string :=
  match s with
  | EmptyString => acc
  | String c rest => reverseString rest (String c acc)
  end.

Definition trimBlanks (s : string) : string :=
  reverseString (dropLeadingBlanks (reverseString (dropLeadingBlanks s) "")) "".

Section BookingRoutes.

(** [models/Booking.js] is not among the sources.  Its schema validation,
    run by [save()], and its reference generator are taken as given. *)
Variable schemaValid : Booking.t -> bool.
Variable bookingReferenceFor : nat -> Z -> string.

(** Modelled from the spec: [new Booking({...})] of the absent
    [models/Booking.js].  The store assigns the id, the reference is
    generated at creation, [totalAmount = numberOfTickets * pricePerTicket],
    a booking starts [pending] with payment [pending] and no transaction
    id. *)
Definition bookingDocument (id : nat) (createdAt : Z) (u : User.t)
    (event : Event.t) (numberOfTickets : Z) (paymentMethod : string)
    : Booking.t :=
  Booking.mk id (bookingReferenceFor id createdAt)
    (User._id u) (User.name u) (User.email u)
    (Event._id event) (Event.title event) (Event.date event)
    (Event.venue event) (Event.time event)
    numberOfTickets (Event.price event)
    (numberOfTickets * Event.price event)
    paymentMethod Pending PaymentPending None createdAt.

Definition new_Booking (u : User.t) (event : Event.t) (numberOfTickets : Z)
    (paymentMethod : string) : M Booking.t :=
  fun w =>
    (Return (bookingDocument (nextId w) (now w) u event numberOfTickets paymentMethod),
     bump_nextId w).

(** Modelled from the spec: [await doc.save()] of the absent
    [models/Booking.js]: validates, then writes the document under its
    id. *)
Definition Booking_save (doc : Booking.t) : M unit :=
  fun w =>
    if schemaValid doc
    then (Return tt, log (BookingSave doc) (set_bookings (upsert doc (bookings w)) w))
    else (Throw (mkError "Booking validation failed" JUndefined), w).

Definition Booking_findById (id : nat) : M (option Booking.t) :=
  fun w => (Return (findById id (bookings w)), w).

Definition Booking_find_waitlisted (eventId : string) : M (list Booking.t) :=
  fun w => (Return (waitlistOf eventId (bookings w)), w).

(** Modelled from the spec: [utils/email.js] is not among the sources;
    notifications are best effort and never fail the caller. *)
Definition sendBookingEmail (doc : Booking.t) (event : Event.t) : M unit :=
  fun w => (Return tt, log (SendBookingEmail doc event) w).

Definition sendWaitlistEmail (doc : Booking.t) (event : Event.t) : M unit :=
  fun w => (Return tt, log (SendWaitlistEmail doc event) w).

(** The [for (const waitlisted of waitlistedBookings)] loop of
    [promoteWaitlistIfPossible]. *)
Fixpoint promoteLoop (eventId : string) (event : Event.t)
    (waitlistedBookings : list Booking.t)
    (availableSeats : Z) : M unit :=
  match waitlistedBookings with
  | [] => ret tt
  | waitlisted :: rest =>
      if availableSeats <? Booking.numberOfTickets waitlisted then ret tt
      else
        txn <- generateTransactionId ;;
        let promoted := markConfirmed txn waitlisted in
        Booking_save promoted ;;
        let availableSeats' := availableSeats - Booking.numberOfTickets waitlisted in
        axios_patch eventId (Booking.numberOfTickets waitlisted) ;;
        sendBookingEmail promoted event ;;
        promoteLoop eventId event rest availableSeats'
  end.

Definition promoteWaitlistIfPossible (eventId : string)
    (availableSeatsHint : json) : M unit :=
  tryCatch
    (event <- axios_get eventId ;;
     let availableSeats := initialAvailableSeats availableSeatsHint event in
     if availableSeats <=? 0 then ret tt
     else
       waitlistedBookings <- Booking_find_waitlisted eventId ;;
       promoteLoop eventId event waitlistedBookings availableSeats)
    (fun err => console_error "Waitlist promotion failed:").

(** The reduced projection sent with the 202 reply. *)
Definition waitlistedProjection (booking : Booking.t) : json :=
  JObj [("bookingReference", JStr (Booking.bookingReference booking));
        ("bookingStatus", JStr (bookingStatusName (Booking.bookingStatus booking)));
        ("eventTitle", JStr (Booking.eventTitle booking));
        ("eventDate", JNum (Booking.eventDate booking));
        ("eventVenue", JStr (Booking.eventVenue booking));
        ("numberOfTickets", JNum (Booking.numberOfTickets booking))].

(** The projection sent with the 201 reply. *)
Definition confirmedProjection (booking : Booking.t) : json :=
  JObj [("bookingReference", JStr (Booking.bookingReference booking));
        ("eventTitle", JStr (Booking.eventTitle booking));
        ("eventDate", JNum (Booking.eventDate booking));
        ("eventVenue", JStr (Booking.eventVenue booking));
        ("numberOfTickets", JNum (Booking.numberOfTickets booking));
        ("totalAmount", JNum (Booking.totalAmount booking));
        ("paymentStatus", JStr (paymentStatusName (Booking.paymentStatus booking)));
        ("transactionId", transactionIdJson (Booking.transactionId booking));
        ("bookingStatus", JStr (bookingStatusName (Booking.bookingStatus booking)))].

Definition cancelledProjection (booking : Booking.t) : json :=
  JObj [("bookingReference", JStr (Booking.bookingReference booking));
        ("bookingStatus", JStr (bookingStatusName (Booking.bookingStatus booking)));
        ("paymentStatus", JStr (paymentStatusName (Booking.paymentStatus booking)));
        ("refundAmount", JNum (Booking.totalAmount booking))].

(** The part of [router.post('/')] that follows a successful payment. *)
Definition confirmAfterPayment (eventId : string) (numberOfTickets : Z)
    (event : Event.t) (booking : Booking.t) : M Response :=
  txn <- generateTransactionId ;;
  let booking := markConfirmed txn booking in
  patched <- tryCatch
               (axios_patch eventId numberOfTickets ;; ret (@None Error))
               (fun err => ret (Some err)) ;;
  match patched with
  | Some err =>
      ret (mkResponse 500
             (JObj [("error", JStr "Failed to update event seats");
                    ("details", errorDetails err)]))
  | None =>
      Booking_save booking ;;
      sendBookingEmail booking event ;;
      ret (mkResponse 201
             (JObj [("message", JStr "Booking confirmed successfully");
                    ("booking", confirmedProjection booking)]))
  end.

(** [router.post('/')] from [const shouldWaitlist = ...] on: the event has
    been fetched and is open for booking. *)
Definition reserveSeats (req : CreateRequest) (eventId : string)
    (numberOfTickets : Z) (event : Event.t) : M Response :=
  let shouldWaitlist := Event.availableSeats event <? numberOfTickets in
  if shouldWaitlist && negb (Body.joinWaitlist (body req))
  then
    ret (mkResponse 400
           (JObj [("error", JStr "Not enough seats available");
                  ("availableSeats", JNum (Event.availableSeats event));
                  ("requested", JNum numberOfTickets)]))
  else
    booking <- new_Booking (user req) event numberOfTickets
                 (paymentMethodOrDefault (Body.paymentMethod (body req))) ;;
    if shouldWaitlist
    then
      let booking := markWaitlisted booking in
      Booking_save booking ;;
      sendWaitlistEmail booking event ;;
      ret (mkResponse 202
             (JObj [("message",
                     JStr "Event is full. You have been added to the waitlist.");
                    ("booking", waitlistedProjection booking)]))
    else
      r <- math_random ;;
      if negb (paymentSucceeds r)
      then
        let booking := markPaymentFailed booking in
        Booking_save booking ;;
        ret (mkResponse 400
               (JObj [("error", JStr "Payment failed. Please try again.");
                      ("bookingReference",
                       JStr (Booking.bookingReference booking))]))
      else confirmAfterPayment eventId numberOfTickets event booking.

Definition creationFailed (err : Error) : M Response :=
  console_error "Booking creation error:" ;;
  ret (mkResponse 500
         (JObj [("error", JStr "Failed to create booking");
                ("details", JStr (message err))])).

(** [router.post('/', verifyToken, async (req, res) => ...)] *)
Definition createBooking (req : CreateRequest) : M Response :=
  tryCatch
    (match requiredFields (body req) with
     | None =>
         ret (mkResponse 400 (errorBody "Event ID and number of tickets are required"))
     | Some (eventId, numberOfTickets) =>
         fetched <- tryCatch
                      (event <- axios_get eventId ;; ret (Some event))
                      (fun err => ret None) ;;
         match fetched with
         | None => ret (mkResponse 404 (errorBody "Event not found"))
         | Some event =>
             if String.eqb (Event.status event) "cancelled"
             then ret (mkResponse 400 (errorBody "Event has been cancelled"))
             else
               today <- date_now ;;
               if Event.date event <? today
               then ret (mkResponse 400 (errorBody "Cannot book tickets for past events"))
               else reserveSeats req eventId numberOfTickets event
         end
     end)
    creationFailed.

(** The seat restoration of [router.patch('/:id/cancel')]: the value left in
    [restoredAvailability]. *)
Definition restoreSeats (wasConfirmed : bool) (booking : Booking.t) : M json :=
  if wasConfirmed
  then
    tryCatch
      (data <- axios_patch (Booking.eventId booking)
                 (- Booking.numberOfTickets booking) ;;
       ret (getField "availableSeats" data))
      (fun err => console_error "Failed to restore event seats:" ;; ret JUndefined)
  else ret JUndefined.

Definition cancellationFailed (err : Error) : M Response :=
  console_error "Cancel booking error:" ;;
  ret (mkResponse 500
         (JObj [("error", JStr "Failed to cancel booking");
                ("details", JStr (message err))])).

(** [router.patch('/:id/cancel')] from [const wasConfirmed = ...] on: the
    booking was found, the caller may cancel it, and it is still open. *)
Definition cancelAndRestore (booking : Booking.t) : M Response :=
  let wasConfirmed :=
    BookingStatus_eqb (Booking.bookingStatus booking) Confirmed in
  let booking := markCancelled booking in
  Booking_save booking ;;
  restoredAvailability <- restoreSeats wasConfirmed booking ;;
  (if isDefined restoredAvailability
   then promoteWaitlistIfPossible (Booking.eventId booking) restoredAvailability
   else ret tt) ;;
  ret (mkResponse 200
         (JObj [("message", JStr "Booking cancelled successfully");
                ("booking", cancelledProjection booking)])).

(** [router.patch('/:id/cancel', verifyToken, async (req, res) => ...)] *)
Definition cancelBooking (req : CancelRequest) : M Response :=
  tryCatch
    (found <- Booking_findById (params_id req) ;;
     match found with
     | None => ret (mkResponse 404 (errorBody "Booking not found"))
     | Some booking =>
         if negb (String.eqb (Booking.userId booking) (User._id (caller req)))
            && negb (String.eqb (User.role (caller req)) "admin")
         then ret (mkResponse 403 (errorBody "Access denied"))
         else if BookingStatus_eqb (Booking.bookingStatus booking) Cancelled
         then ret (mkResponse 400 (errorBody "Booking is already cancelled"))
         else
           today <- date_now ;;
           if Booking.eventDate booking <? today
           then ret (mkResponse 400 (errorBody "Cannot cancel booking for past events"))
           else cancelAndRestore booking
     end)
    cancellationFailed.

(** ** Vocabulary of the properties *)

(** The seat deltas sent to the event service, in order. *)
Fixpoint seatDeltas (t : list Effect) : list (string * Z) :=
  match t with
  | [] => []
  | AxiosPatch eventId seatsToBook _ :: rest => (eventId, seatsToBook) :: seatDeltas rest
  | _ :: rest => seatDeltas rest
  end.

(** The documents written to the booking collection, in order. *)
Fixpoint savedDocs (t : list Effect) : list Booking.t :=
  match t with
  | [] => []
  | BookingSave doc :: rest => doc :: savedDocs rest
  | _ :: rest => savedDocs rest
  end.

(** The event fetches made, in order. *)
Fixpoint eventFetches (t : list Effect) : list string :=
  match t with
  | [] => []
  | AxiosGet eventId :: rest => eventId :: eventFetches rest
  | _ :: rest => eventFetches rest
  end.

Definition ticketsOf (l : list Booking.t) : Z :=
  fold_right (fun b acc => Booking.numberOfTickets b + acc) 0 l.

(** The candidates the loop of [promoteWaitlistIfPossible] gets past its
    [break] test, starting with [availableSeats] seats. *)
Fixpoint fittingPrefix (l : list Booking.t) (availableSeats : Z) : list Booking.t :=
  match l with
  | [] => []
  | b :: rest =>
      if availableSeats <? Booking.numberOfTickets b then []
      else b :: fittingPrefix rest (availableSeats - Booking.numberOfTickets b)
  end.

(** [doc] is [b] after promotion or payment: confirmed, paid, with a
    transaction id, otherwise unchanged. *)
Definition confirmedFrom (b doc : Booking.t) : Prop :=
  exists txn, doc = markConfirmed txn b.

(** A creation request that gets as far as the seat check on [event]:
    the required fields are there, the event was fetched, is not cancelled
    and is not in the past. *)
Definition reachesSeatCheck (req : CreateRequest) (w : World)
    (eventId : string) (numberOfTickets : Z) (event : Event.t) : Prop :=
  requiredFields (body req) = Some (eventId, numberOfTickets)
  /\ eventServiceGet (env w) (getsMade w) eventId = GetOk event
  /\ Event.status event <> "cancelled"
  /\ now w <= Event.date event.

(** The world right after the event fetch of a handler. *)
Definition afterFetch (eventId : string) (w : World) : World :=
  log (AxiosGet eventId) (bump_gets w).

(** The document [router.post('/')] builds for a request in world [w]. *)
Definition draftBooking (req : CreateRequest) (w : World) (event : Event.t)
    (numberOfTickets : Z) : Booking.t :=
  bookingDocument (nextId w) (now w) (user req) event numberOfTickets
    (paymentMethodOrDefault (Body.paymentMethod (body req))).

(** The next value of [Math.random()] lets the simulated payment through. *)
Definition nextPaymentSucceeds (w : World) : bool :=
  paymentSucceeds (mathRandom (env w) (randomsDrawn w)).

(** A cancellation request that gets as far as the state change on
    [booking]. *)
Definition reachesCancellation (req : CancelRequest) (w : World)
    (booking : Booking.t) : Prop :=
  findById (params_id req) (bookings w) = Some booking
  /\ (Booking.userId booking = User._id (caller req)
      \/ User.role (caller req) = "admin")
  /\ Booking.bookingStatus booking <> Cancelled
  /\ now w <= Booking.eventDate booking.

(** The world in which [confirmAfterPayment] has sent its seat delta and got
    [reply]: the document was built, one draw decided the payment and one
    went into the transaction id. *)
Definition afterSeatDelta (eventId : string) (n : Z) (reply : PatchReply)
    (w : World) : World :=
  log (AxiosPatch eventId n reply)
    (bump_patches (bump_randoms (bump_randoms (bump_nextId (afterFetch eventId w))))).

Definition createdNoLater (a b : Booking.t) : Prop :=
  Booking.createdAt a <= Booking.createdAt b.

Definition applySaves (docs : list Booking.t) (bs : list Booking.t) : list Booking.t :=
  fold_left (fun acc doc => upsert doc acc) docs bs.

(** The reply of the event service to the seat restoration of [b]. *)
Definition restoreReply (b : Booking.t) (w : World) : PatchReply :=
  eventServicePatch (env w) (patchesMade w) (Booking.eventId b)
    (- Booking.numberOfTickets b).

(** The world once [b] is stored as cancelled and the restoration call has
    been answered. *)
Definition afterRestore (b : Booking.t) (w : World) : World :=
  log (AxiosPatch (Booking.eventId b) (- Booking.numberOfTickets b) (restoreReply b w))
    (bump_patches
       (log (BookingSave (markCancelled b))
          (set_bookings (upsert (markCancelled b) (bookings w)) w))).

(** [seatResponse.data?.availableSeats], or [undefined] after a failure. *)
Definition restoredAvailabilityOf (reply : PatchReply) : json :=
  match reply with
  | PatchOk data => getField "availableSeats" data
  | PatchErr _ => JUndefined
  end.

Definition cancelledReply (b : Booking.t) : Response :=
  mkResponse 200
    (JObj [("message", JStr "Booking cancelled successfully");
           ("booking", cancelledProjection (markCancelled b))]).

(** The transaction id a creation in world [w] assigns: the first draw
    decides the payment, the second goes into the id. *)
Definition paidTransactionId (w : World) : string :=
  "TXN" ++ showZ (now w)
    ++ showZ (Qfloor (binary64 (mathRandom (env w) (S (randomsDrawn w)) * 10000))).

(** The document a paid creation in world [w] ends up with. *)
Definition paidBooking (req : CreateRequest) (w : World) (event : Event.t)
    (numberOfTickets : Z) : Booking.t :=
  markConfirmed (paidTransactionId w) (draftBooking req w event numberOfTickets).

Definition createdNoEarlier (a b : Booking.t) : Prop :=
  Booking.createdAt b <= Booking.createdAt a.

(** The caller may read [doc]: the owner or an admin. *)
Definition mayRead (u : User.t) (doc : Booking.t) : Prop :=
  Booking.userId doc = User._id u \/ User.role u = "admin".

(** A stored booking of the user for the event that is not cancelled. *)
Definition activeBookingOf (u : User.t) (eventId : string) (bs : list Booking.t)
    (b : Booking.t) : Prop :=
  In b bs /\ Booking.eventId b = eventId /\ Booking.userId b = User._id u
  /\ Booking.bookingStatus b <> Cancelled.

(** The count recorded for an event id in a list of groups, zero when the id
    has no group. *)
Definition groupCount (eventId : string) (groups : list (string * nat)) : nat :=
  match find (fun g => String.eqb (fst g) eventId) groups with
  | Some g => snd g
  | None => 0%nat
  end.

Definition entryGroup (e : WaitlistEntry.t) : string * nat :=
  (WaitlistEntry._id e, WaitlistEntry.count e).

(** The titles follow the replies: the [i]-th entry was looked up by the GET
    numbered [first + i]; a reply with an event gives that event's title, an
    error gives the fallback. *)
Definition titlesFollowReplies (e : Env) (first : nat)
    (entries : list WaitlistEntry.t) : Prop :=
  forall i entry,
    nth_error entries i = Some entry ->
    match eventServiceGet e (first + i) (WaitlistEntry._id entry) with
    | GetOk event => WaitlistEntry.title entry = Event.title event
    | GetErr _ => WaitlistEntry.title entry = "Unknown event"
    end.

(** ** Sample data *)

Definition alice : User.t := User.mk "u1" "Alice" "alice@example.com" "user".

Definition concert (availableSeats : Z) : Event.t :=
  Event.mk "e1" "Concert" 2000 "Hall" "19:00" 50 "upcoming" availableSeats 20.

(** An environment that always draws [r] and always gives the same
    replies. *)
Definition steadyEnv (r : Q) (get : GetReply) (patch : PatchReply) : Env :=
  mkEnv (fun _ => r) (fun _ _ => get) (fun _ _ _ => patch).

Definition worldAt (e : Env) (bs : list Booking.t) : World :=
  mkWorld e bs (List.length bs) 1000 0 0 0 [].

Definition acceptAll (doc : Booking.t) : bool := true.

(** A schema that wants at least one ticket. *)
Definition atLeastOneTicket (doc : Booking.t) : bool :=
  1 <=? Booking.numberOfTickets doc.

Definition sampleReference (id : nat) (t : Z) : string :=
  "BK" ++ showZ t ++ showZ (Z.of_nat id).

Definition ledgerDown : Error := mkError "Request failed with status code 500"
  (JObj [("error", JStr "Failed to update seats")]).

Definition notEnoughSeats : Error := mkError "Request failed with status code 400"
  (JObj [("error", JStr "Not enough seats available")]).

Definition seatsReply (availableSeats : Z) : PatchReply :=
  PatchOk (JObj [("message", JStr "Seats updated successfully");
                 ("availableSeats", JNum availableSeats)]).

Definition request (eventId : string) (numberOfTickets : Z) (joinWaitlist : bool)
    : CreateRequest :=
  mkCreateRequest alice
    (Body.mk (Some eventId) (Some numberOfTickets) (Some "credit_card") joinWaitlist).

(** A stored booking of [alice] for the concert. *)
Definition stored (id : nat) (numberOfTickets : Z) (st : BookingStatus)
    (pay : PaymentStatus) (txn : option string) (createdAt : Z) : Booking.t :=
  Booking.mk id (sampleReference id createdAt) "u1" "Alice" "alice@example.com"
    "e1" "Concert" 2000 "Hall" "19:00" numberOfTickets 50 (numberOfTickets * 50)
    "credit_card" st pay txn createdAt.

Definition cancelRequest (id : nat) : CancelRequest := mkCancelRequest alice id.

(** Two seats left, three wanted. *)
Definition shortWorld : World :=
  worldAt (steadyEnv (1 # 2) (GetOk (concert 2)) (seatsReply 0)) [].

(** Ten seats left, payment goes through, the event service accepts. *)
Definition openWorld : World :=
  worldAt (steadyEnv (1 # 2) (GetOk (concert 10)) (seatsReply 8)) [].

(** The binary64 number next to [0.5001], just below it. *)
Definition nearHalf : Q := 2252250173647985 # 4503599627370496.

(** Ten seats left, every draw is [nearHalf], the event service accepts. *)
Definition roundingWorld : World :=
  worldAt (steadyEnv nearHalf (GetOk (concert 10)) (seatsReply 8)) [].

(** Ten seats left, payment goes through, the event service fails. *)
Definition ledgerDownWorld : World :=
  worldAt (steadyEnv (1 # 2) (GetOk (concert 10)) (PatchErr ledgerDown)) [].

(** Ten seats left, payment is declined. *)
Definition declinedWorld : World :=
  worldAt (steadyEnv (1 # 20) (GetOk (concert 10)) (seatsReply 8)) [].

(** A sold-out concert: X holds the five seats, Y and Z wait, Y first. *)
Definition bookingX : Booking.t :=
  stored 0 5 Confirmed Completed (Some "TXN4001234") 400.
Definition bookingY (numberOfTickets : Z) : Booking.t :=
  stored 1 numberOfTickets Waitlisted PaymentPending None 500.
Definition bookingZ (numberOfTickets : Z) : Booking.t :=
  stored 2 numberOfTickets Waitlisted PaymentPending None 600.

Definition soldOut (patch : PatchReply) (y z : Z) : World :=
  worldAt (steadyEnv (1 # 2) (GetOk (concert 0)) patch)
    [bookingX; bookingY y; bookingZ z].

Definition bob : User.t := User.mk "u2" "Bob" "bob@example.com" "user".

Definition root : User.t := User.mk "u9" "Root" "root@example.com" "admin".

Definition rejectAll (doc : Booking.t) : bool := false.

(** The event service cannot be reached. *)
Definition downWorld (bs : list Booking.t) : World :=
  worldAt (steadyEnv (1 # 2) (GetErr ledgerDown) (PatchErr ledgerDown)) bs.

Definition cancelledConcert : Event.t :=
  Event.mk "e1" "Concert" 2000 "Hall" "19:00" 50 "cancelled" 10 20.

(** The concert has been called off. *)
Definition calledOffWorld : World :=
  worldAt (steadyEnv (1 # 2) (GetOk cancelledConcert) (seatsReply 8)) [].

(** A booking of [bob] for another event, waiting. *)
Definition bookingOfBob : Booking.t :=
  Booking.mk 3 (sampleReference 3 700) "u2" "Bob" "bob@example.com"
    "e2" "Play" 3000 "Theatre" "20:00" 2 30 60
    "credit_card" Waitlisted PaymentPending None 700.

(** The sold-out concert and, beside it, the booking of [bob]. *)
Definition twoEvents (patch : PatchReply) (y z : Z) : World :=
  worldAt (steadyEnv (1 # 2) (GetOk (concert 0)) patch)
    [bookingX; bookingY y; bookingZ z; bookingOfBob].

(** The event service knows the concert and fails for every other event. *)
Definition concertOnlyWorld : World :=
  worldAt (mkEnv (fun _ => 1 # 2)
             (fun _ eventId =>
                if String.eqb eventId "e1" then GetOk (concert 0)
                else GetErr ledgerDown)
             (fun _ _ _ => PatchErr ledgerDown))
    [bookingX; bookingY 3; bookingZ 2; bookingOfBob].

(** ** Running the handlers *)

Local Open Scope list_scope.

Ltac unfold_monad :=
  unfold generateTransactionId in *;
  unfold tryCatch, bind, ret, axios_get, axios_patch, math_random,
    date_now, console_error, new_Booking, Booking_save,
    Booking_findById, Booking_find_waitlisted, sendBookingEmail,
    sendWaitlistEmail in *.

Lemma seatDeltas_app (t u : list Effect) :
  seatDeltas (t ++ u) = seatDeltas t ++ seatDeltas u.
Proof.
  induction t as [|e t IH]; [reflexivity|].
  destruct e; cbn; rewrite IH; reflexivity.
Qed.

Lemma savedDocs_app (t u : list Effect) :
  savedDocs (t ++ u) = savedDocs t ++ savedDocs u.
Proof.
  induction t as [|e t IH]; [reflexivity|].
  destruct e; cbn; rewrite IH; reflexivity.
Qed.

Lemma eventFetches_app (t u : list Effect) :
  eventFetches (t ++ u) = eventFetches t ++ eventFetches u.
Proof.
  induction t as [|e t IH]; [reflexivity|].
  destruct e; cbn; rewrite IH; reflexivity.
Qed.

(** A request that passes the checks before the seat check runs
    [reserveSeats] on the fetched event. *)
Lemma createBooking_reaches (req : CreateRequest) (w : World)
    (eventId : string) (n : Z) (event : Event.t) :
  reachesSeatCheck req w eventId n event ->
  createBooking req w
  = tryCatch (reserveSeats req eventId n event) creationFailed (afterFetch eventId w).
Proof.
  intros (Hreq & Hget & Hstatus & Hdate).
  unfold createBooking, tryCatch at 1, bind, tryCatch at 1, bind, axios_get, date_now, ret.
  rewrite Hreq, Hget. cbn.
  apply String.eqb_neq in Hstatus. rewrite Hstatus.
  apply Z.ltb_ge in Hdate.
  unfold afterFetch, log, bump_gets. cbn. rewrite Hdate.
  reflexivity.
Qed.

(** C7: when the event has fewer seats than requested and the caller did not
    opt into the waitlist, creation is refused with the 400 reply
    ["Not enough seats available"] that carries the event's
    [availableSeats] and the requested count; the booking collection is
    unchanged, nothing is saved and no seat delta is sent. *)
Theorem shortage_without_waitlist_is_refused (req : CreateRequest) (w : World)
    (eventId : string) (n : Z) (event : Event.t) :
  reachesSeatCheck req w eventId n event ->
  Event.availableSeats event < n ->
  Body.joinWaitlist (body req) = false ->
  exists w',
    createBooking req w
    = (Return (mkResponse 400
                 (JObj [("error", JStr "Not enough seats available");
                        ("availableSeats", JNum (Event.availableSeats event));
                        ("requested", JNum n)])), w')
    /\ bookings w' = bookings w
    /\ trace w' = trace w ++ [AxiosGet eventId]
    /\ savedDocs (trace w') = savedDocs (trace w)
    /\ seatDeltas (trace w') = seatDeltas (trace w).
Proof.
  intros Hreach Hshort Hjoin.
  exists (afterFetch eventId w).
  rewrite (createBooking_reaches _ _ _ _ _ Hreach).
  unfold tryCatch, reserveSeats, ret.
  apply Z.ltb_lt in Hshort. rewrite Hshort, Hjoin. cbn.
  rewrite savedDocs_app, seatDeltas_app, !app_nil_r.
  repeat split; reflexivity.
Qed.

Ltac world_simpl :=
  unfold afterFetch, log, set_bookings, bump_nextId, bump_randoms, bump_gets,
    bump_patches in *; cbn in *.

Ltac trace_simpl :=
  cbn; rewrite <- ?app_assoc; cbn;
  rewrite ?seatDeltas_app, ?savedDocs_app, ?eventFetches_app; cbn;
  rewrite ?app_nil_r.

(** [tauto] generalises over the whole context; the lemmas on plain data
    are kept free of the section's variables. *)
Ltac forget_section := try clear bookingReferenceFor; try clear schemaValid.
Ltac propositional := forget_section; tauto.

(** C8: when the event has fewer seats than requested and the caller opted
    into the waitlist, the booking is stored as waitlisted with payment
    pending and no transaction id; no random draw is made for a payment, no
    seat delta is sent, and the 202 reply carries exactly the reference of the
    stored booking, the status [waitlisted], the title, date and venue of the
    fetched event and the requested ticket count. *)
Theorem shortage_with_waitlist_is_queued (req : CreateRequest) (w : World)
    (eventId : string) (n : Z) (event : Event.t) :
  reachesSeatCheck req w eventId n event ->
  Event.availableSeats event < n ->
  Body.joinWaitlist (body req) = true ->
  schemaValid (markWaitlisted (draftBooking req w event n)) = true ->
  exists booking w',
    createBooking req w
    = (Return (mkResponse 202
                 (JObj [("message",
                         JStr "Event is full. You have been added to the waitlist.");
                        ("booking",
                         JObj [("bookingReference",
                                JStr (Booking.bookingReference booking));
                               ("bookingStatus", JStr "waitlisted");
                               ("eventTitle", JStr (Event.title event));
                               ("eventDate", JNum (Event.date event));
                               ("eventVenue", JStr (Event.venue event));
                               ("numberOfTickets", JNum n)])])), w')
    /\ booking = markWaitlisted (draftBooking req w event n)
    /\ bookings w' = upsert booking (bookings w)
    /\ Booking.bookingStatus booking = Waitlisted
    /\ Booking.paymentStatus booking = PaymentPending
    /\ Booking.transactionId booking = None
    /\ Booking.numberOfTickets booking = n
    /\ randomsDrawn w' = randomsDrawn w
    /\ trace w' = trace w ++ [AxiosGet eventId; BookingSave booking;
                              SendWaitlistEmail booking event]
    /\ seatDeltas (trace w') = seatDeltas (trace w).
Proof.
  intros Hreach Hshort Hjoin Hvalid.
  rewrite (createBooking_reaches _ _ _ _ _ Hreach).
  apply Z.ltb_lt in Hshort.
  unfold draftBooking in Hvalid.
  unfold tryCatch, reserveSeats, bind, new_Booking, Booking_save,
    sendWaitlistEmail, ret.
  rewrite Hshort, Hjoin. world_simpl. rewrite Hvalid.
  eexists. eexists. split; [reflexivity|].
  repeat split; trace_simpl; reflexivity.
Qed.

(** Payment went through and the event service refused the seat delta. *)
Lemma createBooking_ledger_failure (req : CreateRequest) (w : World)
    (eventId : string) (n : Z) (event : Event.t) (err : Error) :
  reachesSeatCheck req w eventId n event ->
  n <= Event.availableSeats event ->
  nextPaymentSucceeds w = true ->
  eventServicePatch (env w) (patchesMade w) eventId n = PatchErr err ->
  createBooking req w
  = (Return (mkResponse 500
               (JObj [("error", JStr "Failed to update event seats");
                      ("details", errorDetails err)])),
     afterSeatDelta eventId n (PatchErr err) w).
Proof.
  intros Hreach Hfits Hpay Hpatch.
  rewrite (createBooking_reaches _ _ _ _ _ Hreach).
  apply Z.ltb_ge in Hfits. unfold nextPaymentSucceeds in Hpay.
  unfold tryCatch, reserveSeats, confirmAfterPayment. unfold_monad.
  rewrite Hfits. unfold afterSeatDelta. world_simpl.
  rewrite Hpay. cbn. rewrite Hpatch. reflexivity.
Qed.

(** The simulated payment failed. *)
Lemma createBooking_payment_failure (req : CreateRequest) (w : World)
    (eventId : string) (n : Z) (event : Event.t) :
  reachesSeatCheck req w eventId n event ->
  n <= Event.availableSeats event ->
  nextPaymentSucceeds w = false ->
  schemaValid (markPaymentFailed (draftBooking req w event n)) = true ->
  let booking := markPaymentFailed (draftBooking req w event n) in
  createBooking req w
  = (Return (mkResponse 400
               (JObj [("error", JStr "Payment failed. Please try again.");
                      ("bookingReference", JStr (Booking.bookingReference booking))])),
     log (BookingSave booking)
       (set_bookings (upsert booking (bookings w))
          (bump_randoms (bump_nextId (afterFetch eventId w))))).
Proof.
  intros Hreach Hfits Hpay Hvalid booking.
  rewrite (createBooking_reaches _ _ _ _ _ Hreach).
  apply Z.ltb_ge in Hfits. unfold nextPaymentSucceeds in Hpay.
  unfold draftBooking in *. subst booking.
  unfold tryCatch, reserveSeats. unfold_monad.
  rewrite Hfits. world_simpl.
  rewrite Hpay. cbn. rewrite Hvalid. reflexivity.
Qed.

(** C4: when the payment succeeded and the event service rejects the seat
    delta, creation answers 500 ["Failed to update event seats"] (validation
    failures answer 400), and the confirmation is abandoned: the booking
    collection is unchanged, so no booking is stored as confirmed, nothing
    is saved and no confirmation email is sent. *)
Theorem ledger_rejection_leaves_booking_unconfirmed (req : CreateRequest)
    (w : World) (eventId : string) (n : Z) (event : Event.t) (err : Error) :
  reachesSeatCheck req w eventId n event ->
  n <= Event.availableSeats event ->
  nextPaymentSucceeds w = true ->
  eventServicePatch (env w) (patchesMade w) eventId n = PatchErr err ->
  exists resp w',
    createBooking req w = (Return resp, w')
    /\ statusCode resp = 500
    /\ statusCode resp <> 400
    /\ getField "error" (payload resp) = JStr "Failed to update event seats"
    /\ bookings w' = bookings w
    /\ (forall b, In b (bookings w') ->
                  Booking.bookingStatus b = Confirmed -> In b (bookings w))
    /\ trace w' = trace w ++ [AxiosGet eventId; AxiosPatch eventId n (PatchErr err)]
    /\ savedDocs (trace w') = savedDocs (trace w).
Proof.
  intros Hreach Hfits Hpay Hpatch.
  eexists. eexists.
  split; [apply (createBooking_ledger_failure _ _ _ _ _ _ Hreach Hfits Hpay Hpatch)|].
  unfold afterSeatDelta.
  repeat split; trace_simpl; try reflexivity; [discriminate | auto].
Qed.

(** C10: on the paying path, when the payment succeeded and the seat delta
    fails, no booking document is stored at all and the 500 reply has no
    [bookingReference]; when instead the payment failed, a booking with
    status pending and payment failed is stored and the 400 reply carries
    its reference. *)
Theorem ledger_failure_stores_nothing_unlike_payment_failure
    (req : CreateRequest) (w : World) (eventId : string) (n : Z)
    (event : Event.t) :
  reachesSeatCheck req w eventId n event ->
  n <= Event.availableSeats event ->
  (forall err,
      nextPaymentSucceeds w = true ->
      eventServicePatch (env w) (patchesMade w) eventId n = PatchErr err ->
      exists resp w',
        createBooking req w = (Return resp, w')
        /\ statusCode resp = 500
        /\ bookings w' = bookings w
        /\ savedDocs (trace w') = savedDocs (trace w)
        /\ getField "bookingReference" (payload resp) = JUndefined)
  /\ (nextPaymentSucceeds w = false ->
      schemaValid (markPaymentFailed (draftBooking req w event n)) = true ->
      exists resp booking w',
        createBooking req w = (Return resp, w')
        /\ statusCode resp = 400
        /\ booking = markPaymentFailed (draftBooking req w event n)
        /\ bookings w' = upsert booking (bookings w)
        /\ savedDocs (trace w') = savedDocs (trace w) ++ [booking]
        /\ Booking.bookingStatus booking = Pending
        /\ Booking.paymentStatus booking = Failed
        /\ getField "bookingReference" (payload resp)
           = JStr (Booking.bookingReference booking)).
Proof.
  intros Hreach Hfits. split.
  - intros err Hpay Hpatch.
    eexists. eexists.
    split; [apply (createBooking_ledger_failure _ _ _ _ _ _ Hreach Hfits Hpay Hpatch)|].
    unfold afterSeatDelta.
    repeat split; trace_simpl; reflexivity.
  - intros Hpay Hvalid.
    eexists. eexists. eexists.
    split; [apply (createBooking_payment_failure _ _ _ _ _ Hreach Hfits Hpay Hvalid)|].
    repeat split; trace_simpl; reflexivity.
Qed.

(** ** The waitlist query *)

Lemma insertByCreatedAt_perm (b : Booking.t) (l : list Booking.t) :
  Permutation (b :: l) (insertByCreatedAt b l).
Proof.
  induction l as [|x l IH]; cbn; [apply Permutation_refl|].
  destruct (Booking.createdAt b <=? Booking.createdAt x).
  - apply Permutation_refl.
  - eapply perm_trans; [apply perm_swap|]. apply perm_skip, IH.
Qed.

Lemma sortByCreatedAt_perm (l : list Booking.t) :
  Permutation l (sortByCreatedAt l).
Proof.
  induction l as [|b l IH]; cbn; [constructor|].
  eapply perm_trans; [apply perm_skip, IH|]. apply insertByCreatedAt_perm.
Qed.

Lemma insertByCreatedAt_sorted (b : Booking.t) (l : list Booking.t) :
  StronglySorted createdNoLater l ->
  StronglySorted createdNoLater (insertByCreatedAt b l).
Proof.
  induction 1 as [|x l Hsorted IH Hall]; cbn.
  - repeat constructor.
  - destruct (Booking.createdAt b <=? Booking.createdAt x) eqn:Hle.
    + apply Z.leb_le in Hle. constructor.
      * constructor; assumption.
      * constructor; [exact Hle|].
        eapply Forall_impl; [|exact Hall].
        unfold createdNoLater. intros; lia.
    + apply Z.leb_gt in Hle. constructor; [exact IH|].
      eapply Permutation_Forall; [apply insertByCreatedAt_perm|].
      constructor; [unfold createdNoLater; lia | exact Hall].
Qed.

Lemma sortByCreatedAt_sorted (l : list Booking.t) :
  StronglySorted createdNoLater (sortByCreatedAt l).
Proof.
  induction l as [|b l IH]; cbn; [constructor|].
  apply insertByCreatedAt_sorted, IH.
Qed.

Lemma waitlistOf_sorted (eventId : string) (bs : list Booking.t) :
  StronglySorted createdNoLater (waitlistOf eventId bs).
Proof. apply sortByCreatedAt_sorted. Qed.

(** Every candidate is a stored, waitlisted booking of the event. *)
Lemma waitlistOf_In (eventId : string) (bs : list Booking.t) (b : Booking.t) :
  In b (waitlistOf eventId bs) <->
  In b bs /\ Booking.eventId b = eventId /\ Booking.bookingStatus b = Waitlisted.
Proof.
  unfold waitlistOf. split.
  - intros Hin.
    apply (Permutation_in _ (Permutation_sym (sortByCreatedAt_perm _))) in Hin.
    apply filter_In in Hin. destruct Hin as [Hin Hw].
    unfold isWaitlistedFor in Hw. apply andb_true_iff in Hw.
    destruct Hw as [He Hs]. apply String.eqb_eq in He.
    destruct (Booking.bookingStatus b); try discriminate. auto.
  - intros (Hin & He & Hs).
    apply (Permutation_in _ (sortByCreatedAt_perm _)).
    apply filter_In. split; [exact Hin|].
    unfold isWaitlistedFor. rewrite Hs, He, String.eqb_refl. reflexivity.
Qed.

(** ** The promotion loop *)

Lemma fittingPrefix_is_prefix (l : list Booking.t) (availableSeats : Z) :
  exists rest, l = fittingPrefix l availableSeats ++ rest.
Proof.
  revert availableSeats. induction l as [|b l IH]; intros avail; cbn.
  - exists []. reflexivity.
  - destruct (avail <? Booking.numberOfTickets b).
    + exists (b :: l). reflexivity.
    + destruct (IH (avail - Booking.numberOfTickets b)) as [rest Hrest].
      exists rest. cbn. rewrite <- Hrest. reflexivity.
Qed.

(** Head-of-line blocking: once the candidate [a] does not fit what the
    earlier candidates left, nothing from [a] on gets past the test. *)
Lemma fittingPrefix_blocked (pre : list Booking.t) (a : Booking.t)
    (post : list Booking.t) (availableSeats : Z) :
  availableSeats - ticketsOf pre < Booking.numberOfTickets a ->
  fittingPrefix (pre ++ a :: post) availableSeats = fittingPrefix pre availableSeats.
Proof.
  revert availableSeats. induction pre as [|p pre IH]; intros avail Hblocked.
  - cbn in *. apply Z.ltb_lt in Hblocked. rewrite Z.sub_0_r in Hblocked.
    rewrite Hblocked. reflexivity.
  - change (ticketsOf (p :: pre))
      with (Booking.numberOfTickets p + ticketsOf pre) in Hblocked.
    cbn. destruct (avail <? Booking.numberOfTickets p); [reflexivity|].
    rewrite IH; [reflexivity | lia].
Qed.

(** What one run of the loop does: it confirms and saves, in order, the
    first [done] of the candidates that fit, and sends one delta of
    [+numberOfTickets] for each of them; it fetches no event. *)
Lemma promoteLoop_spec (eventId : string) (event : Event.t) (l : list Booking.t) :
  forall (availableSeats : Z) (w : World),
  exists done rest added out w',
    promoteLoop eventId event l availableSeats w = (out, w')
    /\ fittingPrefix l availableSeats = done ++ rest
    /\ trace w' = trace w ++ added
    /\ Forall2 confirmedFrom done (savedDocs added)
    /\ seatDeltas added = map (fun b => (eventId, Booking.numberOfTickets b)) done
    /\ eventFetches added = []
    /\ bookings w' = applySaves (savedDocs added) (bookings w).
Proof.
  induction l as [|b l IH]; intros avail w.
  - exists [], [], [], (Return tt), w. cbn. rewrite app_nil_r.
    repeat split; constructor.
  - cbn [promoteLoop fittingPrefix].
    destruct (avail <? Booking.numberOfTickets b) eqn:Hfit.
    { exists [], [], [], (Return tt), w. cbn. rewrite app_nil_r.
      repeat split; constructor. }
    unfold_monad.
    set (txn := ("TXN" ++ showZ (now w)
                  ++ showZ (Qfloor (binary64 (mathRandom (env w) (randomsDrawn w) * 10000))))%string).
    set (doc := markConfirmed txn b).
    destruct (schemaValid doc) eqn:Hvalid.
    2:{ exists [], (b :: fittingPrefix l (avail - Booking.numberOfTickets b)), [].
        eexists. eexists. split; [reflexivity|].
        cbn. rewrite app_nil_r. repeat split; constructor. }
    world_simpl.
    destruct (eventServicePatch (env w) (patchesMade w) eventId
                (Booking.numberOfTickets b)) as [data|err] eqn:Hpatch.
    2:{ exists [b], (fittingPrefix l (avail - Booking.numberOfTickets b)).
        eexists. eexists. eexists. split; [reflexivity|].
        cbn. rewrite <- app_assoc. cbn.
        repeat split; try reflexivity.
        constructor; [exists txn; reflexivity | constructor]. }
    match goal with
    | |- context [promoteLoop eventId event l ?a ?w1] =>
        destruct (IH a w1) as (done & rest & added & out & w' & Hrun & Hpre & Htr & Hdocs & Hdeltas & Hget & Hdb)
    end.
    exists (b :: done), rest.
    exists (BookingSave doc :: AxiosPatch eventId (Booking.numberOfTickets b) (PatchOk data)
              :: SendBookingEmail doc event :: added), out, w'.
    split; [exact Hrun|].
    split; [cbn; rewrite Hpre; reflexivity|].
    split; [rewrite Htr; cbn; rewrite <- !app_assoc; reflexivity|].
    split; [cbn; constructor; [exists txn; reflexivity | exact Hdocs]|].
    split; [cbn; rewrite Hdeltas; reflexivity|].
    split; [exact Hget|].
    rewrite Hdb. reflexivity.
Qed.

(** ** One promotion pass *)

Lemma promote_never_throws (eventId : string) (hint : json) (w : World) :
  fst (promoteWaitlistIfPossible eventId hint w) = Return tt.
Proof.
  unfold promoteWaitlistIfPossible, tryCatch, console_error.
  match goal with
  | |- context [let (o, w') := ?run in _] => destruct run as [[[]|err] w']
  end; reflexivity.
Qed.

(** When the event cannot be fetched the pass only logs. *)
Lemma promote_without_event (eventId : string) (hint : json) (w : World)
    (err : Error) :
  eventServiceGet (env w) (getsMade w) eventId = GetErr err ->
  promoteWaitlistIfPossible eventId hint w
  = (Return tt, log (ConsoleError "Waitlist promotion failed:") (afterFetch eventId w)).
Proof.
  intros Hget. unfold promoteWaitlistIfPossible. unfold_monad.
  rewrite Hget. reflexivity.
Qed.

(** A pass that gets the event runs the loop on the sorted waitlist,
    starting from [initialAvailableSeats hint event], unless that count is
    not positive. *)
Lemma promote_with_event (eventId : string) (hint : json) (w : World)
    (event : Event.t) :
  eventServiceGet (env w) (getsMade w) eventId = GetOk event ->
  promoteWaitlistIfPossible eventId hint w
  = if initialAvailableSeats hint event <=? 0
    then (Return tt, afterFetch eventId w)
    else tryCatch
           (promoteLoop eventId event (waitlistOf eventId (bookings w))
              (initialAvailableSeats hint event))
           (fun _ => console_error "Waitlist promotion failed:")
           (afterFetch eventId w).
Proof.
  intros Hget. unfold promoteWaitlistIfPossible.
  unfold tryCatch at 1, bind at 1, axios_get. rewrite Hget.
  fold (afterFetch eventId w).
  destruct (initialAvailableSeats hint event <=? 0); [reflexivity|].
  unfold bind, Booking_find_waitlisted, tryCatch. reflexivity.
Qed.

Lemma promote_pass_spec (eventId : string) (hint : json) (w : World)
    (event : Event.t) :
  eventServiceGet (env w) (getsMade w) eventId = GetOk event ->
  exists done rest added w',
    promoteWaitlistIfPossible eventId hint w = (Return tt, w')
    /\ fittingPrefix (waitlistOf eventId (bookings w))
         (initialAvailableSeats hint event) = done ++ rest
    /\ trace w' = trace w ++ AxiosGet eventId :: added
    /\ Forall2 confirmedFrom done (savedDocs added)
    /\ seatDeltas added = map (fun b => (eventId, Booking.numberOfTickets b)) done
    /\ eventFetches added = []
    /\ bookings w' = applySaves (savedDocs added) (bookings w).
Proof.
  intros Hget. rewrite (promote_with_event _ _ _ _ Hget).
  destruct (initialAvailableSeats hint event <=? 0).
  { exists [], (fittingPrefix (waitlistOf eventId (bookings w))
                  (initialAvailableSeats hint event)), [], (afterFetch eventId w).
    repeat split; constructor. }
  destruct (promoteLoop_spec eventId event (waitlistOf eventId (bookings w))
              (initialAvailableSeats hint event) (afterFetch eventId w))
    as (done & rest & added & out & w' & Hrun & Hpre & Htr & Hdocs & Hdeltas & Hget' & Hdb).
  unfold tryCatch. rewrite Hrun.
  destruct out as [[]|err].
  - exists done, rest, added, w'.
    repeat split; try assumption.
    rewrite Htr. cbn. rewrite <- app_assoc. reflexivity.
  - exists done, rest, (added ++ [ConsoleError "Waitlist promotion failed:"]).
    eexists. split; [reflexivity|].
    rewrite savedDocs_app, seatDeltas_app, eventFetches_app. cbn.
    rewrite !app_nil_r, Hget'.
    repeat split; try assumption.
    + rewrite Htr. cbn. rewrite <- !app_assoc. reflexivity.
Qed.

(** The loop saves a candidate before it asks for its seats: when the first
    candidate fits, the schema accepts it and the event service then refuses
    the delta, the pass ends with that candidate stored as confirmed. *)
Lemma promoteLoop_saves_before_patch (eventId : string) (event : Event.t)
    (b : Booking.t) (rest : list Booking.t) (availableSeats : Z) (w : World)
    (err : Error) :
  Booking.numberOfTickets b <= availableSeats ->
  let txn := ("TXN" ++ showZ (now w)
                ++ showZ (Qfloor (binary64 (mathRandom (env w) (randomsDrawn w) * 10000))))%string in
  schemaValid (markConfirmed txn b) = true ->
  eventServicePatch (env w) (patchesMade w) eventId (Booking.numberOfTickets b)
  = PatchErr err ->
  exists w',
    promoteLoop eventId event (b :: rest) availableSeats w = (Throw err, w')
    /\ bookings w' = upsert (markConfirmed txn b) (bookings w)
    /\ trace w' = trace w ++ [BookingSave (markConfirmed txn b);
                              AxiosPatch eventId (Booking.numberOfTickets b) (PatchErr err)].
Proof.
  intros Hfits txn Hvalid Hpatch. subst txn.
  apply Z.ltb_ge in Hfits.
  cbn [promoteLoop]. rewrite Hfits. unfold_monad.
  rewrite Hvalid. world_simpl. rewrite Hpatch.
  eexists. split; [reflexivity|]. cbn. rewrite <- app_assoc.
  split; reflexivity.
Qed.

(** ** Documents that a pass leaves alone *)

Lemma upsert_keeps (b doc : Booking.t) (bs : list Booking.t) :
  Booking._id b <> Booking._id doc -> In b bs -> In b (upsert doc bs).
Proof.
  intros Hid. induction bs as [|x bs IH]; cbn; [propositional|].
  intros [Heq | Hin].
  - subst x. apply Nat.eqb_neq in Hid. rewrite Hid. left. reflexivity.
  - destruct (Nat.eqb (Booking._id x) (Booking._id doc)).
    + right. exact Hin.
    + right. apply IH, Hin.
Qed.

Lemma applySaves_keeps (b : Booking.t) (docs bs : list Booking.t) :
  ~ In (Booking._id b) (map Booking._id docs) -> In b bs -> In b (applySaves docs bs).
Proof.
  revert bs. induction docs as [|d docs IH]; intros bs Hfresh Hin; [exact Hin|].
  cbn in *. apply IH; [propositional|].
  apply upsert_keeps; [|exact Hin]. intros Heq. apply Hfresh. left. symmetry. exact Heq.
Qed.

Lemma confirmedFrom_ids (done docs : list Booking.t) :
  Forall2 confirmedFrom done docs ->
  map Booking._id docs = map Booking._id done.
Proof.
  induction 1 as [|b d done docs [txn Hd] _ IH]; [reflexivity|].
  cbn. rewrite IH, Hd. reflexivity.
Qed.

Lemma filter_keeps_ids_distinct (keep : Booking.t -> bool) (bs : list Booking.t) :
  NoDup (map Booking._id bs) -> NoDup (map Booking._id (filter keep bs)).
Proof.
  intros Hnd. induction bs as [|b bs IH]; [exact Hnd|].
  cbn in Hnd. apply NoDup_cons_iff in Hnd. destruct Hnd as [Hfresh Hnd].
  cbn. destruct (keep b); [|exact (IH Hnd)].
  cbn. apply NoDup_cons; [|exact (IH Hnd)].
  intros Hin. apply Hfresh.
  apply in_map_iff in Hin. destruct Hin as (other & Hid & Hin).
  apply filter_In in Hin. rewrite <- Hid. apply in_map. propositional.
Qed.

Lemma NoDup_app_disjoint {A : Type} (l1 l2 : list A) (x : A) :
  NoDup (l1 ++ l2) -> In x l1 -> In x l2 -> False.
Proof.
  induction l1 as [|y l1 IH]; cbn; [propositional|].
  intros Hnd [Heq | Hin] Hin2; inversion Hnd as [|? ? Hnotin Hnd']; subst.
  - apply Hnotin, in_or_app. right. exact Hin2.
  - exact (IH Hnd' Hin Hin2).
Qed.

Lemma waitlistOf_ids_NoDup (eventId : string) (bs : list Booking.t) :
  NoDup (map Booking._id bs) ->
  NoDup (map Booking._id (waitlistOf eventId bs)).
Proof.
  intros Hnd. unfold waitlistOf.
  eapply Permutation_NoDup;
    [apply Permutation_map, sortByCreatedAt_perm|].
  apply filter_keeps_ids_distinct, Hnd.
Qed.

Lemma sorted_before_middle (pre : list Booking.t) (a : Booking.t)
    (post : list Booking.t) :
  StronglySorted createdNoLater (pre ++ a :: post) ->
  Forall (fun x => createdNoLater x a) pre.
Proof.
  induction pre as [|p pre IH]; cbn; intros Hs; [constructor|].
  inversion Hs as [|? ? Hs' Hall]; subst.
  constructor; [|apply IH, Hs'].
  rewrite Forall_forall in Hall. apply Hall, in_or_app. right. left. reflexivity.
Qed.

(** C3: a promotion pass takes its candidates in ascending order of
    [createdAt], and stops at the first one that does not fit.  If the
    candidate [a] needs more than the earlier candidates [pre] leave, then
    what the pass promotes is an initial part of [pre], in order; every
    waitlisted booking created after [a] comes after it in the order; and
    (ids being unique) every candidate from [a] on is left as it was in the
    collection, whatever its ticket count. *)
Theorem promotion_is_fifo_with_head_of_line_blocking (eventId : string)
    (hint : json) (w : World) (event : Event.t)
    (pre : list Booking.t) (a : Booking.t) (post : list Booking.t) :
  eventServiceGet (env w) (getsMade w) eventId = GetOk event ->
  waitlistOf eventId (bookings w) = pre ++ a :: post ->
  initialAvailableSeats hint event - ticketsOf pre < Booking.numberOfTickets a ->
  StronglySorted createdNoLater (waitlistOf eventId (bookings w))
  /\ (forall b, In b (waitlistOf eventId (bookings w)) ->
                Booking.createdAt a < Booking.createdAt b -> In b post)
  /\ exists promoted later added w',
       promoteWaitlistIfPossible eventId hint w = (Return tt, w')
       /\ trace w' = trace w ++ AxiosGet eventId :: added
       /\ pre = promoted ++ later
       /\ Forall2 confirmedFrom promoted (savedDocs added)
       /\ seatDeltas added
          = map (fun b => (eventId, Booking.numberOfTickets b)) promoted
       /\ (NoDup (map Booking._id (bookings w)) ->
           forall b, In b (a :: post) ->
                     In b (bookings w') /\ Booking.bookingStatus b = Waitlisted).
Proof.
  intros Hget Hlist Hblocked.
  pose proof (waitlistOf_sorted eventId (bookings w)) as Hsorted.
  split; [exact Hsorted|]. split.
  - intros b Hin Hlater. rewrite Hlist in Hin, Hsorted.
    apply in_app_or in Hin. destruct Hin as [Hin | [Heq | Hin]].
    + pose proof (sorted_before_middle _ _ _ Hsorted) as Hall.
      rewrite Forall_forall in Hall. specialize (Hall b Hin).
      unfold createdNoLater in Hall. lia.
    + subst b. lia.
    + exact Hin.
  - destruct (promote_pass_spec eventId hint w event Hget)
      as (done & rest & added & w' & Hrun & Hpre & Htr & Hdocs & Hdeltas & _ & Hdb).
    rewrite Hlist, (fittingPrefix_blocked _ _ _ _ Hblocked) in Hpre.
    destruct (fittingPrefix_is_prefix pre (initialAvailableSeats hint event))
      as [unfit Hunfit].
    exists done, (rest ++ unfit), added, w'.
    split; [exact Hrun|]. split; [exact Htr|].
    split; [rewrite app_assoc, <- Hpre; exact Hunfit|].
    split; [exact Hdocs|]. split; [exact Hdeltas|].
    intros Hnodup b Hin.
    assert (Hcand : In b (waitlistOf eventId (bookings w))).
    { rewrite Hlist. apply in_or_app. right. exact Hin. }
    apply waitlistOf_In in Hcand. destruct Hcand as (Hstored & _ & Hstatus).
    split; [|exact Hstatus].
    rewrite Hdb. apply applySaves_keeps; [|exact Hstored].
    rewrite (confirmedFrom_ids _ _ Hdocs).
    intros Hclash.
    pose proof (waitlistOf_ids_NoDup eventId _ Hnodup) as Hids.
    rewrite Hlist, map_app in Hids.
    apply (NoDup_app_disjoint _ _ (Booking._id b) Hids).
    + rewrite Hunfit, Hpre, <- app_assoc, map_app. apply in_or_app. left. exact Hclash.
    + apply in_map. exact Hin.
Qed.

(** Whatever the event service answers, a pass returns normally, starts
    with one event fetch, and sends one delta of [+numberOfTickets] for each
    booking it saves as confirmed. *)
Lemma promote_pass_any (eventId : string) (hint : json) (w : World) :
  exists promoted added w',
    promoteWaitlistIfPossible eventId hint w = (Return tt, w')
    /\ trace w' = trace w ++ AxiosGet eventId :: added
    /\ Forall2 confirmedFrom promoted (savedDocs added)
    /\ seatDeltas added = map (fun b => (eventId, Booking.numberOfTickets b)) promoted
    /\ eventFetches added = [].
Proof.
  destruct (eventServiceGet (env w) (getsMade w) eventId) as [event|err] eqn:Hget.
  - destruct (promote_pass_spec eventId hint w event Hget)
      as (done & rest & added & w' & Hrun & _ & Htr & Hdocs & Hdeltas & Hfetch & _).
    exists done, added, w'. repeat split; assumption.
  - exists [], [ConsoleError "Waitlist promotion failed:"].
    eexists. split; [apply (promote_without_event _ _ _ _ Hget)|].
    cbn. rewrite <- app_assoc.
    repeat split; constructor.
Qed.

(** C6, as the code has it: a numeric hint is the starting count of a
    promotion pass, whatever [availableSeats] the fetched event reports; the
    event's own count is used only when the hint is not a number. *)
Theorem promotion_starts_from_numeric_hint (eventId : string) (hint : json)
    (w : World) (event : Event.t) :
  eventServiceGet (env w) (getsMade w) eventId = GetOk event ->
  let start := match hint with
               | JNum h => h
               | _ => Event.availableSeats event
               end in
  promoteWaitlistIfPossible eventId hint w
  = (if start <=? 0
     then (Return tt, afterFetch eventId w)
     else tryCatch
            (promoteLoop eventId event (waitlistOf eventId (bookings w)) start)
            (fun _ => console_error "Waitlist promotion failed:")
            (afterFetch eventId w))
  /\ exists promoted rest added w',
       promoteWaitlistIfPossible eventId hint w = (Return tt, w')
       /\ trace w' = trace w ++ AxiosGet eventId :: added
       /\ fittingPrefix (waitlistOf eventId (bookings w)) start = promoted ++ rest
       /\ Forall2 confirmedFrom promoted (savedDocs added).
Proof.
  intros Hget start.
  assert (Hstart : start = initialAvailableSeats hint event)
    by (destruct hint; reflexivity).
  rewrite Hstart. split.
  - apply (promote_with_event _ _ _ _ Hget).
  - destruct (promote_pass_spec eventId hint w event Hget)
      as (done & rest & added & w' & Hrun & Hpre & Htr & Hdocs & _).
    exists done, rest, added, w'. repeat split; assumption.
Qed.

(** ** Cancellation *)

Lemma markCancelled_fields (b : Booking.t) :
  Booking.eventId (markCancelled b) = Booking.eventId b
  /\ Booking.numberOfTickets (markCancelled b) = Booking.numberOfTickets b
  /\ Booking._id (markCancelled b) = Booking._id b
  /\ Booking.bookingStatus (markCancelled b) = Cancelled.
Proof.
  unfold markCancelled. cbn.
  destruct (PaymentStatus_eqb (Booking.paymentStatus b) Completed);
    repeat split; reflexivity.
Qed.

(** A request that passes the checks of the cancel route runs
    [cancelAndRestore] on the stored booking. *)
Lemma cancelBooking_reaches (req : CancelRequest) (w : World) (b : Booking.t) :
  reachesCancellation req w b ->
  cancelBooking req w = tryCatch (cancelAndRestore b) cancellationFailed w.
Proof.
  intros (Hfound & Hauth & Hopen & Hdate).
  unfold cancelBooking, tryCatch at 1, bind, Booking_findById, date_now, ret.
  rewrite Hfound.
  assert (Hdenied :
            negb (String.eqb (Booking.userId b) (User._id (caller req)))
            && negb (String.eqb (User.role (caller req)) "admin") = false).
  { destruct Hauth as [Howner | Hadmin].
    - rewrite Howner, String.eqb_refl. reflexivity.
    - rewrite Hadmin. cbn. apply andb_false_r. }
  rewrite Hdenied.
  assert (Hstatus : BookingStatus_eqb (Booking.bookingStatus b) Cancelled = false)
    by (destruct (Booking.bookingStatus b); try reflexivity; congruence).
  rewrite Hstatus.
  apply Z.ltb_ge in Hdate. rewrite Hdate.
  reflexivity.
Qed.

Lemma cancelAndRestore_confirmed (b : Booking.t) (w : World) :
  Booking.bookingStatus b = Confirmed ->
  schemaValid (markCancelled b) = true ->
  cancelAndRestore b w
  = (Return (cancelledReply b),
     match restoreReply b w with
     | PatchErr _ =>
         log (ConsoleError "Failed to restore event seats:") (afterRestore b w)
     | PatchOk data =>
         if isDefined (getField "availableSeats" data)
         then snd (promoteWaitlistIfPossible (Booking.eventId b)
                     (getField "availableSeats" data) (afterRestore b w))
         else afterRestore b w
     end).
Proof.
  intros Hstatus Hvalid.
  destruct (markCancelled_fields b) as (Hevent & Htickets & _ & _).
  unfold cancelAndRestore, restoreSeats, afterRestore, restoreReply.
  rewrite Hstatus. cbn [BookingStatus_eqb].
  unfold bind at 1, Booking_save. rewrite Hvalid.
  unfold bind at 1, tryCatch, bind at 1, axios_patch.
  rewrite Hevent, Htickets. world_simpl.
  destruct (eventServicePatch (env w) (patchesMade w) (Booking.eventId b)
              (- Booking.numberOfTickets b)) as [data|err].
  - unfold ret at 1, bind at 1.
    destruct (isDefined (getField "availableSeats" data)); [|reflexivity].
    match goal with
    | |- context [promoteWaitlistIfPossible ?e ?h ?w0] =>
        pose proof (promote_never_throws e h w0) as Hnever;
        destruct (promoteWaitlistIfPossible e h w0) as [out w']
    end.
    cbn in Hnever. subst out. reflexivity.
  - reflexivity.
Qed.

Lemma cancelAndRestore_appends (b : Booking.t) (w : World) :
  Booking.bookingStatus b = Confirmed ->
  schemaValid (markCancelled b) = true ->
  exists w' added,
    cancelAndRestore b w = (Return (cancelledReply b), w')
    /\ trace w' = trace (afterRestore b w) ++ added.
Proof.
  intros Hstatus Hvalid.
  rewrite (cancelAndRestore_confirmed _ _ Hstatus Hvalid).
  destruct (restoreReply b w) as [data|err].
  - destruct (isDefined (getField "availableSeats" data)).
    + destruct (promote_pass_any (Booking.eventId b)
                  (getField "availableSeats" data) (afterRestore b w))
        as (promoted & added & w' & Hrun & Htr & _).
      rewrite Hrun. eexists. eexists. split; [reflexivity|]. exact Htr.
    + eexists. exists []. rewrite app_nil_r. split; reflexivity.
  - eexists. eexists. split; reflexivity.
Qed.

(** C5: cancelling a confirmed booking always answers with the success
    reply once the booking is stored as cancelled.  A failed restoration
    call is logged and changes nothing else: the booking stays cancelled and
    no event is fetched.  The promotion pass runs exactly when the
    restoration call succeeded and its reply carried [availableSeats]; it
    is then started with that value. *)
Theorem cancellation_survives_restore_failure (req : CancelRequest)
    (w : World) (b : Booking.t) :
  reachesCancellation req w b ->
  Booking.bookingStatus b = Confirmed ->
  schemaValid (markCancelled b) = true ->
  exists w' added,
    cancelBooking req w = (Return (cancelledReply b), w')
    /\ statusCode (cancelledReply b) = 200
    /\ trace w' = trace (afterRestore b w) ++ added
    /\ (forall err, restoreReply b w = PatchErr err ->
          added = [ConsoleError "Failed to restore event seats:"]
          /\ bookings w' = upsert (markCancelled b) (bookings w)
          /\ Booking.bookingStatus (markCancelled b) = Cancelled
          /\ getsMade w' = getsMade w)
    /\ (isDefined (restoredAvailabilityOf (restoreReply b w)) = true ->
          (Return tt, w')
          = promoteWaitlistIfPossible (Booking.eventId b)
              (restoredAvailabilityOf (restoreReply b w)) (afterRestore b w))
    /\ (isDefined (restoredAvailabilityOf (restoreReply b w)) = false ->
          eventFetches added = [] /\ savedDocs added = [] /\ seatDeltas added = []
          /\ bookings w' = upsert (markCancelled b) (bookings w))
    /\ (eventFetches added = [Booking.eventId b] <->
        exists data, restoreReply b w = PatchOk data
                     /\ getField "availableSeats" data <> JUndefined).
Proof.
  intros Hreach Hstatus Hvalid.
  rewrite (cancelBooking_reaches _ _ _ Hreach).
  unfold tryCatch. rewrite (cancelAndRestore_confirmed _ _ Hstatus Hvalid).
  destruct (restoreReply b w) as [data|err] eqn:Hreply.
  - cbn [restoredAvailabilityOf].
    destruct (isDefined (getField "availableSeats" data)) eqn:Hdef.
    + destruct (promote_pass_any (Booking.eventId b)
                  (getField "availableSeats" data) (afterRestore b w))
        as (promoted & added & w' & Hrun & Htr & _ & _ & Hfetch).
      rewrite Hrun. cbn [snd].
      exists w', (AxiosGet (Booking.eventId b) :: added).
      split; [reflexivity|]. split; [reflexivity|]. split; [exact Htr|].
      split; [intros err Herr; discriminate|].
      split; [intros _; reflexivity|].
      split; [intros Hno; discriminate|].
      cbn. rewrite Hfetch. split; [|reflexivity].
      intros _. exists data. split; [reflexivity|].
      intros Hundef. rewrite Hundef in Hdef. discriminate.
    + exists (afterRestore b w), [].
      rewrite app_nil_r.
      split; [reflexivity|]. split; [reflexivity|]. split; [reflexivity|].
      split; [intros err Herr; discriminate|].
      split; [intros Hyes; discriminate|].
      split; [intros _; repeat split; reflexivity|].
      cbn. split; [discriminate|].
      intros (data' & Heq & Hne). inversion Heq; subst data'.
      destruct (getField "availableSeats" data); try discriminate. congruence.
  - cbn [restoredAvailabilityOf isDefined].
    eexists. exists [ConsoleError "Failed to restore event seats:"].
    split; [reflexivity|]. split; [reflexivity|]. split; [reflexivity|].
    split; [intros _ _; repeat split; try reflexivity; apply markCancelled_fields|].
    split; [intros Hyes; discriminate|].
    split; [intros _; repeat split; reflexivity|].
    cbn. split; [discriminate|].
    intros (data' & Heq & _). discriminate.
Qed.

(** ** The seat deltas of a confirmed creation *)

Lemma reserveSeats_confirmed (req : CreateRequest) (eventId : string) (n : Z)
    (event : Event.t) (w : World) (resp : Response) (w' : World) :
  tryCatch (reserveSeats req eventId n event) creationFailed w = (Return resp, w') ->
  statusCode resp = 201 ->
  exists doc added,
    trace w' = trace w ++ added
    /\ seatDeltas added = [(eventId, n)]
    /\ savedDocs added = [doc]
    /\ Booking.bookingStatus doc = Confirmed
    /\ Booking.numberOfTickets doc = n.
Proof.
  intros Hrun H201.
  unfold tryCatch, reserveSeats, creationFailed, confirmAfterPayment in Hrun.
  unfold_monad.
  destruct (Event.availableSeats event <? n) eqn:Hshort;
    destruct (Body.joinWaitlist (body req)) eqn:Hjoin; cbn [andb negb] in Hrun;
    world_simpl.
  1: destruct (schemaValid _) in Hrun.
  1-3: inversion Hrun; subst; discriminate.
  all: destruct (paymentSucceeds _) in Hrun; cbn in Hrun.
  all: try (destruct (schemaValid _) in Hrun; inversion Hrun; subst; discriminate).
  all: destruct (eventServicePatch _ _ _ _) as [data|err] eqn:Hpatch in Hrun;
    cbn in Hrun; [|inversion Hrun; subst; discriminate].
  all: destruct (schemaValid _) in Hrun; cbn in Hrun;
    [|inversion Hrun; subst; discriminate].
  all: inversion Hrun; subst; clear Hrun; cbn.
  all: eexists; eexists (_ :: _ :: _ :: nil).
  all: rewrite <- !app_assoc; cbn.
  all: split; [reflexivity|]; repeat split; reflexivity.
Qed.

Lemma createBooking_confirmed (req : CreateRequest) (w : World)
    (resp : Response) (w' : World) :
  createBooking req w = (Return resp, w') ->
  statusCode resp = 201 ->
  exists eventId n doc added,
    requiredFields (body req) = Some (eventId, n)
    /\ trace w' = trace w ++ added
    /\ seatDeltas added = [(eventId, n)]
    /\ savedDocs added = [doc]
    /\ Booking.bookingStatus doc = Confirmed
    /\ Booking.numberOfTickets doc = n.
Proof.
  intros Hrun H201.
  destruct (requiredFields (body req)) as [[eventId n]|] eqn:Hreq.
  2:{ unfold createBooking, tryCatch, ret in Hrun. rewrite Hreq in Hrun.
      inversion Hrun; subst; discriminate. }
  destruct (eventServiceGet (env w) (getsMade w) eventId) as [event|err] eqn:Hget.
  2:{ unfold createBooking, tryCatch, bind, axios_get, ret in Hrun.
      rewrite Hreq, Hget in Hrun. inversion Hrun; subst; discriminate. }
  destruct (String.eqb (Event.status event) "cancelled") eqn:Hstatus.
  { unfold createBooking, tryCatch, bind, axios_get, ret in Hrun.
    rewrite Hreq, Hget, Hstatus in Hrun. inversion Hrun; subst; discriminate. }
  destruct (Event.date event <? now w) eqn:Hdate.
  { unfold createBooking, tryCatch, bind, axios_get, date_now, ret in Hrun.
    rewrite Hreq, Hget, Hstatus in Hrun. world_simpl. rewrite Hdate in Hrun.
    inversion Hrun; subst; discriminate. }
  assert (Hreach : reachesSeatCheck req w eventId n event).
  { repeat split; try assumption.
    - apply String.eqb_neq, Hstatus.
    - apply Z.ltb_ge, Hdate. }
  rewrite (createBooking_reaches _ _ _ _ _ Hreach) in Hrun.
  destruct (reserveSeats_confirmed _ _ _ _ _ _ _ Hrun H201)
    as (doc & added & Htr & Hdeltas & Hdocs & Hconf & Htickets).
  exists eventId, n, doc, (AxiosGet eventId :: added).
  split; [reflexivity|].
  split; [rewrite Htr; cbn; rewrite <- app_assoc; reflexivity|].
  repeat split; assumption.
Qed.

(** C1, as the code has it: the body field is [seatsToBook], so a positive
    delta consumes seats and a negative one returns them.  A creation that
    answers 201 has sent exactly one delta, [+numberOfTickets], and saved
    one confirmed booking; a promotion pass sends [+numberOfTickets] for
    each booking it saves as confirmed, in order; cancelling a confirmed
    booking sends [-numberOfTickets] for it before anything else. *)
Theorem seat_deltas_use_seatsToBook_sign :
  (forall req w resp w',
      createBooking req w = (Return resp, w') ->
      statusCode resp = 201 ->
      exists eventId n doc added,
        requiredFields (body req) = Some (eventId, n)
        /\ trace w' = trace w ++ added
        /\ seatDeltas added = [(eventId, n)]
        /\ savedDocs added = [doc]
        /\ Booking.bookingStatus doc = Confirmed
        /\ Booking.numberOfTickets doc = n)
  /\ (forall eventId hint w,
      exists promoted added w',
        promoteWaitlistIfPossible eventId hint w = (Return tt, w')
        /\ trace w' = trace w ++ added
        /\ Forall2 confirmedFrom promoted (savedDocs added)
        /\ seatDeltas added
           = map (fun b => (eventId, Booking.numberOfTickets b)) promoted)
  /\ (forall req w b,
      reachesCancellation req w b ->
      Booking.bookingStatus b = Confirmed ->
      schemaValid (markCancelled b) = true ->
      exists w' added later,
        cancelBooking req w = (Return (cancelledReply b), w')
        /\ trace w' = trace w ++ added
        /\ seatDeltas added
           = (Booking.eventId b, - Booking.numberOfTickets b) :: later).
Proof.
  split; [exact createBooking_confirmed|]. split.
  - intros eventId hint w.
    destruct (promote_pass_any eventId hint w)
      as (promoted & added & w' & Hrun & Htr & Hdocs & Hdeltas & _).
    exists promoted, (AxiosGet eventId :: added), w'.
    repeat split; assumption.
  - intros req w b Hreach Hstatus Hvalid.
    rewrite (cancelBooking_reaches _ _ _ Hreach). unfold tryCatch.
    destruct (cancelAndRestore_appends b w Hstatus Hvalid)
      as (w' & added & Hrun & Htr).
    rewrite Hrun. exists w'.
    exists ([BookingSave (markCancelled b);
             AxiosPatch (Booking.eventId b) (- Booking.numberOfTickets b)
               (restoreReply b w)] ++ added), (seatDeltas added).
    split; [reflexivity|]. split.
    + rewrite Htr. unfold afterRestore. cbn. rewrite <- !app_assoc. reflexivity.
    + rewrite seatDeltas_app. reflexivity.
Qed.

(** ** Ticket counts below one *)

(** A missing or zero ticket count, like a missing event id, is refused
    before anything else happens. *)
Lemma createBooking_missing_fields (req : CreateRequest) (w : World) :
  requiredFields (body req) = None ->
  createBooking req w
  = (Return (mkResponse 400 (errorBody "Event ID and number of tickets are required")),
     w).
Proof.
  intros Hreq. unfold createBooking, tryCatch, ret. rewrite Hreq. reflexivity.
Qed.

Lemma requiredFields_none_iff (b : Body.t) :
  requiredFields b = None <->
  Body.eventId b = None \/ Body.eventId b = Some ""%string
  \/ Body.numberOfTickets b = None \/ Body.numberOfTickets b = Some 0.
Proof.
  unfold requiredFields.
  destruct (Body.eventId b) as [eventId|], (Body.numberOfTickets b) as [n|];
    try (split; [intros _; tauto | reflexivity]).
  destruct (String.eqb_spec eventId ""%string) as [Hempty | Hfull].
  - subst. cbn. split; [tauto | reflexivity].
  - destruct (Z.eqb_spec n 0) as [Hzero | Hnonzero].
    + subst. cbn. split; [tauto | reflexivity].
    + cbn. split; [discriminate|].
      intros [H | [H | [H | H]]]; try discriminate; inversion H; congruence.
Qed.

(** C9 on the code: a request for [-1] tickets is not stopped by
    [!eventId || !numberOfTickets].  Whatever the schema accepts, the event
    is fetched and, the payment having gone through, a seat delta of [-1]
    is sent; the reply is never the 400 of a validation failure. *)
Theorem negative_ticket_count_reaches_the_ledger :
  let w := worldAt (steadyEnv (1 # 2) (GetOk (concert 10)) (seatsReply 11)) [] in
  requiredFields (body (request "e1" (-1) false)) = Some ("e1", -1)
  /\ exists rest,
       trace (snd (createBooking (request "e1" (-1) false) w))
       = AxiosGet "e1" :: AxiosPatch "e1" (-1) (seatsReply 11) :: rest
       /\ seatDeltas (trace (snd (createBooking (request "e1" (-1) false) w)))
          = [("e1", -1)]
       /\ forall resp,
            fst (createBooking (request "e1" (-1) false) w) = Return resp ->
            statusCode resp <> 400.
Proof.
  intros w. split; [reflexivity|].
  unfold createBooking, reserveSeats, confirmAfterPayment, creationFailed.
  unfold_monad. cbn.
  destruct (schemaValid _); cbn; eexists; (split; [reflexivity|]);
    (split; [reflexivity|]); intros resp Hresp; inversion Hresp; subst;
    discriminate.
Qed.

(** ** The other ways a creation ends *)

(** A creation without an event id, with an empty one, without a ticket
    count or with a count of zero is refused with 400 before anything else
    happens: no event is fetched and the world is unchanged. *)
Theorem creation_requires_event_and_tickets (req : CreateRequest) (w : World) :
  Body.eventId (body req) = None \/ Body.eventId (body req) = Some ""%string
  \/ Body.numberOfTickets (body req) = None
  \/ Body.numberOfTickets (body req) = Some 0 ->
  createBooking req w
  = (Return (mkResponse 400 (errorBody "Event ID and number of tickets are required")),
     w).
Proof.
  intros Hmissing. apply createBooking_missing_fields.
  apply requiredFields_none_iff. exact Hmissing.
Qed.

(** Whatever error the event fetch ends with, the creation answers 404
    "Event not found"; the error is not logged, nothing is stored, no payment
    is drawn and no seat delta is sent. *)
Theorem creation_without_event_is_not_found (req : CreateRequest) (w : World)
    (eventId : string) (n : Z) (err : Error) :
  requiredFields (body req) = Some (eventId, n) ->
  eventServiceGet (env w) (getsMade w) eventId = GetErr err ->
  exists w',
    createBooking req w
    = (Return (mkResponse 404 (errorBody "Event not found")), w')
    /\ trace w' = trace w ++ [AxiosGet eventId]
    /\ bookings w' = bookings w
    /\ randomsDrawn w' = randomsDrawn w
    /\ patchesMade w' = patchesMade w.
Proof.
  intros Hreq Hget. exists (afterFetch eventId w).
  unfold createBooking, tryCatch, bind, axios_get, ret.
  rewrite Hreq, Hget. repeat split; reflexivity.
Qed.

(** A cancelled event is refused with 400 whatever its date; an event that is
    not cancelled is refused with 400 when its date is before the clock.  In
    both cases nothing is stored, no payment is drawn and no seat delta is
    sent. *)
Theorem creation_refuses_closed_events (req : CreateRequest) (w : World)
    (eventId : string) (n : Z) (event : Event.t) :
  requiredFields (body req) = Some (eventId, n) ->
  eventServiceGet (env w) (getsMade w) eventId = GetOk event ->
  Event.status event = "cancelled"%string \/ Event.date event < now w ->
  exists msg,
    createBooking req w = (Return (mkResponse 400 (errorBody msg)), afterFetch eventId w)
    /\ (Event.status event = "cancelled"%string -> msg = "Event has been cancelled"%string)
    /\ (Event.status event <> "cancelled"%string ->
        msg = "Cannot book tickets for past events"%string)
    /\ bookings (afterFetch eventId w) = bookings w
    /\ randomsDrawn (afterFetch eventId w) = randomsDrawn w
    /\ seatDeltas (trace (afterFetch eventId w)) = seatDeltas (trace w).
Proof.
  intros Hreq Hget Hclosed.
  unfold createBooking, tryCatch, bind, axios_get, date_now, ret.
  rewrite Hreq, Hget.
  destruct (String.eqb_spec (Event.status event) "cancelled"%string) as [Hc | Hopen].
  - exists "Event has been cancelled"%string.
    split; [reflexivity|]. split; [reflexivity|]. split; [congruence|].
    trace_simpl. repeat split; reflexivity.
  - destruct Hclosed as [Hc | Hpast]; [congruence|].
    apply Z.ltb_lt in Hpast. world_simpl. rewrite Hpast.
    exists "Cannot book tickets for past events"%string.
    split; [reflexivity|]. split; [congruence|]. split; [reflexivity|].
    trace_simpl. repeat split; reflexivity.
Qed.

(** The outcome of the paying path once the payment went through and the
    event service accepted the delta, by what [save()] does. *)
Lemma createBooking_paid (req : CreateRequest) (w : World)
    (eventId : string) (n : Z) (event : Event.t) (data : json) :
  reachesSeatCheck req w eventId n event ->
  n <= Event.availableSeats event ->
  nextPaymentSucceeds w = true ->
  eventServicePatch (env w) (patchesMade w) eventId n = PatchOk data ->
  createBooking req w
  = if schemaValid (paidBooking req w event n)
    then (Return (mkResponse 201
                    (JObj [("message", JStr "Booking confirmed successfully");
                           ("booking", confirmedProjection (paidBooking req w event n))])),
          log (SendBookingEmail (paidBooking req w event n) event)
            (log (BookingSave (paidBooking req w event n))
               (set_bookings (upsert (paidBooking req w event n) (bookings w))
                  (afterSeatDelta eventId n (PatchOk data) w))))
    else (Return (mkResponse 500
                    (JObj [("error", JStr "Failed to create booking");
                           ("details", JStr "Booking validation failed")])),
          log (ConsoleError "Booking creation error:")
            (afterSeatDelta eventId n (PatchOk data) w)).
Proof.
  intros Hreach Hfits Hpay Hpatch.
  rewrite (createBooking_reaches _ _ _ _ _ Hreach).
  apply Z.ltb_ge in Hfits. unfold nextPaymentSucceeds in Hpay.
  set (doc := paidBooking req w event n).
  unfold tryCatch, reserveSeats, confirmAfterPayment, creationFailed. unfold_monad.
  rewrite Hfits. cbn [andb negb].
  change (mathRandom (env (bump_nextId (afterFetch eventId w)))
            (randomsDrawn (bump_nextId (afterFetch eventId w))))
    with (mathRandom (env w) (randomsDrawn w)).
  rewrite Hpay. cbn [negb].
  change (eventServicePatch _ _ eventId n)
    with (eventServicePatch (env w) (patchesMade w) eventId n).
  rewrite Hpatch.
  change (schemaValid _) with (schemaValid doc).
  destruct (schemaValid doc); reflexivity.
Qed.

(** A creation that fits, is paid, gets its seats and passes the schema is
    stored once as confirmed and paid, for the fetched event and the
    requesting user.  Its transaction id is [TXN], the clock, and the floor of
    the binary64 product of the second draw and [10000]; the 201 reply
    carries it with the event's title, date and venue, the ticket count and
    the two statuses.  The calls are, in order, the event fetch, the seat
    delta [+numberOfTickets], the save and the confirmation email; two random
    numbers are drawn. *)
Theorem creation_confirms_a_paid_booking (req : CreateRequest) (w : World)
    (eventId : string) (n : Z) (event : Event.t) (data : json) :
  reachesSeatCheck req w eventId n event ->
  n <= Event.availableSeats event ->
  nextPaymentSucceeds w = true ->
  eventServicePatch (env w) (patchesMade w) eventId n = PatchOk data ->
  schemaValid (paidBooking req w event n) = true ->
  exists booking txn w',
    createBooking req w
    = (Return (mkResponse 201
                 (JObj [("message", JStr "Booking confirmed successfully");
                        ("booking",
                         JObj [("bookingReference",
                                JStr (Booking.bookingReference booking));
                               ("eventTitle", JStr (Event.title event));
                               ("eventDate", JNum (Event.date event));
                               ("eventVenue", JStr (Event.venue event));
                               ("numberOfTickets", JNum n);
                               ("totalAmount", JNum (Booking.totalAmount booking));
                               ("paymentStatus", JStr "completed");
                               ("transactionId", JStr txn);
                               ("bookingStatus", JStr "confirmed")])])), w')
    /\ txn = ("TXN" ++ showZ (now w)
              ++ showZ (Qfloor (binary64 (mathRandom (env w) (S (randomsDrawn w))
                                          * 10000))))%string
    /\ bookings w' = upsert booking (bookings w)
    /\ Booking.bookingStatus booking = Confirmed
    /\ Booking.paymentStatus booking = Completed
    /\ Booking.transactionId booking = Some txn
    /\ Booking.numberOfTickets booking = n
    /\ Booking.eventId booking = Event._id event
    /\ Booking.userId booking = User._id (user req)
    /\ trace w' = trace w ++ [AxiosGet eventId; AxiosPatch eventId n (PatchOk data);
                              BookingSave booking; SendBookingEmail booking event]
    /\ randomsDrawn w' = S (S (randomsDrawn w)).
Proof.
  intros Hreach Hfits Hpay Hpatch Hvalid.
  rewrite (createBooking_paid _ _ _ _ _ _ Hreach Hfits Hpay Hpatch), Hvalid.
  exists (paidBooking req w event n), (paidTransactionId w). eexists.
  split; [reflexivity|]. split; [reflexivity|].
  unfold afterSeatDelta. repeat split; trace_simpl; reflexivity.
Qed.

(** When the seat delta was accepted and [save()] then rejects the document,
    the creation answers 500 and stores nothing, and the seats stay consumed:
    the only delta sent is [+numberOfTickets], none takes it back. *)
Theorem creation_keeps_seats_when_save_fails (req : CreateRequest) (w : World)
    (eventId : string) (n : Z) (event : Event.t) (data : json) :
  reachesSeatCheck req w eventId n event ->
  n <= Event.availableSeats event ->
  nextPaymentSucceeds w = true ->
  eventServicePatch (env w) (patchesMade w) eventId n = PatchOk data ->
  schemaValid (paidBooking req w event n) = false ->
  exists resp w',
    createBooking req w = (Return resp, w')
    /\ statusCode resp = 500
    /\ getField "error" (payload resp) = JStr "Failed to create booking"
    /\ bookings w' = bookings w
    /\ trace w' = trace w ++ [AxiosGet eventId; AxiosPatch eventId n (PatchOk data);
                              ConsoleError "Booking creation error:"]
    /\ seatDeltas (trace w') = seatDeltas (trace w) ++ [(eventId, n)].
Proof.
  intros Hreach Hfits Hpay Hpatch Hvalid.
  rewrite (createBooking_paid _ _ _ _ _ _ Hreach Hfits Hpay Hpatch), Hvalid.
  eexists. eexists. split; [reflexivity|].
  unfold afterSeatDelta. repeat split; trace_simpl; reflexivity.
Qed.

(** Every way a creation can end. *)
Lemma createBooking_outcome (req : CreateRequest) (w : World) :
  exists resp w' added,
    createBooking req w = (Return resp, w')
    /\ trace w' = trace w ++ added
    /\ ((statusCode resp = 400 /\ bookings w' = bookings w
         /\ savedDocs added = [] /\ seatDeltas added = [])
        \/ (statusCode resp = 404 /\ bookings w' = bookings w
            /\ savedDocs added = [] /\ seatDeltas added = [])
        \/ (statusCode resp = 202 /\ seatDeltas added = []
            /\ exists doc, savedDocs added = [doc]
                           /\ bookings w' = upsert doc (bookings w)
                           /\ Booking.bookingStatus doc = Waitlisted)
        \/ (statusCode resp = 400 /\ seatDeltas added = []
            /\ exists doc, savedDocs added = [doc]
                           /\ bookings w' = upsert doc (bookings w)
                           /\ Booking.bookingStatus doc = Pending
                           /\ Booking.paymentStatus doc = Failed)
        \/ (statusCode resp = 201
            /\ exists eventId n doc,
                 seatDeltas added = [(eventId, n)]
                 /\ savedDocs added = [doc]
                 /\ bookings w' = upsert doc (bookings w)
                 /\ Booking.bookingStatus doc = Confirmed
                 /\ Booking.numberOfTickets doc = n)
        \/ (statusCode resp = 500 /\ bookings w' = bookings w
            /\ savedDocs added = []
            /\ (List.length (seatDeltas added) <= 1)%nat)).
Proof.
  unfold createBooking, reserveSeats, confirmAfterPayment, creationFailed.
  unfold_monad.
  destruct (requiredFields (body req)) as [[eventId n]|].
  2:{ exists (mkResponse 400 (errorBody "Event ID and number of tickets are required")), w, [].
      split; [reflexivity|]. split; [symmetry; apply app_nil_r|].
      left. repeat split; reflexivity. }
  destruct (eventServiceGet (env w) (getsMade w) eventId) as [event|err].
  2:{ eexists. eexists. exists [AxiosGet eventId].
      split; [reflexivity|]. split; [reflexivity|].
      right. left. repeat split; reflexivity. }
  destruct (String.eqb (Event.status event) "cancelled").
  { eexists. eexists. exists [AxiosGet eventId].
    split; [reflexivity|]. split; [reflexivity|].
    left. repeat split; reflexivity. }
  world_simpl.
  destruct (Event.date event <? now w).
  { eexists. eexists. exists [AxiosGet eventId].
    split; [reflexivity|]. split; [reflexivity|].
    left. repeat split; reflexivity. }
  destruct (Event.availableSeats event <? n);
    destruct (Body.joinWaitlist (body req)); cbn [andb negb].
  - (* waitlisted *)
    match goal with |- context [schemaValid ?d] => destruct (schemaValid d) end.
    + eexists. eexists. eexists (_ :: _ :: _ :: nil).
      split; [reflexivity|]. split; [cbn; rewrite <- !app_assoc; reflexivity|].
      right. right. left. split; [reflexivity|]. split; [reflexivity|].
      eexists. repeat split; reflexivity.
    + eexists. eexists. eexists (_ :: _ :: nil).
      split; [reflexivity|]. split; [cbn; rewrite <- !app_assoc; reflexivity|].
      do 5 right. repeat split; try reflexivity; cbn; lia.
  - (* shortage, no waitlist *)
    eexists. eexists. exists [AxiosGet eventId].
    split; [reflexivity|]. split; [reflexivity|].
    left. repeat split; reflexivity.
  - (* paying path, waitlist flag set *)
    destruct (paymentSucceeds _); cbn [negb].
    + destruct (eventServicePatch _ _ _ _) as [data|err]; cbn.
      * match goal with |- context [schemaValid ?d] => destruct (schemaValid d) end.
        -- eexists. eexists. eexists (_ :: _ :: _ :: _ :: nil).
           split; [reflexivity|]. split; [cbn; rewrite <- !app_assoc; reflexivity|].
           do 4 right. left. split; [reflexivity|].
           eexists. eexists. eexists. repeat split; reflexivity.
        -- eexists. eexists. eexists (_ :: _ :: _ :: nil).
           split; [reflexivity|]. split; [cbn; rewrite <- !app_assoc; reflexivity|].
           do 5 right. repeat split; try reflexivity; cbn; lia.
      * eexists. eexists. eexists (_ :: _ :: nil).
        split; [reflexivity|]. split; [cbn; rewrite <- !app_assoc; reflexivity|].
        do 5 right. repeat split; try reflexivity; cbn; lia.
    + match goal with |- context [schemaValid ?d] => destruct (schemaValid d) end.
      * eexists. eexists. eexists (_ :: _ :: nil).
        split; [reflexivity|]. split; [cbn; rewrite <- !app_assoc; reflexivity|].
        do 3 right. left. split; [reflexivity|]. split; [reflexivity|].
        eexists. repeat split; reflexivity.
      * eexists. eexists. eexists (_ :: _ :: nil).
        split; [reflexivity|]. split; [cbn; rewrite <- !app_assoc; reflexivity|].
        do 5 right. repeat split; try reflexivity; cbn; lia.
  - (* paying path *)
    destruct (paymentSucceeds _); cbn [negb].
    + destruct (eventServicePatch _ _ _ _) as [data|err]; cbn.
      * match goal with |- context [schemaValid ?d] => destruct (schemaValid d) end.
        -- eexists. eexists. eexists (_ :: _ :: _ :: _ :: nil).
           split; [reflexivity|]. split; [cbn; rewrite <- !app_assoc; reflexivity|].
           do 4 right. left. split; [reflexivity|].
           eexists. eexists. eexists. repeat split; reflexivity.
        -- eexists. eexists. eexists (_ :: _ :: _ :: nil).
           split; [reflexivity|]. split; [cbn; rewrite <- !app_assoc; reflexivity|].
           do 5 right. repeat split; try reflexivity; cbn; lia.
      * eexists. eexists. eexists (_ :: _ :: nil).
        split; [reflexivity|]. split; [cbn; rewrite <- !app_assoc; reflexivity|].
        do 5 right. repeat split; try reflexivity; cbn; lia.
    + match goal with |- context [schemaValid ?d] => destruct (schemaValid d) end.
      * eexists. eexists. eexists (_ :: _ :: nil).
        split; [reflexivity|]. split; [cbn; rewrite <- !app_assoc; reflexivity|].
        do 3 right. left. split; [reflexivity|]. split; [reflexivity|].
        eexists. repeat split; reflexivity.
      * eexists. eexists. eexists (_ :: _ :: nil).
        split; [reflexivity|]. split; [cbn; rewrite <- !app_assoc; reflexivity|].
        do 5 right. repeat split; try reflexivity; cbn; lia.
Qed.

(** Every creation is answered, with 201, 202, 400, 404 or 500; it saves at
    most one document and sends at most one seat delta, and the collection
    changes by that one document or not at all. *)
Theorem creation_is_answered_and_bounded (req : CreateRequest) (w : World) :
  exists resp w' added,
    createBooking req w = (Return resp, w')
    /\ trace w' = trace w ++ added
    /\ In (statusCode resp) [201; 202; 400; 404; 500]
    /\ (List.length (savedDocs added) <= 1)%nat
    /\ (List.length (seatDeltas added) <= 1)%nat
    /\ (savedDocs added = [] -> bookings w' = bookings w)
    /\ (forall doc, savedDocs added = [doc] -> bookings w' = upsert doc (bookings w)).
Proof.
  destruct (createBooking_outcome req w) as (resp & w' & added & Hrun & Htr & Hcases).
  exists resp, w', added. split; [exact Hrun|]. split; [exact Htr|].
  destruct Hcases
    as [(Hs & Hdb & Hsaved & Hdeltas)
       | [(Hs & Hdb & Hsaved & Hdeltas)
         | [(Hs & Hdeltas & doc & Hsaved & Hdb & _)
           | [(Hs & Hdeltas & doc & Hsaved & Hdb & _)
             | [(Hs & eventId & n & doc & Hdeltas & Hsaved & Hdb & _)
               | (Hs & Hdb & Hsaved & Hdeltas)]]]]];
    rewrite Hs, Hsaved; try rewrite Hdeltas; cbn [List.length In];
    (split; [tauto|]); (split; [lia|]); (split; [lia|]);
    (split; [intros Hnone; try discriminate Hnone; try exact Hdb
            | intros d Hd; try discriminate Hd; inversion Hd; subst; exact Hdb]).
Qed.

(** A creation that answers 404 or 500 has stored nothing. *)
Lemma failed_creation_stores_nothing (req : CreateRequest) (w : World)
    (resp : Response) (w' : World) :
  createBooking req w = (Return resp, w') ->
  statusCode resp = 404 \/ statusCode resp = 500 ->
  bookings w' = bookings w /\ savedDocs (trace w') = savedDocs (trace w).
Proof.
  intros Hrun Hfailed.
  destruct (createBooking_outcome req w) as (resp0 & w0 & added & Hrun0 & Htr & Hcases).
  rewrite Hrun in Hrun0. inversion Hrun0; subst resp0 w0. clear Hrun0.
  rewrite Htr, savedDocs_app.
  destruct Hcases
    as [(Hs & Hdb & Hsaved & _)
       | [(Hs & Hdb & Hsaved & _)
         | [(Hs & _)
           | [(Hs & _ & doc & Hsaved & Hdb & _)
             | [(Hs & _)
               | (Hs & Hdb & Hsaved & _)]]]]];
    try (rewrite Hsaved, app_nil_r; split; [exact Hdb | reflexivity]);
    destruct Hfailed as [H | H]; rewrite Hs in H; discriminate H.
Qed.

(** A creation that answers 202, 400 or 404 has sent no seat delta. *)
Lemma unconfirmed_creation_sends_no_delta (req : CreateRequest) (w : World)
    (resp : Response) (w' : World) :
  createBooking req w = (Return resp, w') ->
  statusCode resp = 202 \/ statusCode resp = 400 \/ statusCode resp = 404 ->
  seatDeltas (trace w') = seatDeltas (trace w)
  /\ patchesMade w' = patchesMade w.
Proof.
  intros Hrun Hstatus.
  assert (Hpatches : statusCode resp = 201 \/ statusCode resp = 500
                     \/ patchesMade w' = patchesMade w).
  { revert Hrun. clear Hstatus.
    unfold createBooking, reserveSeats, confirmAfterPayment, creationFailed.
    unfold_monad.
    destruct (requiredFields (body req)) as [[eventId n]|];
      [|intros H; inversion H; subst; right; right; reflexivity].
    destruct (eventServiceGet (env w) (getsMade w) eventId) as [event|err];
      [|intros H; inversion H; subst; right; right; reflexivity].
    destruct (String.eqb (Event.status event) "cancelled");
      [intros H; inversion H; subst; right; right; reflexivity|].
    world_simpl.
    destruct (Event.date event <? now w);
      [intros H; inversion H; subst; right; right; reflexivity|].
    destruct (Event.availableSeats event <? n);
      destruct (Body.joinWaitlist (body req)); cbn [andb negb];
      repeat match goal with
        | |- context [schemaValid ?d] => destruct (schemaValid d)
        | |- context [paymentSucceeds ?r] => destruct (paymentSucceeds r); cbn [negb]
        | |- context [eventServicePatch ?e ?k ?i ?d] =>
            destruct (eventServicePatch e k i d); cbn
        end;
      intros H; inversion H; subst; cbn; tauto. }
  destruct (createBooking_outcome req w) as (resp0 & w0 & added & Hrun0 & Htr & Hcases).
  rewrite Hrun in Hrun0. inversion Hrun0; subst resp0 w0. clear Hrun0.
  rewrite Htr, seatDeltas_app. split.
  - destruct Hcases
      as [(Hs & _ & _ & Hdeltas)
         | [(Hs & _ & _ & Hdeltas)
           | [(Hs & Hdeltas & _)
             | [(Hs & Hdeltas & _)
               | [(Hs & _)
                 | (Hs & _)]]]]];
      try (rewrite Hdeltas, app_nil_r; reflexivity);
      destruct Hstatus as [H | [H | H]]; rewrite Hs in H; discriminate H.
  - destruct Hpatches as [H | [H | H]]; [| |exact H];
      destruct Hstatus as [H' | [H' | H']]; rewrite H in H'; discriminate H'.
Qed.

(** What the status of a creation tells about its effects: after a 404 or a
    500 nothing was stored, and after a 202, a 400 or a 404 no seat delta was
    sent, so seats are asked for only on the way to a confirmation. *)
Theorem creation_status_tells_the_effects (req : CreateRequest) (w : World)
    (resp : Response) (w' : World) :
  createBooking req w = (Return resp, w') ->
  (statusCode resp = 404 \/ statusCode resp = 500 ->
   bookings w' = bookings w /\ savedDocs (trace w') = savedDocs (trace w))
  /\ (statusCode resp = 202 \/ statusCode resp = 400 \/ statusCode resp = 404 ->
      seatDeltas (trace w') = seatDeltas (trace w)
      /\ patchesMade w' = patchesMade w).
Proof.
  intros Hrun. split.
  - apply (failed_creation_stores_nothing _ _ _ _ Hrun).
  - apply (unconfirmed_creation_sends_no_delta _ _ _ _ Hrun).
Qed.

(** ** The other ways a cancellation ends *)

(** Cancelling needs a stored booking and its owner or an admin: an unknown id
    gives 404, and somebody else's booking gives 403 whatever state the
    booking is in.  Neither changes the world. *)
Theorem cancel_needs_the_owner_or_an_admin (req : CancelRequest) (w : World) :
  (findById (params_id req) (bookings w) = None ->
   cancelBooking req w
   = (Return (mkResponse 404 (errorBody "Booking not found")), w))
  /\ (forall b,
        findById (params_id req) (bookings w) = Some b ->
        Booking.userId b <> User._id (caller req) ->
        User.role (caller req) <> "admin"%string ->
        cancelBooking req w
        = (Return (mkResponse 403 (errorBody "Access denied")), w)).
Proof.
  split.
  - intros Hfound.
    unfold cancelBooking, tryCatch, bind, Booking_findById, ret.
    rewrite Hfound. reflexivity.
  - intros b Hfound Hother Huser.
    unfold cancelBooking, tryCatch, bind, Booking_findById, ret.
    rewrite Hfound.
    apply String.eqb_neq in Hother, Huser. rewrite Hother, Huser. reflexivity.
Qed.

(** A booking that is closed cannot be cancelled by its owner or an admin: one
    that is already cancelled gives 400 "Booking is already cancelled",
    whatever its event date, and one whose event date is before the clock
    gives 400 too.  The world is unchanged, so no seats are returned and no
    promotion pass runs. *)
Theorem closed_booking_is_not_cancelled (req : CancelRequest)
    (w : World) (b : Booking.t) :
  findById (params_id req) (bookings w) = Some b ->
  Booking.userId b = User._id (caller req) \/ User.role (caller req) = "admin"%string ->
  Booking.bookingStatus b = Cancelled \/ Booking.eventDate b < now w ->
  exists msg,
    cancelBooking req w = (Return (mkResponse 400 (errorBody msg)), w)
    /\ (Booking.bookingStatus b = Cancelled ->
        msg = "Booking is already cancelled"%string)
    /\ (Booking.bookingStatus b <> Cancelled ->
        msg = "Cannot cancel booking for past events"%string).
Proof.
  intros Hfound Hauth Hclosed.
  unfold cancelBooking, tryCatch, bind, Booking_findById, date_now, ret.
  rewrite Hfound.
  assert (Hdenied :
            negb (String.eqb (Booking.userId b) (User._id (caller req)))
            && negb (String.eqb (User.role (caller req)) "admin") = false).
  { destruct Hauth as [Howner | Hadmin].
    - rewrite Howner, String.eqb_refl. reflexivity.
    - rewrite Hadmin. cbn. apply andb_false_r. }
  rewrite Hdenied.
  destruct (BookingStatus_eqb (Booking.bookingStatus b) Cancelled) eqn:Hstatus.
  - assert (Booking.bookingStatus b = Cancelled)
      by (destruct (Booking.bookingStatus b); try discriminate; reflexivity).
    exists "Booking is already cancelled"%string.
    split; [reflexivity|]. split; [reflexivity | congruence].
  - assert (Hopen : Booking.bookingStatus b <> Cancelled)
      by (intros H; rewrite H in Hstatus; discriminate).
    destruct Hclosed as [Hc | Hpast]; [congruence|].
    apply Z.ltb_lt in Hpast. rewrite Hpast.
    exists "Cannot cancel booking for past events"%string.
    split; [reflexivity|]. split; [congruence | reflexivity].
Qed.

Lemma cancelAndRestore_unconfirmed (b : Booking.t) (w : World) :
  Booking.bookingStatus b <> Confirmed ->
  schemaValid (markCancelled b) = true ->
  cancelAndRestore b w
  = (Return (cancelledReply b),
     log (BookingSave (markCancelled b))
       (set_bookings (upsert (markCancelled b) (bookings w)) w)).
Proof.
  intros Hstatus Hvalid.
  assert (Hnot : BookingStatus_eqb (Booking.bookingStatus b) Confirmed = false)
    by (destruct (Booking.bookingStatus b); try reflexivity; congruence).
  unfold cancelAndRestore, restoreSeats. rewrite Hnot.
  unfold bind, Booking_save, ret. rewrite Hvalid. reflexivity.
Qed.

Lemma cancelAndRestore_rejected (b : Booking.t) (w : World) :
  schemaValid (markCancelled b) = false ->
  cancelAndRestore b w = (Throw (mkError "Booking validation failed" JUndefined), w).
Proof.
  intros Hvalid. unfold cancelAndRestore, bind, Booking_save.
  rewrite Hvalid. reflexivity.
Qed.

(** Cancelling a booking that holds no seats (waitlisted or pending) stores it
    as cancelled and answers 200 without calling the event service: no seat
    delta, no event fetch, no promotion pass.  Its payment becomes refunded
    only if it was completed. *)
Theorem cancelling_unconfirmed_booking_returns_no_seats (req : CancelRequest)
    (w : World) (b : Booking.t) :
  reachesCancellation req w b ->
  Booking.bookingStatus b <> Confirmed ->
  schemaValid (markCancelled b) = true ->
  exists w',
    cancelBooking req w = (Return (cancelledReply b), w')
    /\ bookings w' = upsert (markCancelled b) (bookings w)
    /\ trace w' = trace w ++ [BookingSave (markCancelled b)]
    /\ patchesMade w' = patchesMade w
    /\ getsMade w' = getsMade w
    /\ Booking.bookingStatus (markCancelled b) = Cancelled
    /\ (Booking.paymentStatus b <> Completed ->
        Booking.paymentStatus (markCancelled b) = Booking.paymentStatus b)
    /\ (Booking.paymentStatus b = Completed ->
        Booking.paymentStatus (markCancelled b) = Refunded).
Proof.
  intros Hreach Hstatus Hvalid.
  rewrite (cancelBooking_reaches _ _ _ Hreach).
  unfold tryCatch. rewrite (cancelAndRestore_unconfirmed _ _ Hstatus Hvalid).
  eexists. split; [reflexivity|].
  repeat split; try reflexivity.
  - apply markCancelled_fields.
  - intros Hpay. unfold markCancelled.
    cbn [Booking.set_bookingStatus Booking.paymentStatus].
    destruct (Booking.paymentStatus b) eqn:Hwas; cbn; rewrite ?Hwas;
      try reflexivity. exfalso. apply Hpay. reflexivity.
  - intros Hpay. unfold markCancelled.
    cbn [Booking.set_bookingStatus Booking.paymentStatus].
    rewrite Hpay. reflexivity.
Qed.

(** When [save()] rejects the cancelled document the cancellation answers 500
    and nothing has happened: the booking keeps its status and, even if it was
    confirmed, no seats are returned. *)
Theorem cancellation_fails_before_restoring_seats (req : CancelRequest)
    (w : World) (b : Booking.t) :
  reachesCancellation req w b ->
  schemaValid (markCancelled b) = false ->
  exists resp w',
    cancelBooking req w = (Return resp, w')
    /\ statusCode resp = 500
    /\ getField "error" (payload resp) = JStr "Failed to cancel booking"
    /\ bookings w' = bookings w
    /\ trace w' = trace w ++ [ConsoleError "Cancel booking error:"]
    /\ patchesMade w' = patchesMade w.
Proof.
  intros Hreach Hvalid.
  rewrite (cancelBooking_reaches _ _ _ Hreach).
  unfold tryCatch. rewrite (cancelAndRestore_rejected _ _ Hvalid).
  unfold cancellationFailed, bind, console_error, ret.
  eexists. eexists. split; [reflexivity|].
  repeat split; reflexivity.
Qed.

(** ** More on the promotion pass *)

Lemma fittingPrefix_within (l : list Booking.t) :
  forall (availableSeats : Z) (done rest : list Booking.t),
    0 <= availableSeats ->
    fittingPrefix l availableSeats = done ++ rest ->
    ticketsOf done <= availableSeats.
Proof.
  induction l as [|b l IH]; intros avail done rest Hpos Hsplit; cbn in Hsplit.
  - destruct done; [cbn; lia | discriminate Hsplit].
  - destruct (avail <? Booking.numberOfTickets b) eqn:Hfit.
    + destruct done; [cbn; lia | discriminate Hsplit].
    + apply Z.ltb_ge in Hfit.
      destruct done as [|d done]; [cbn; lia|].
      cbn in Hsplit. inversion Hsplit as [[Hd Hrest]]. subst d.
      change (ticketsOf (b :: done)) with (Booking.numberOfTickets b + ticketsOf done).
      assert (ticketsOf done <= avail - Booking.numberOfTickets b)
        by (eapply IH; [|exact Hrest]; lia).
      lia.
Qed.


(** A pass never hands out more seats than it started with: the ticket counts
    of the bookings it confirms, which are the deltas it sends, sum to at most
    the starting count (and to nothing when that count is not positive). *)
Theorem promotion_never_exceeds_the_starting_count (eventId : string)
    (hint : json) (w : World) (event : Event.t) :
  eventServiceGet (env w) (getsMade w) eventId = GetOk event ->
  exists promoted added w',
    promoteWaitlistIfPossible eventId hint w = (Return tt, w')
    /\ trace w' = trace w ++ AxiosGet eventId :: added
    /\ Forall2 confirmedFrom promoted (savedDocs added)
    /\ seatDeltas added = map (fun b => (eventId, Booking.numberOfTickets b)) promoted
    /\ ticketsOf promoted <= Z.max 0 (initialAvailableSeats hint event).
Proof.
  intros Hget. rewrite (promote_with_event _ _ _ _ Hget).
  destruct (initialAvailableSeats hint event <=? 0) eqn:Hstart.
  { exists [], [], (afterFetch eventId w).
    repeat split; try constructor. cbn. lia. }
  apply Z.leb_gt in Hstart.
  destruct (promoteLoop_spec eventId event (waitlistOf eventId (bookings w))
              (initialAvailableSeats hint event) (afterFetch eventId w))
    as (done & rest & added & out & w' & Hrun & Hpre & Htr & Hdocs & Hdeltas & _ & _).
  assert (Hsum : ticketsOf done <= Z.max 0 (initialAvailableSeats hint event)).
  { assert (ticketsOf done <= initialAvailableSeats hint event)
      by (eapply fittingPrefix_within; [|exact Hpre]; lia).
    lia. }
  unfold tryCatch. rewrite Hrun.
  destruct out as [[]|err].
  - exists done, added, w'.
    split; [reflexivity|].
    split; [rewrite Htr; cbn; rewrite <- app_assoc; reflexivity|].
    repeat split; assumption.
  - exists done, (added ++ [ConsoleError "Waitlist promotion failed:"]).
    eexists. split; [reflexivity|].
    rewrite savedDocs_app, seatDeltas_app. cbn. rewrite !app_nil_r.
    split; [rewrite Htr; cbn; rewrite <- !app_assoc; reflexivity|].
    repeat split; assumption.
Qed.



(** What a pass does to the collection: it writes back, confirmed, some of
    the candidates it read. *)
Lemma promote_pass_store (eventId : string) (hint : json) (w : World) :
  exists promoted added w',
    promoteWaitlistIfPossible eventId hint w = (Return tt, w')
    /\ trace w' = trace w ++ AxiosGet eventId :: added
    /\ Forall2 confirmedFrom promoted (savedDocs added)
    /\ bookings w' = applySaves (savedDocs added) (bookings w)
    /\ incl promoted (waitlistOf eventId (bookings w)).
Proof.
  destruct (eventServiceGet (env w) (getsMade w) eventId) as [event|err] eqn:Hget.
  - destruct (promote_pass_spec eventId hint w event Hget)
      as (done & rest & added & w' & Hrun & Hpre & Htr & Hdocs & _ & _ & Hdb).
    exists done, added, w'. repeat split; try assumption.
    destruct (fittingPrefix_is_prefix (waitlistOf eventId (bookings w))
                (initialAvailableSeats hint event)) as [unfit Hunfit].
    intros b Hin. rewrite Hunfit, Hpre.
    apply in_or_app. left. apply in_or_app. left. exact Hin.
  - exists [], [ConsoleError "Waitlist promotion failed:"].
    eexists. split; [apply (promote_without_event _ _ _ _ Hget)|].
    cbn. rewrite <- app_assoc.
    repeat split; try constructor. intros b [].
Qed.

Lemma upsert_ids (doc : Booking.t) (bs : list Booking.t) :
  In (Booking._id doc) (map Booking._id bs) ->
  map Booking._id (upsert doc bs) = map Booking._id bs.
Proof.
  induction bs as [|b bs IH]; cbn; [propositional|].
  intros Hin. destruct (Nat.eqb (Booking._id b) (Booking._id doc)) eqn:Heq.
  - apply Nat.eqb_eq in Heq. cbn. rewrite Heq. reflexivity.
  - apply Nat.eqb_neq in Heq. cbn. f_equal. apply IH.
    destruct Hin as [Hin | Hin]; [congruence | exact Hin].
Qed.

Lemma applySaves_ids (docs bs : list Booking.t) :
  incl (map Booking._id docs) (map Booking._id bs) ->
  map Booking._id (applySaves docs bs) = map Booking._id bs.
Proof.
  revert bs. induction docs as [|d docs IH]; intros bs Hincl; [reflexivity|].
  cbn in *.
  assert (Hd : map Booking._id (upsert d bs) = map Booking._id bs).
  { apply upsert_ids. apply Hincl. left. reflexivity. }
  rewrite IH; [exact Hd|].
  rewrite Hd. intros id Hin. apply Hincl. right. exact Hin.
Qed.

Lemma distinct_ids_distinguish (bs : list Booking.t) (x y : Booking.t) :
  NoDup (map Booking._id bs) -> In x bs -> In y bs ->
  Booking._id x = Booking._id y -> x = y.
Proof.
  induction bs as [|b bs IH]; cbn; [propositional|].
  intros Hnd Hx Hy Hid. apply NoDup_cons_iff in Hnd. destruct Hnd as [Hfresh Hnd].
  destruct Hx as [Hx | Hx], Hy as [Hy | Hy]; subst.
  - reflexivity.
  - exfalso. apply Hfresh. rewrite Hid. apply in_map. exact Hy.
  - exfalso. apply Hfresh. rewrite <- Hid. apply in_map. exact Hx.
  - exact (IH Hnd Hx Hy Hid).
Qed.

(** A pass never adds or removes a booking, and with distinct ids it changes
    none but waitlisted bookings of its event: every other stored booking
    (another event, another status) is still there as it was. *)
Theorem promotion_touches_only_the_waitlist (eventId : string) (hint : json)
    (w : World) :
  exists w',
    promoteWaitlistIfPossible eventId hint w = (Return tt, w')
    /\ map Booking._id (bookings w') = map Booking._id (bookings w)
    /\ (NoDup (map Booking._id (bookings w)) ->
        forall b, In b (bookings w) ->
                  Booking.eventId b <> eventId
                  \/ Booking.bookingStatus b <> Waitlisted ->
                  In b (bookings w')).
Proof.
  destruct (promote_pass_store eventId hint w)
    as (promoted & added & w' & Hrun & _ & Hdocs & Hdb & Hincl).
  exists w'. split; [exact Hrun|].
  pose proof (confirmedFrom_ids _ _ Hdocs) as Hids.
  assert (Hstored : forall p, In p promoted ->
                              In p (bookings w)
                              /\ Booking.eventId p = eventId
                              /\ Booking.bookingStatus p = Waitlisted).
  { intros p Hp. apply waitlistOf_In. apply Hincl. exact Hp. }
  split.
  - rewrite Hdb. apply applySaves_ids. rewrite Hids.
    intros id Hin. apply in_map_iff in Hin. destruct Hin as (p & Hid & Hp).
    rewrite <- Hid. apply in_map. apply (Hstored p Hp).
  - intros Hnodup b Hin Hother.
    rewrite Hdb. apply applySaves_keeps; [|exact Hin].
    rewrite Hids. intros Hclash.
    apply in_map_iff in Hclash. destruct Hclash as (p & Hid & Hp).
    destruct (Hstored p Hp) as (Hpin & Hpevent & Hpstatus).
    assert (p = b) by (apply (distinct_ids_distinguish _ _ _ Hnodup Hpin Hin Hid)).
    subst p. destruct Hother as [Hevent | Hstatus]; congruence.
Qed.

(** A pass changes nothing when the event cannot be fetched or when its
    starting count is not positive: no booking is saved and no delta is sent,
    however many bookings wait. *)
Theorem promotion_without_event_or_seats_is_idle (eventId : string)
    (hint : json) (w : World) :
  (exists err, eventServiceGet (env w) (getsMade w) eventId = GetErr err)
  \/ (exists event, eventServiceGet (env w) (getsMade w) eventId = GetOk event
                    /\ initialAvailableSeats hint event <= 0) ->
  exists w',
    promoteWaitlistIfPossible eventId hint w = (Return tt, w')
    /\ bookings w' = bookings w
    /\ savedDocs (trace w') = savedDocs (trace w)
    /\ seatDeltas (trace w') = seatDeltas (trace w)
    /\ patchesMade w' = patchesMade w.
Proof.
  intros [[err Hget] | (event & Hget & Hstart)].
  - rewrite (promote_without_event _ _ _ _ Hget).
    eexists. split; [reflexivity|]. repeat split; trace_simpl; reflexivity.
  - rewrite (promote_with_event _ _ _ _ Hget).
    apply Z.leb_le in Hstart. rewrite Hstart.
    eexists. split; [reflexivity|]. repeat split; trace_simpl; reflexivity.
Qed.

(** ** Cancelling twice *)

Lemma findById_found (id : nat) (bs : list Booking.t) (b : Booking.t) :
  findById id bs = Some b -> Booking._id b = id /\ In b bs.
Proof.
  induction bs as [|x bs IH]; cbn; [discriminate|].
  destruct (Nat.eqb (Booking._id x) id) eqn:Heq.
  - intros H. inversion H; subst. apply Nat.eqb_eq in Heq. auto.
  - intros H. destruct (IH H). auto.
Qed.

Lemma findById_upsert_same (doc : Booking.t) (bs : list Booking.t) :
  findById (Booking._id doc) (upsert doc bs) = Some doc.
Proof.
  induction bs as [|x bs IH]; cbn.
  - rewrite Nat.eqb_refl. reflexivity.
  - destruct (Nat.eqb (Booking._id x) (Booking._id doc)) eqn:Heq; cbn.
    + rewrite Nat.eqb_refl. reflexivity.
    + rewrite Heq. exact IH.
Qed.

Lemma findById_upsert_other (id : nat) (doc : Booking.t) (bs : list Booking.t) :
  Booking._id doc <> id ->
  findById id (upsert doc bs) = findById id bs.
Proof.
  intros Hother. apply Nat.eqb_neq in Hother.
  induction bs as [|x bs IH]; cbn.
  - rewrite Hother. reflexivity.
  - destruct (Nat.eqb (Booking._id x) (Booking._id doc)) eqn:Heq; cbn.
    + apply Nat.eqb_eq in Heq. rewrite Heq, Hother. reflexivity.
    + rewrite IH. reflexivity.
Qed.

Lemma findById_applySaves (id : nat) (docs bs : list Booking.t) :
  ~ In id (map Booking._id docs) ->
  findById id (applySaves docs bs) = findById id bs.
Proof.
  revert bs. induction docs as [|d docs IH]; intros bs Hfresh; [reflexivity|].
  cbn in *. rewrite IH by propositional.
  apply findById_upsert_other. propositional.
Qed.

(** The collection after a cancellation that got past [save()]: the cancelled
    document, then whatever the promotion pass confirmed. *)
Lemma cancelAndRestore_store (b : Booking.t) (w : World) :
  schemaValid (markCancelled b) = true ->
  exists w' docs promoted,
    cancelAndRestore b w = (Return (cancelledReply b), w')
    /\ bookings w' = applySaves docs (upsert (markCancelled b) (bookings w))
    /\ Forall2 confirmedFrom promoted docs
    /\ incl promoted
         (waitlistOf (Booking.eventId b) (upsert (markCancelled b) (bookings w))).
Proof.
  intros Hvalid.
  assert (Hidle : forall w',
             bookings w' = upsert (markCancelled b) (bookings w) ->
             exists docs promoted,
               bookings w' = applySaves docs (upsert (markCancelled b) (bookings w))
               /\ Forall2 confirmedFrom promoted docs
               /\ incl promoted
                    (waitlistOf (Booking.eventId b)
                       (upsert (markCancelled b) (bookings w)))).
  { intros w' Hdb. exists [], []. repeat split; [exact Hdb | constructor | intros x []]. }
  destruct (BookingStatus_eqb (Booking.bookingStatus b) Confirmed) eqn:Hstatus.
  - assert (Hconf : Booking.bookingStatus b = Confirmed)
      by (destruct (Booking.bookingStatus b); try discriminate; reflexivity).
    rewrite (cancelAndRestore_confirmed _ _ Hconf Hvalid).
    destruct (restoreReply b w) as [data|err].
    + destruct (isDefined (getField "availableSeats" data)).
      * destruct (promote_pass_store (Booking.eventId b)
                    (getField "availableSeats" data) (afterRestore b w))
          as (promoted & added & w' & Hrun & _ & Hdocs & Hdb & Hincl).
        rewrite Hrun. exists w', (savedDocs added), promoted.
        split; [reflexivity|]. repeat split; assumption.
      * destruct (Hidle (afterRestore b w) eq_refl) as (docs & promoted & H).
        eexists. exists docs, promoted. split; [reflexivity | exact H].
    + destruct (Hidle (log (ConsoleError "Failed to restore event seats:")
                         (afterRestore b w)) eq_refl) as (docs & promoted & H).
      eexists. exists docs, promoted. split; [reflexivity | exact H].
  - assert (Hnot : Booking.bookingStatus b <> Confirmed)
      by (intros H; rewrite H in Hstatus; discriminate).
    rewrite (cancelAndRestore_unconfirmed _ _ Hnot Hvalid).
    match goal with
    | |- context [(Return _, ?w1)] =>
        destruct (Hidle w1 eq_refl) as (docs & promoted & H)
    end.
    eexists. exists docs, promoted. split; [reflexivity | exact H].
Qed.

(** Seats are returned at most once.  With distinct ids, after a cancellation
    that answered 200 the booking is stored as cancelled, whatever the
    promotion pass did, and cancelling it again answers 400 and leaves the
    world as it is. *)
Theorem second_cancellation_is_refused (req : CancelRequest) (w : World)
    (b : Booking.t) :
  reachesCancellation req w b ->
  NoDup (map Booking._id (bookings w)) ->
  schemaValid (markCancelled b) = true ->
  exists w',
    cancelBooking req w = (Return (cancelledReply b), w')
    /\ findById (params_id req) (bookings w') = Some (markCancelled b)
    /\ cancelBooking req w'
       = (Return (mkResponse 400 (errorBody "Booking is already cancelled")), w').
Proof.
  intros Hreach Hnodup Hvalid.
  pose proof Hreach as (Hfound & Hauth & _ & _).
  destruct (findById_found _ _ _ Hfound) as [Hid Hin].
  destruct (markCancelled_fields b) as (_ & _ & Hcid & Hcstatus).
  rewrite (cancelBooking_reaches _ _ _ Hreach). unfold tryCatch at 1.
  destruct (cancelAndRestore_store b w Hvalid)
    as (w' & docs & promoted & Hrun & Hdb & Hdocs & Hincl).
  rewrite Hrun. exists w'. split; [reflexivity|].
  set (bs1 := upsert (markCancelled b) (bookings w)) in Hdb, Hincl |- *.
  assert (Hids1 : map Booking._id bs1 = map Booking._id (bookings w)).
  { apply upsert_ids. rewrite Hcid. apply in_map. exact Hin. }
  assert (Hfound1 : findById (params_id req) bs1 = Some (markCancelled b)).
  { rewrite <- Hid, <- Hcid. apply findById_upsert_same. }
  assert (Hfound' : findById (params_id req) (bookings w') = Some (markCancelled b)).
  { rewrite Hdb, findById_applySaves; [exact Hfound1|].
    rewrite (confirmedFrom_ids _ _ Hdocs). intros Hclash.
    apply in_map_iff in Hclash. destruct Hclash as (p & Hpid & Hp).
    apply Hincl, waitlistOf_In in Hp. destruct Hp as (Hpin & _ & Hpstatus).
    destruct (findById_found _ _ _ Hfound1) as [_ Hcin].
    assert (p = markCancelled b).
    { apply (distinct_ids_distinguish bs1); try assumption.
      - rewrite Hids1. exact Hnodup.
      - rewrite Hcid, Hid. exact Hpid. }
    subst p. congruence. }
  split; [exact Hfound'|].
  unfold cancelBooking, tryCatch, bind, Booking_findById, ret.
  rewrite Hfound', Hcstatus.
  assert (Hdenied :
            negb (String.eqb (Booking.userId (markCancelled b)) (User._id (caller req)))
            && negb (String.eqb (User.role (caller req)) "admin") = false).
  { assert (Huser : Booking.userId (markCancelled b) = Booking.userId b).
    { unfold markCancelled. cbn.
      destruct (PaymentStatus_eqb (Booking.paymentStatus b) Completed); reflexivity. }
    rewrite Huser.
    destruct Hauth as [Howner | Hadmin].
    - rewrite Howner, String.eqb_refl. reflexivity.
    - rewrite Hadmin. cbn. apply andb_false_r. }
  rewrite Hdenied. reflexivity.
Qed.

(** ** Cancelling every booking of an event *)

Lemma cancelAllForEvent_run (eventId : string) (w : World) :
  cancelAllForEvent eventId w
  = (Return (mkResponse 200
               (JObj [("message", JStr "All bookings cancelled successfully");
                      ("count",
                       JNum (Z.of_nat
                               (List.length (filter (isActiveFor eventId) (bookings w)))))])),
     set_bookings
       (map (fun b => if isActiveFor eventId b then cancelAndRefund b else b)
          (bookings w))
       w).
Proof. reflexivity. Qed.

Lemma isActiveFor_false_iff (eventId : string) (b : Booking.t) :
  isActiveFor eventId b = false <->
  Booking.eventId b <> eventId \/ Booking.bookingStatus b = Cancelled.
Proof.
  unfold isActiveFor, isForEvent, hasStatus.
  destruct (String.eqb_spec (Booking.eventId b) eventId) as [He | He];
    destruct (Booking.bookingStatus b); cbn; split; intros H;
    try reflexivity; try discriminate; try propositional;
    destruct H as [H | H]; congruence.
Qed.

Lemma cancelAndRefund_inactive (eventId : string) (b : Booking.t) :
  isActiveFor eventId (cancelAndRefund b) = false.
Proof. apply isActiveFor_false_iff. right. reflexivity. Qed.

Lemma cancelAll_leaves_none_active (eventId : string) (bs : list Booking.t) :
  filter (isActiveFor eventId)
    (map (fun b => if isActiveFor eventId b then cancelAndRefund b else b) bs) = [].
Proof.
  induction bs as [|b bs IH]; [reflexivity|].
  cbn. destruct (isActiveFor eventId b) eqn:Hactive.
  - rewrite cancelAndRefund_inactive. exact IH.
  - rewrite Hactive. exact IH.
Qed.

Lemma filter_none {A : Type} (keep : A -> bool) (l : list A) :
  (forall x, In x l -> keep x = false) -> filter keep l = [].
Proof.
  induction l as [|x l IH]; intros Hnone; [reflexivity|].
  cbn. rewrite (Hnone x) by (left; reflexivity).
  apply IH. intros y Hy. apply Hnone. right. exact Hy.
Qed.

Lemma cancelAll_cancels_the_event (eventId : string) (bs : list Booking.t)
    (b : Booking.t) :
  In b (map (fun b => if isActiveFor eventId b then cancelAndRefund b else b) bs) ->
  Booking.eventId b = eventId -> Booking.bookingStatus b = Cancelled.
Proof.
  intros Hin Hevent. apply in_map_iff in Hin. destruct Hin as (old & Hb & _).
  destruct (isActiveFor eventId old) eqn:Hactive.
  - subst b. reflexivity.
  - subst b. apply isActiveFor_false_iff in Hactive.
    destruct Hactive as [H | H]; [congruence | exact H].
Qed.

Lemma cancelAll_empties_the_waitlist (eventId : string) (bs : list Booking.t) :
  waitlistOf eventId
    (map (fun b => if isActiveFor eventId b then cancelAndRefund b else b) bs) = [].
Proof.
  unfold waitlistOf. rewrite filter_none; [reflexivity|].
  intros b Hin. unfold isWaitlistedFor.
  destruct (String.eqb_spec (Booking.eventId b) eventId) as [Hevent | Hevent];
    [|reflexivity].
  rewrite (cancelAll_cancels_the_event _ _ _ Hin Hevent). reflexivity.
Qed.

(** After the bulk cancellation every booking of the event is cancelled, none
    waits any more, and the reply counts the bookings that were still open.
    The event service is not called: no seats are returned and no promotion
    pass runs. *)
Theorem cancel_all_closes_every_booking_of_the_event (eventId : string)
    (w : World) :
  exists resp w',
    cancelAllForEvent eventId w = (Return resp, w')
    /\ statusCode resp = 200
    /\ getField "count" (payload resp)
       = JNum (Z.of_nat (List.length (filter (isActiveFor eventId) (bookings w))))
    /\ (forall b, In b (bookings w') -> Booking.eventId b = eventId ->
                  Booking.bookingStatus b = Cancelled)
    /\ waitlistOf eventId (bookings w') = []
    /\ trace w' = trace w
    /\ patchesMade w' = patchesMade w
    /\ getsMade w' = getsMade w.
Proof.
  rewrite cancelAllForEvent_run. eexists. eexists. split; [reflexivity|].
  split; [reflexivity|]. split; [reflexivity|].
  split; [apply cancelAll_cancels_the_event|].
  split; [apply cancelAll_empties_the_waitlist|].
  repeat split; reflexivity.
Qed.

(** The bulk cancellation changes only open bookings of its event, in place:
    the ids in the collection stay as they are, bookings of other events and
    bookings already cancelled are kept as they were, and every open booking
    of the event ends cancelled with payment refunded, whatever its payment
    was (also one that never paid). *)
Theorem cancel_all_changes_only_open_bookings_of_the_event (eventId : string)
    (w : World) :
  exists resp w',
    cancelAllForEvent eventId w = (Return resp, w')
    /\ map Booking._id (bookings w') = map Booking._id (bookings w)
    /\ (forall b, In b (bookings w) ->
                  Booking.eventId b <> eventId \/ Booking.bookingStatus b = Cancelled ->
                  In b (bookings w'))
    /\ (forall b, In b (bookings w) ->
                  Booking.eventId b = eventId -> Booking.bookingStatus b <> Cancelled ->
                  In (cancelAndRefund b) (bookings w')
                  /\ Booking.paymentStatus (cancelAndRefund b) = Refunded
                  /\ Booking.bookingStatus (cancelAndRefund b) = Cancelled
                  /\ Booking.numberOfTickets (cancelAndRefund b)
                     = Booking.numberOfTickets b
                  /\ Booking.transactionId (cancelAndRefund b)
                     = Booking.transactionId b).
Proof.
  rewrite cancelAllForEvent_run. eexists. eexists. split; [reflexivity|]. cbn.
  split; [|split].
  - rewrite map_map. apply map_ext. intros b.
    destruct (isActiveFor eventId b); reflexivity.
  - intros b Hin Hother. apply isActiveFor_false_iff in Hother.
    apply in_map_iff. exists b. rewrite Hother. auto.
  - intros b Hin Hevent Hopen.
    split; [|repeat split; reflexivity].
    apply in_map_iff. exists b. split; [|exact Hin].
    assert (Hactive : isActiveFor eventId b = true).
    { destruct (isActiveFor eventId b) eqn:H; [reflexivity|].
      apply isActiveFor_false_iff in H. destruct H; congruence. }
    rewrite Hactive. reflexivity.
Qed.

(** The bulk cancellation is idempotent: run again on its own result it
    reports a count of zero and changes nothing. *)
Theorem cancel_all_twice_changes_nothing_more (eventId : string) (w : World) :
  exists resp w',
    cancelAllForEvent eventId w = (Return resp, w')
    /\ cancelAllForEvent eventId w'
       = (Return (mkResponse 200
                    (JObj [("message", JStr "All bookings cancelled successfully");
                           ("count", JNum 0)])), w').
Proof.
  rewrite cancelAllForEvent_run. eexists. eexists. split; [reflexivity|].
  rewrite cancelAllForEvent_run. cbn [bookings set_bookings].
  rewrite cancelAll_leaves_none_active. cbn [List.length Z.of_nat].
  f_equal. unfold set_bookings. cbn. f_equal.
  rewrite map_map. apply map_ext. intros b.
  destruct (isActiveFor eventId b) eqn:Hactive.
  - rewrite cancelAndRefund_inactive. reflexivity.
  - rewrite Hactive. reflexivity.
Qed.

Lemma promotion_with_empty_waitlist (eventId : string) (hint : json) (w : World) :
  waitlistOf eventId (bookings w) = [] ->
  exists w',
    promoteWaitlistIfPossible eventId hint w = (Return tt, w')
    /\ bookings w' = bookings w
    /\ savedDocs (trace w') = savedDocs (trace w)
    /\ seatDeltas (trace w') = seatDeltas (trace w).
Proof.
  intros Hempty.
  destruct (eventServiceGet (env w) (getsMade w) eventId) as [event|err] eqn:Hget.
  - rewrite (promote_with_event _ _ _ _ Hget), Hempty.
    destruct (initialAvailableSeats hint event <=? 0).
    + eexists. split; [reflexivity|]. repeat split; trace_simpl; reflexivity.
    + eexists. split; [reflexivity|]. repeat split; trace_simpl; reflexivity.
  - rewrite (promote_without_event _ _ _ _ Hget).
    eexists. split; [reflexivity|]. repeat split; trace_simpl; reflexivity.
Qed.

(** After the bulk cancellation a promotion pass for the event finds nobody
    waiting: whatever hint and replies it gets, it saves nothing and sends no
    seat delta. *)
Theorem promotion_after_cancel_all_is_idle (eventId : string) (hint : json)
    (w : World) :
  exists w1 w2,
    snd (cancelAllForEvent eventId w) = w1
    /\ promoteWaitlistIfPossible eventId hint w1 = (Return tt, w2)
    /\ bookings w2 = bookings w1
    /\ savedDocs (trace w2) = savedDocs (trace w)
    /\ seatDeltas (trace w2) = seatDeltas (trace w).
Proof.
  exists (snd (cancelAllForEvent eventId w)).
  rewrite cancelAllForEvent_run. cbn [snd].
  match goal with
  | |- exists w2, _ = _ /\ promoteWaitlistIfPossible _ _ ?w1 = _ /\ _ =>
      destruct (promotion_with_empty_waitlist eventId hint w1
                  (cancelAll_empties_the_waitlist eventId (bookings w)))
        as (w2 & Hrun & Hdb & Hsaved & Hdeltas)
  end.
  exists w2. split; [reflexivity|]. split; [exact Hrun|].
  split; [exact Hdb|]. split; [exact Hsaved | exact Hdeltas].
Qed.

(** ** Reading bookings *)

Lemma accessDenied_false_iff (u : User.t) (doc : Booking.t) :
  accessDenied u doc = false <-> mayRead u doc.
Proof.
  unfold accessDenied, mayRead.
  destruct (String.eqb_spec (Booking.userId doc) (User._id u)) as [Ho | Ho];
    destruct (String.eqb_spec (User.role u) "admin"%string) as [Ha | Ha];
    cbn; split; intros H; try reflexivity; try discriminate; try propositional.
Qed.

Lemma bookingOrRefusal_spec (u : User.t) (found : option Booking.t) (w : World) :
  exists reply,
    bookingOrRefusal u found w = (Return reply, w)
    /\ (forall doc, reply = ReplyBooking doc <-> found = Some doc /\ mayRead u doc)
    /\ (found = None ->
        reply = ReplyJson (mkResponse 404 (errorBody "Booking not found")))
    /\ (forall doc, found = Some doc -> ~ mayRead u doc ->
        reply = ReplyJson (mkResponse 403 (errorBody "Access denied"))).
Proof.
  unfold bookingOrRefusal, ret.
  destruct found as [b|].
  - destruct (accessDenied u b) eqn:Hdenied.
    + eexists. split; [reflexivity|].
      assert (Hno : ~ mayRead u b).
      { intros Hread. apply accessDenied_false_iff in Hread. congruence. }
      split; [|split].
      * intros doc. split; [discriminate|].
        intros [Hb Hread]. inversion Hb; subst. contradiction.
      * discriminate.
      * reflexivity.
    + apply accessDenied_false_iff in Hdenied.
      eexists. split; [reflexivity|]. split; [|split].
      * intros doc. split.
        -- intros H. inversion H; subst. auto.
        -- intros [Hb _]. inversion Hb; subst. reflexivity.
      * discriminate.
      * intros doc Hb Hno. inversion Hb; subst. contradiction.
  - eexists. split; [reflexivity|]. split; [|split].
    + intros doc. split; [discriminate | intros [H _]; discriminate].
    + reflexivity.
    + discriminate.
Qed.

(** A stored booking is handed out, by id or by reference, only to its owner
    or to an admin, and to them always; anybody else gets 403 and an unknown
    id or reference gets 404.  Reading changes nothing. *)
Theorem booking_is_shown_only_to_owner_or_admin (u : User.t) (w : World) :
  (forall id,
      exists reply,
        getBooking u id w = (Return reply, w)
        /\ (forall doc, reply = ReplyBooking doc <->
                        findById id (bookings w) = Some doc /\ mayRead u doc)
        /\ (findById id (bookings w) = None ->
            reply = ReplyJson (mkResponse 404 (errorBody "Booking not found")))
        /\ (forall doc, findById id (bookings w) = Some doc -> ~ mayRead u doc ->
            reply = ReplyJson (mkResponse 403 (errorBody "Access denied"))))
  /\ (forall reference,
        exists reply,
          getBookingByReference u reference w = (Return reply, w)
          /\ (forall doc, reply = ReplyBooking doc <->
                          findByReference reference (bookings w) = Some doc
                          /\ mayRead u doc)
          /\ (findByReference reference (bookings w) = None ->
              reply = ReplyJson (mkResponse 404 (errorBody "Booking not found")))
          /\ (forall doc, findByReference reference (bookings w) = Some doc ->
                          ~ mayRead u doc ->
              reply = ReplyJson (mkResponse 403 (errorBody "Access denied")))).
Proof.
  split.
  - intros id.
    destruct (bookingOrRefusal_spec u (findById id (bookings w)) w)
      as (reply & Hrun & Hspec).
    exists reply. split; [|exact Hspec].
    unfold getBooking, tryCatch, bind. rewrite Hrun. reflexivity.
  - intros reference.
    destruct (bookingOrRefusal_spec u (findByReference reference (bookings w)) w)
      as (reply & Hrun & Hspec).
    exists reply. split; [|exact Hspec].
    unfold getBookingByReference, tryCatch, bind. rewrite Hrun. reflexivity.
Qed.

(** What a creation that answers 201 or 202 has stored: one document under a
    fresh id, owned by the requesting user. *)
Lemma createBooking_stores_own_document (req : CreateRequest) (w : World)
    (resp : Response) (w' : World) :
  createBooking req w = (Return resp, w') ->
  statusCode resp = 201 \/ statusCode resp = 202 ->
  exists doc,
    bookings w' = upsert doc (bookings w)
    /\ Booking._id doc = nextId w
    /\ Booking.userId doc = User._id (user req)
    /\ (statusCode resp = 201 -> Booking.bookingStatus doc = Confirmed)
    /\ (statusCode resp = 202 -> Booking.bookingStatus doc = Waitlisted).
Proof.
  unfold createBooking, reserveSeats, confirmAfterPayment, creationFailed.
  unfold_monad.
  destruct (requiredFields (body req)) as [[eventId n]|];
    [|intros H [Hs | Hs]; inversion H; subst; discriminate Hs].
  destruct (eventServiceGet (env w) (getsMade w) eventId) as [event|err];
    [|intros H [Hs | Hs]; inversion H; subst; discriminate Hs].
  destruct (String.eqb (Event.status event) "cancelled");
    [intros H [Hs | Hs]; inversion H; subst; discriminate Hs|].
  cbn [now log bump_gets].
  destruct (Event.date event <? now w);
    [intros H [Hs | Hs]; inversion H; subst; discriminate Hs|].
  destruct (Event.availableSeats event <? n);
    destruct (Body.joinWaitlist (body req)); cbn [andb negb];
    repeat match goal with
      | |- context [schemaValid ?d] => destruct (schemaValid d)
      | |- context [paymentSucceeds ?r] => destruct (paymentSucceeds r); cbn [negb]
      | |- context [eventServicePatch ?e ?k ?i ?d] =>
          destruct (eventServicePatch e k i d)
      end;
    intros H [Hs | Hs]; inversion H; subst; try discriminate Hs;
    eexists; (split; [reflexivity|]); repeat split; try reflexivity;
    intros Hno; discriminate Hno.
Qed.

(** A booking that a creation stored (201 or 202) can at once be read back by
    its id by the user who made the request: the reply is the stored
    document, owned by that user, confirmed after a 201 and waitlisted after
    a 202. *)
Theorem created_booking_can_be_read_back (req : CreateRequest) (w : World)
    (resp : Response) (w' : World) :
  createBooking req w = (Return resp, w') ->
  statusCode resp = 201 \/ statusCode resp = 202 ->
  exists doc,
    getBooking (user req) (nextId w) w' = (Return (ReplyBooking doc), w')
    /\ findById (nextId w) (bookings w') = Some doc
    /\ Booking.userId doc = User._id (user req)
    /\ (statusCode resp = 201 -> Booking.bookingStatus doc = Confirmed)
    /\ (statusCode resp = 202 -> Booking.bookingStatus doc = Waitlisted).
Proof.
  intros Hrun Hstatus.
  destruct (createBooking_stores_own_document _ _ _ _ Hrun Hstatus)
    as (doc & Hdb & Hid & Huser & H201 & H202).
  exists doc.
  assert (Hfound : findById (nextId w) (bookings w') = Some doc).
  { rewrite Hdb, <- Hid. apply findById_upsert_same. }
  split; [|repeat split; assumption].
  destruct (bookingOrRefusal_spec (user req) (Some doc) w') as (reply & Hreply & Hdoc & _).
  unfold getBooking, tryCatch, bind. rewrite Hfound, Hreply.
  assert (reply = ReplyBooking doc).
  { apply Hdoc. split; [reflexivity|]. left. exact Huser. }
  subst reply. reflexivity.
Qed.

Lemma isActiveForUser_true_iff (u : User.t) (eventId : string) (b : Booking.t) :
  isActiveForUser eventId (User._id u) b = true <->
  Booking.eventId b = eventId /\ Booking.userId b = User._id u
  /\ Booking.bookingStatus b <> Cancelled.
Proof.
  unfold isActiveForUser, isForEvent, isOwnedBy, hasStatus.
  destruct (String.eqb_spec (Booking.eventId b) eventId) as [He | He];
    destruct (String.eqb_spec (Booking.userId b) (User._id u)) as [Hu | Hu];
    destruct (Booking.bookingStatus b); cbn; split; intros H;
    try reflexivity; try discriminate; try propositional;
    repeat split; try assumption; try discriminate;
    destruct H as (H1 & H2 & H3); congruence.
Qed.

(** [GET /event/:eventId/me] says [hasBooking: true] exactly when the caller
    has a stored booking for the event that is not cancelled; it then reports
    the status and the reference of one such booking.  It changes nothing. *)
Theorem has_booking_means_an_active_booking (u : User.t) (eventId : string)
    (w : World) :
  exists resp,
    checkMyBooking u eventId w = (Return (ReplyJson resp), w)
    /\ statusCode resp = 200
    /\ (getField "hasBooking" (payload resp) = JBool true <->
        exists b, activeBookingOf u eventId (bookings w) b)
    /\ (getField "hasBooking" (payload resp) = JBool false <->
        forall b, ~ activeBookingOf u eventId (bookings w) b)
    /\ (getField "hasBooking" (payload resp) = JBool true ->
        exists b,
          activeBookingOf u eventId (bookings w) b
          /\ getField "bookingStatus" (payload resp)
             = JStr (bookingStatusName (Booking.bookingStatus b))
          /\ getField "bookingReference" (payload resp)
             = JStr (Booking.bookingReference b)).
Proof.
  unfold checkMyBooking, tryCatch, bind, Booking_findOne, ret.
  destruct (find (isActiveForUser eventId (User._id u)) (bookings w)) as [b|] eqn:Hfind.
  - apply find_some in Hfind. destruct Hfind as [Hin Hactive].
    apply isActiveForUser_true_iff in Hactive.
    assert (Hb : activeBookingOf u eventId (bookings w) b)
      by (unfold activeBookingOf; propositional).
    eexists. split; [reflexivity|]. split; [reflexivity|]. cbn.
    split; [split; [intros _; exists b; exact Hb | reflexivity]|].
    split; [split; [discriminate | intros Hnone; destruct (Hnone b Hb)]|].
    intros _. exists b. repeat split; try reflexivity; apply Hb.
  - eexists. split; [reflexivity|]. split; [reflexivity|]. cbn.
    assert (Hnone : forall b, ~ activeBookingOf u eventId (bookings w) b).
    { intros b (Hin & He & Hu & Hs).
      pose proof (find_none _ _ Hfind b Hin) as Hno.
      assert (isActiveForUser eventId (User._id u) b = true)
        by (apply isActiveForUser_true_iff; propositional).
      congruence. }
    split; [split; [discriminate | intros [b Hb]; destruct (Hnone b Hb)]|].
    split; [split; [intros _; exact Hnone | reflexivity]|].
    discriminate.
Qed.

Lemma insertByCreatedAtDesc_perm (b : Booking.t) (l : list Booking.t) :
  Permutation (b :: l) (insertByCreatedAtDesc b l).
Proof.
  induction l as [|x l IH]; cbn; [apply Permutation_refl|].
  destruct (Booking.createdAt x <=? Booking.createdAt b).
  - apply Permutation_refl.
  - eapply perm_trans; [apply perm_swap|]. apply perm_skip, IH.
Qed.

Lemma sortByCreatedAtDesc_perm (l : list Booking.t) :
  Permutation l (sortByCreatedAtDesc l).
Proof.
  induction l as [|b l IH]; cbn; [constructor|].
  eapply perm_trans; [apply perm_skip, IH|]. apply insertByCreatedAtDesc_perm.
Qed.

Lemma insertByCreatedAtDesc_sorted (b : Booking.t) (l : list Booking.t) :
  StronglySorted createdNoEarlier l ->
  StronglySorted createdNoEarlier (insertByCreatedAtDesc b l).
Proof.
  induction 1 as [|x l Hsorted IH Hall]; cbn.
  - repeat constructor.
  - destruct (Booking.createdAt x <=? Booking.createdAt b) eqn:Hle.
    + apply Z.leb_le in Hle. constructor.
      * constructor; assumption.
      * constructor; [exact Hle|].
        eapply Forall_impl; [|exact Hall].
        unfold createdNoEarlier. intros; lia.
    + apply Z.leb_gt in Hle. constructor; [exact IH|].
      eapply Permutation_Forall; [apply insertByCreatedAtDesc_perm|].
      constructor; [unfold createdNoEarlier; lia | exact Hall].
Qed.

Lemma sortByCreatedAtDesc_sorted (l : list Booking.t) :
  StronglySorted createdNoEarlier (sortByCreatedAtDesc l).
Proof.
  induction l as [|b l IH]; cbn; [constructor|].
  apply insertByCreatedAtDesc_sorted, IH.
Qed.

(** [GET /] lists exactly the caller's own bookings, each once, newest first,
    with [count] their number; nobody else's booking is in the list.  It
    changes nothing. *)
Theorem list_shows_exactly_the_callers_bookings (u : User.t) (w : World) :
  exists docs,
    listMyBookings u w = (Return (ReplyBookings (List.length docs) docs), w)
    /\ Permutation docs (filter (isOwnedBy (User._id u)) (bookings w))
    /\ StronglySorted createdNoEarlier docs
    /\ (forall b, In b docs <-> In b (bookings w) /\ Booking.userId b = User._id u).
Proof.
  exists (sortByCreatedAtDesc (filter (isOwnedBy (User._id u)) (bookings w))).
  split; [reflexivity|].
  pose proof (sortByCreatedAtDesc_perm (filter (isOwnedBy (User._id u)) (bookings w)))
    as Hperm.
  split; [apply Permutation_sym, Hperm|].
  split; [apply sortByCreatedAtDesc_sorted|].
  intros b. split.
  - intros Hin. apply (Permutation_in _ (Permutation_sym Hperm)) in Hin.
    apply filter_In in Hin. destruct Hin as [Hin Hown].
    apply String.eqb_eq in Hown. auto.
  - intros [Hin Hown]. apply (Permutation_in _ Hperm).
    apply filter_In. split; [exact Hin|]. apply String.eqb_eq. exact Hown.
Qed.

(** The two statistics routes are for admins only: any other role gets 403
    and the world is unchanged, so no event is fetched for it. *)
Theorem statistics_are_for_admins_only (u : User.t) (eventId : string) (w : World) :
  User.role u <> "admin"%string ->
  getAnalytics u w
  = (Return (ReplyJson (mkResponse 403 (errorBody "Access denied. Admin only."))), w)
  /\ getEventBookings u eventId w
     = (Return (ReplyJson (mkResponse 403 (errorBody "Access denied. Admin only."))), w).
Proof.
  intros Hrole. apply String.eqb_neq in Hrole.
  unfold getAnalytics, getEventBookings, tryCatch, ret.
  rewrite Hrole. split; reflexivity.
Qed.

Lemma filter_all {A : Type} (keep : A -> bool) (l : list A) :
  (forall x, In x l -> keep x = true) -> filter keep l = l.
Proof.
  induction l as [|x l IH]; intros Hall; [reflexivity|].
  cbn. rewrite (Hall x) by (left; reflexivity).
  f_equal. apply IH. intros y Hy. apply Hall. right. exact Hy.
Qed.

Lemma cancelAll_keeps_the_events (eventId other : string) (bs : list Booking.t) :
  List.length
    (filter (isForEvent other)
       (map (fun b => if isActiveFor eventId b then cancelAndRefund b else b) bs))
  = List.length (filter (isForEvent other) bs).
Proof.
  induction bs as [|b bs IH]; [reflexivity|].
  cbn [map filter].
  assert (Hsame : isForEvent other
                    (if isActiveFor eventId b then cancelAndRefund b else b)
                  = isForEvent other b)
    by (destruct (isActiveFor eventId b); reflexivity).
  rewrite Hsame. destruct (isForEvent other b); cbn [List.length]; rewrite IH; reflexivity.
Qed.

(** After the bulk cancellation the admin listing of the event shows all its
    bookings, every one cancelled: no confirmed booking, no ticket sold, and
    as many cancelled bookings as the event has bookings. *)
Theorem event_listing_after_cancel_all (u : User.t) (eventId : string) (w : World) :
  User.role u = "admin"%string ->
  exists stats docs w1,
    snd (cancelAllForEvent eventId w) = w1
    /\ getEventBookings u eventId w1 = (Return (ReplyEventBookings stats docs), w1)
    /\ EventStats.confirmedBookings stats = 0%nat
    /\ EventStats.totalTicketsSold stats = 0
    /\ EventStats.cancelledBookings stats = EventStats.totalBookings stats
    /\ EventStats.totalBookings stats
       = List.length (filter (isForEvent eventId) (bookings w))
    /\ (forall b, In b docs -> Booking.bookingStatus b = Cancelled).
Proof.
  intros Hadmin.
  rewrite cancelAllForEvent_run. cbn [snd].
  unfold getEventBookings, tryCatch, bind, Booking_find_newest_first, ret.
  rewrite Hadmin. cbn [String.eqb Ascii.eqb Bool.eqb negb bookings set_bookings].
  set (bs1 := map (fun b => if isActiveFor eventId b then cancelAndRefund b else b)
                (bookings w)).
  set (docs := sortByCreatedAtDesc (filter (isForEvent eventId) bs1)).
  assert (Hall : forall b, In b docs -> Booking.bookingStatus b = Cancelled).
  { intros b Hin.
    apply (Permutation_in _ (Permutation_sym (sortByCreatedAtDesc_perm _))) in Hin.
    apply filter_In in Hin. destruct Hin as [Hin Hevent].
    apply String.eqb_eq in Hevent.
    exact (cancelAll_cancels_the_event _ _ _ Hin Hevent). }
  assert (Hnone : filter (hasStatus Confirmed) docs = []).
  { apply filter_none. intros b Hin. unfold hasStatus. rewrite (Hall b Hin). reflexivity. }
  assert (Hevery : filter (hasStatus Cancelled) docs = docs).
  { apply filter_all. intros b Hin. unfold hasStatus. rewrite (Hall b Hin). reflexivity. }
  exists (eventStats docs), docs. eexists.
  split; [reflexivity|]. split; [reflexivity|].
  unfold eventStats, totalTicketsSoldOf.
  cbn [EventStats.confirmedBookings EventStats.totalTicketsSold
       EventStats.cancelledBookings EventStats.totalBookings].
  rewrite Hnone, Hevery.
  split; [reflexivity|]. split; [reflexivity|]. split; [reflexivity|].
  split; [|exact Hall].
  unfold docs. rewrite <- (Permutation_length (sortByCreatedAtDesc_perm _)).
  apply cancelAll_keeps_the_events.
Qed.

(** ** Analytics *)

Lemma status_partition (bs : list Booking.t) :
  List.length bs
  = (List.length (filter (hasStatus Confirmed) bs)
     + List.length (filter (hasStatus Cancelled) bs)
     + List.length (filter (hasStatus Waitlisted) bs)
     + List.length (filter (hasStatus Pending) bs))%nat.
Proof.
  induction bs as [|b bs IH]; [reflexivity|].
  cbn [filter]. unfold hasStatus in *.
  destruct (Booking.bookingStatus b); cbn [BookingStatus_eqb List.length]; lia.
Qed.

Lemma countInto_count (key eventId : string) (groups : list (string * nat)) :
  groupCount key (countInto eventId groups)
  = (groupCount key groups + if String.eqb eventId key then 1 else 0)%nat.
Proof.
  unfold groupCount.
  induction groups as [|[k n] groups IH]; cbn [countInto find fst snd].
  - destruct (String.eqb eventId key); reflexivity.
  - destruct (String.eqb_spec k eventId) as [Hk | Hk].
    + subst k. cbn [find fst snd].
      destruct (String.eqb eventId key); cbn [snd]; lia.
    + cbn [find fst snd].
      destruct (String.eqb_spec k key) as [Hkey | Hkey].
      * subst k. apply String.eqb_neq in Hk. rewrite String.eqb_sym in Hk.
        rewrite Hk. cbn [snd]. lia.
      * exact IH.
Qed.

Lemma countInto_keys (key eventId : string) (groups : list (string * nat)) :
  In key (map fst (countInto eventId groups))
  <-> key = eventId \/ In key (map fst groups).
Proof.
  induction groups as [|[k n] groups IH]; cbn [countInto map fst In].
  - split; [intros [H | []]; auto | intros [H | []]; auto].
  - destruct (String.eqb_spec k eventId) as [Hk | Hk]; cbn [map fst In].
    + subst k. (forget_section; intuition congruence).
    + rewrite IH. (forget_section; intuition congruence).
Qed.

Lemma countInto_keys_distinct (eventId : string) (groups : list (string * nat)) :
  NoDup (map fst groups) -> NoDup (map fst (countInto eventId groups)).
Proof.
  induction groups as [|[k n] groups IH]; cbn [countInto map fst]; intros Hnd.
  - repeat constructor. intros [].
  - apply NoDup_cons_iff in Hnd. destruct Hnd as [Hfresh Hnd].
    destruct (String.eqb_spec k eventId) as [Hk | Hk]; cbn [map fst].
    + constructor; assumption.
    + constructor; [|apply IH, Hnd].
      intros Hin. apply countInto_keys in Hin. destruct Hin as [Hin | Hin]; auto.
Qed.

Lemma countInto_sum (eventId : string) (groups : list (string * nat)) :
  list_sum (map snd (countInto eventId groups)) = S (list_sum (map snd groups)).
Proof.
  unfold list_sum.
  induction groups as [|[k n] groups IH]; cbn [countInto]; [reflexivity|].
  destruct (String.eqb k eventId); cbn [map snd fold_right].
  - lia.
  - rewrite IH. lia.
Qed.

Lemma countInto_positive (eventId : string) (groups : list (string * nat)) :
  Forall (fun g => (1 <= snd g)%nat) groups ->
  Forall (fun g => (1 <= snd g)%nat) (countInto eventId groups).
Proof.
  induction 1 as [|[k n] groups Hn Hall IH]; cbn [countInto].
  - repeat constructor.
  - destruct (String.eqb k eventId); constructor; cbn in *; try lia; assumption.
Qed.

(** The groups built from a list of waitlisted bookings, on top of the groups
    there already. *)
Lemma grouping_invariant (l : list Booking.t) :
  forall groups : list (string * nat),
    let result :=
      fold_left (fun groups b => countInto (Booking.eventId b) groups) l groups in
    (forall key,
        groupCount key result
        = (groupCount key groups + List.length (filter (isForEvent key) l))%nat)
    /\ (NoDup (map fst groups) -> NoDup (map fst result))
    /\ (forall key,
          In key (map fst result)
          <-> In key (map fst groups) \/ exists b, In b l /\ Booking.eventId b = key)
    /\ list_sum (map snd result) = (list_sum (map snd groups) + List.length l)%nat
    /\ (Forall (fun g => (1 <= snd g)%nat) groups ->
        Forall (fun g => (1 <= snd g)%nat) result).
Proof.
  induction l as [|b l IH]; intros groups; cbn [fold_left].
  - cbn. repeat split; try propositional; try lia.
    intros [H | (b & [] & _)]. exact H.
  - destruct (IH (countInto (Booking.eventId b) groups))
      as (Hcount & Hdistinct & Hkeys & Hsum & Hpos).
    cbn zeta. split; [|split; [|split; [|split]]].
    + intros key. rewrite Hcount, countInto_count. cbn [filter].
      unfold isForEvent at 2.
      destruct (String.eqb (Booking.eventId b) key); cbn [List.length]; lia.
    + intros Hnd. apply Hdistinct, countInto_keys_distinct, Hnd.
    + intros key. rewrite Hkeys, countInto_keys. split.
      * intros [[Hb | Hg] | (x & Hx & Hk)].
        -- right. exists b. split; [left; reflexivity | congruence].
        -- left. exact Hg.
        -- right. exists x. split; [right; exact Hx | exact Hk].
      * intros [Hg | (x & [Hx | Hx] & Hk)].
        -- left. right. exact Hg.
        -- subst x. left. left. congruence.
        -- right. exists x. auto.
    + rewrite Hsum, countInto_sum. cbn [List.length]. lia.
    + intros Hall. apply Hpos, countInto_positive, Hall.
Qed.

Lemma groupCount_of_member (key : string) (n : nat) (groups : list (string * nat)) :
  NoDup (map fst groups) -> In (key, n) groups -> groupCount key groups = n.
Proof.
  unfold groupCount.
  induction groups as [|[k m] groups IH]; cbn [map fst In find]; [propositional|].
  intros Hnd Hin. apply NoDup_cons_iff in Hnd. destruct Hnd as [Hfresh Hnd].
  destruct Hin as [Heq | Hin].
  - inversion Heq; subst. rewrite String.eqb_refl. reflexivity.
  - destruct (String.eqb_spec k key) as [Hk | Hk].
    + subst k. exfalso. apply Hfresh.
      change key with (fst (key, n)). apply in_map. exact Hin.
    + apply IH; assumption.
Qed.

Lemma filter_waitlisted_for (eventId : string) (bs : list Booking.t) :
  filter (isForEvent eventId) (filter (hasStatus Waitlisted) bs)
  = filter (isWaitlistedFor eventId) bs.
Proof.
  induction bs as [|b bs IH]; [reflexivity|].
  cbn [filter]. unfold isWaitlistedFor, isForEvent, hasStatus in *.
  destruct (BookingStatus_eqb (Booking.bookingStatus b) Waitlisted);
    cbn [filter]; destruct (String.eqb (Booking.eventId b) eventId);
    cbn [andb]; rewrite IH; reflexivity.
Qed.

Lemma withEventTitles_spec (groups : list (string * nat)) :
  forall w : World,
  exists entries added w',
    withEventTitles groups w = (Return entries, w')
    /\ env w' = env w
    /\ bookings w' = bookings w
    /\ trace w' = trace w ++ added
    /\ map entryGroup entries = groups
    /\ eventFetches added = map fst groups
    /\ seatDeltas added = []
    /\ savedDocs added = []
    /\ titlesFollowReplies (env w) (getsMade w) entries
    /\ ((forall k id, exists err, eventServiceGet (env w) k id = GetErr err) ->
        Forall (fun e => WaitlistEntry.title e = "Unknown event"%string) entries).
Proof.
  induction groups as [|[eventId n] groups IH]; intros w.
  - exists [], [], w. cbn. rewrite app_nil_r.
    repeat split; try constructor.
    intros [|i] entry Hnth; discriminate Hnth.
  - cbn [withEventTitles]. unfold_monad.
    destruct (eventServiceGet (env w) (getsMade w) eventId) as [event|err] eqn:Hget.
    + destruct (IH (log (AxiosGet eventId) (bump_gets w)))
        as (entries & added & w' & Hrun & Henv & Hdb & Htr & Hgroups & Hfetch
            & Hdeltas & Hsaved & Htitles & Hdown).
      rewrite Hrun.
      exists (WaitlistEntry.mk eventId n (Event.title event) :: entries),
        (AxiosGet eventId :: added), w'.
      split; [reflexivity|]. split; [exact Henv|]. split; [exact Hdb|].
      split; [rewrite Htr; cbn; rewrite <- app_assoc; reflexivity|].
      split; [cbn; rewrite Hgroups; reflexivity|].
      split; [cbn; rewrite Hfetch; reflexivity|].
      split; [exact Hdeltas|]. split; [exact Hsaved|].
      split.
      * intros [|i] entry Hnth.
        -- injection Hnth as <-. cbn [WaitlistEntry._id WaitlistEntry.title].
           rewrite Nat.add_0_r, Hget. reflexivity.
        -- rewrite Nat.add_succ_r. exact (Htitles i entry Hnth).
      * intros Hall. destruct (Hall (getsMade w) eventId) as [err Herr]. congruence.
    + destruct (IH (log (AxiosGet eventId) (bump_gets w)))
        as (entries & added & w' & Hrun & Henv & Hdb & Htr & Hgroups & Hfetch
            & Hdeltas & Hsaved & Htitles & Hdown).
      rewrite Hrun.
      exists (WaitlistEntry.mk eventId n "Unknown event" :: entries),
        (AxiosGet eventId :: added), w'.
      split; [reflexivity|]. split; [exact Henv|]. split; [exact Hdb|].
      split; [rewrite Htr; cbn; rewrite <- app_assoc; reflexivity|].
      split; [cbn; rewrite Hgroups; reflexivity|].
      split; [cbn; rewrite Hfetch; reflexivity|].
      split; [exact Hdeltas|]. split; [exact Hsaved|].
      split.
      * intros [|i] entry Hnth.
        -- injection Hnth as <-. cbn [WaitlistEntry._id WaitlistEntry.title].
           rewrite Nat.add_0_r, Hget. reflexivity.
        -- rewrite Nat.add_succ_r. exact (Htitles i entry Hnth).
      * intros Hall. constructor; [reflexivity | exact (Hdown Hall)].
Qed.

Lemma getAnalytics_run (u : User.t) (w : World) :
  User.role u = "admin"%string ->
  exists entries added w',
    getAnalytics u w
    = (Return (ReplyAnalytics (analyticsStats (bookings w)) entries), w')
    /\ withEventTitles (waitlistGroups (bookings w)) w = (Return entries, w')
    /\ trace w' = trace w ++ added
    /\ bookings w' = bookings w
    /\ map entryGroup entries = waitlistGroups (bookings w)
    /\ eventFetches added = map fst (waitlistGroups (bookings w))
    /\ seatDeltas added = []
    /\ savedDocs added = []
    /\ titlesFollowReplies (env w) (getsMade w) entries
    /\ ((forall k id, exists err, eventServiceGet (env w) k id = GetErr err) ->
        Forall (fun e => WaitlistEntry.title e = "Unknown event"%string) entries).
Proof.
  intros Hadmin.
  destruct (withEventTitles_spec (waitlistGroups (bookings w)) w)
    as (entries & added & w' & Hrun & _ & Hdb & Htr & Hgroups & Hfetch & Hdeltas
        & Hsaved & Htitles & Hdown).
  exists entries, added, w'.
  split; [|repeat split; assumption].
  unfold getAnalytics. rewrite Hadmin.
  cbn [String.eqb Ascii.eqb Bool.eqb negb].
  unfold tryCatch, bind, Booking_find, Booking_aggregate_waitlist, ret.
  rewrite Hrun.
  rewrite (filter_all (fun _ => true)) by reflexivity. reflexivity.
Qed.

(** The analytics counts add up.  The four status counts (pending being the
    one not reported) make up [totalBookings]; [waitlistByEvent] has one entry
    per event with waitlisted bookings, each event once, with the number of
    bookings waiting for it, and these numbers sum to [waitlistedBookings].
    The collection is not changed. *)
Theorem analytics_counts_add_up (u : User.t) (w : World) :
  User.role u = "admin"%string ->
  exists stats entries w',
    getAnalytics u w = (Return (ReplyAnalytics stats entries), w')
    /\ bookings w' = bookings w
    /\ Stats.totalBookings stats
       = (Stats.confirmedBookings stats + Stats.cancelledBookings stats
          + Stats.waitlistedBookings stats
          + List.length (filter (hasStatus Pending) (bookings w)))%nat
    /\ NoDup (map WaitlistEntry._id entries)
    /\ (forall e, In e entries ->
          WaitlistEntry.count e
          = List.length (filter (isWaitlistedFor (WaitlistEntry._id e)) (bookings w))
          /\ (1 <= WaitlistEntry.count e)%nat)
    /\ (forall b, In b (bookings w) -> Booking.bookingStatus b = Waitlisted ->
          In (Booking.eventId b) (map WaitlistEntry._id entries))
    /\ list_sum (map WaitlistEntry.count entries) = Stats.waitlistedBookings stats.
Proof.
  intros Hadmin.
  destruct (getAnalytics_run u w Hadmin)
    as (entries & added & w' & Hrun & _ & _ & Hdb & Hgroups & _).
  exists (analyticsStats (bookings w)), entries, w'.
  split; [exact Hrun|]. split; [exact Hdb|].
  split; [apply status_partition|].
  destruct (grouping_invariant (filter (hasStatus Waitlisted) (bookings w)) [])
    as (Hcount & Hdistinct & Hkeys & Hsum & Hpos).
  cbn zeta in *. fold (waitlistGroups (bookings w)) in *.
  assert (Hids : map WaitlistEntry._id entries = map fst (waitlistGroups (bookings w))).
  { rewrite <- Hgroups, map_map. reflexivity. }
  assert (Hcounts : map WaitlistEntry.count entries
                    = map snd (waitlistGroups (bookings w))).
  { rewrite <- Hgroups, map_map. reflexivity. }
  assert (Hnd : NoDup (map fst (waitlistGroups (bookings w))))
    by (apply Hdistinct; constructor).
  split; [rewrite Hids; exact Hnd|].
  split; [|split].
  - intros e Hin.
    assert (Hmember : In (entryGroup e) (waitlistGroups (bookings w)))
      by (rewrite <- Hgroups; apply in_map; exact Hin).
    pose proof (groupCount_of_member _ _ _ Hnd Hmember) as Hn.
    rewrite Hcount in Hn. cbn in Hn.
    rewrite filter_waitlisted_for in Hn.
    split; [symmetry; exact Hn|].
    assert (Hall : Forall (fun g => (1 <= snd g)%nat) (waitlistGroups (bookings w)))
      by (apply Hpos; constructor).
    rewrite Forall_forall in Hall. exact (Hall _ Hmember).
  - intros b Hin Hstatus. rewrite Hids. apply Hkeys. right.
    exists b. split; [|reflexivity].
    apply filter_In. split; [exact Hin|]. unfold hasStatus. rewrite Hstatus. reflexivity.
  - rewrite Hcounts, Hsum. reflexivity.
Qed.

(** The analytics route asks the event service for one title per entry, in
    order, and does not depend on the answers: the title of an entry is the
    title of the event its fetch returned, and "Unknown event" when that
    fetch failed.  So with the event service down every title is "Unknown
    event" and the reply is still the statistics.  It sends no seat delta and
    saves nothing. *)
Theorem analytics_survives_event_service_failures (u : User.t) (w : World) :
  User.role u = "admin"%string ->
  exists stats entries added w',
    getAnalytics u w = (Return (ReplyAnalytics stats entries), w')
    /\ stats = analyticsStats (bookings w)
    /\ trace w' = trace w ++ added
    /\ eventFetches added = map WaitlistEntry._id entries
    /\ seatDeltas added = []
    /\ savedDocs added = []
    /\ (forall i entry event,
          nth_error entries i = Some entry ->
          eventServiceGet (env w) (getsMade w + i) (WaitlistEntry._id entry)
          = GetOk event ->
          WaitlistEntry.title entry = Event.title event)
    /\ (forall i entry err,
          nth_error entries i = Some entry ->
          eventServiceGet (env w) (getsMade w + i) (WaitlistEntry._id entry)
          = GetErr err ->
          WaitlistEntry.title entry = "Unknown event"%string)
    /\ ((forall k id, exists err, eventServiceGet (env w) k id = GetErr err) ->
        Forall (fun e => WaitlistEntry.title e = "Unknown event"%string) entries).
Proof.
  intros Hadmin.
  destruct (getAnalytics_run u w Hadmin)
    as (entries & added & w' & Hrun & _ & Htr & _ & Hgroups & Hfetch & Hdeltas
        & Hsaved & Htitles & Hdown).
  exists (analyticsStats (bookings w)), entries, added, w'.
  split; [exact Hrun|]. split; [reflexivity|]. split; [exact Htr|].
  split; [rewrite Hfetch, <- Hgroups, map_map; reflexivity|].
  split; [exact Hdeltas|]. split; [exact Hsaved|].
  split; [|split; [|exact Hdown]].
  - intros i entry event Hnth Hget.
    specialize (Htitles i entry Hnth). rewrite Hget in Htitles. exact Htitles.
  - intros i entry err Hnth Hget.
    specialize (Htitles i entry Hnth). rewrite Hget in Htitles. exact Htitles.
Qed.

End BookingRoutes.

(** ** The allowed origins *)

Open Scope list_scope.

Lemma existsb_eqb_In (x : string) (l : list string) :
  existsb (String.eqb x) l = true <-> In x l.
Proof.
  rewrite existsb_exists. split.
  - intros (y & Hin & Heq). apply String.eqb_eq in Heq. subst. exact Hin.
  - intros Hin. exists x. split; [exact Hin | apply String.eqb_refl].
Qed.

Lemma uniqueInOrder_In (l : list string) :
  forall (seen : list string) (x : string),
    In x (uniqueInOrder l seen) <-> In x l /\ ~ In x seen.
Proof.
  induction l as [|y l IH]; intros seen x; cbn [uniqueInOrder In]; [tauto|].
  destruct (existsb (String.eqb y) seen) eqn:Hseen.
  - apply existsb_eqb_In in Hseen. rewrite IH. split.
    + tauto.
    + intros [[Hy | Hin] Hfresh]; [subst; contradiction | tauto].
  - assert (Hnew : ~ In y seen).
    { intros Hin. apply existsb_eqb_In in Hin. congruence. }
    cbn [In]. rewrite IH. cbn [In]. split.
    + intros [Hy | (Hin & Hfresh)]; [subst; tauto | tauto].
    + intros [[Hy | Hin] Hfresh]; [left; exact Hy|].
      destruct (String.eqb_spec y x) as [Hyx | Hyx]; [left; exact Hyx|].
      right. split; [exact Hin|]. intros [H | H]; contradiction.
Qed.

Lemma uniqueInOrder_NoDup (l : list string) :
  forall seen : list string, NoDup (uniqueInOrder l seen).
Proof.
  induction l as [|y l IH]; intros seen; cbn [uniqueInOrder]; [constructor|].
  destruct (existsb (String.eqb y) seen); [apply IH|].
  constructor; [|apply IH].
  intros Hin. apply uniqueInOrder_In in Hin. destruct Hin as [_ Hfresh].
  apply Hfresh. left. reflexivity.
Qed.

(** Whatever the setting, the allowed origins hold each origin once; they are
    the three defaults and the non-empty trimmed pieces of the setting, and
    nothing else. *)
Theorem allowed_origins_are_distinct_and_known (trim : string -> string)
    (setting : option string) :
  NoDup (allowedOrigins trim setting)
  /\ forall origin,
       In origin (allowedOrigins trim setting)
       <-> In origin defaultAllowedOrigins
           \/ (origin <> ""%string
               /\ exists piece, In piece (splitOn ","%char (corsSetting setting))
                                /\ origin = trim piece).
Proof.
  split; [apply uniqueInOrder_NoDup|].
  intros origin. unfold allowedOrigins, envAllowedOrigins.
  rewrite uniqueInOrder_In, in_app_iff, filter_In, in_map_iff.
  rewrite negb_true_iff, String.eqb_neq.
  split.
  - intros [[Hd | ((piece & Hp & Hin) & Hne)] _]; [left; exact Hd|].
    right. split; [exact Hne|]. exists piece. auto.
  - intros [Hd | (Hne & piece & Hin & Hp)].
    + split; [left; exact Hd | intros []].
    + split; [|intros []]. right. split; [|exact Hne]. exists piece. auto.
Qed.

(** The three default origins are always allowed and come first, in their
    order; the setting only adds origins after them, none of them a default.
    With the setting absent or empty (and [trim] keeping the empty string
    empty) the allowed origins are exactly the defaults. *)
Theorem default_origins_are_always_allowed_first (trim : string -> string)
    (setting : option string) :
  exists extra,
    allowedOrigins trim setting = defaultAllowedOrigins ++ extra
    /\ (forall origin, In origin extra ->
                       ~ In origin defaultAllowedOrigins
                       /\ In origin (envAllowedOrigins trim setting))
    /\ (trim "" = ""%string ->
        setting = None \/ setting = Some ""%string -> extra = []).
Proof.
  exists (uniqueInOrder (envAllowedOrigins trim setting) (rev defaultAllowedOrigins)).
  split; [reflexivity|]. split.
  - intros origin Hin. apply uniqueInOrder_In in Hin. destruct Hin as [Hin Hfresh].
    split; [|exact Hin]. intros Hd. apply Hfresh. apply in_rev in Hd. exact Hd.
  - intros Htrim Hunset.
    assert (Hnone : envAllowedOrigins trim setting = []).
    { unfold envAllowedOrigins.
      destruct Hunset as [H | H]; subst setting; cbn; rewrite Htrim; reflexivity. }
    rewrite Hnone. reflexivity.
Qed.

(** On a setting with blanks, an empty piece and a repeated origin. *)
Example allowed_origins_of_a_sample_setting :
  allowedOrigins trimBlanks
    (Some " https://a.example , ,http://localhost:3000,https://a.example,")
  = defaultAllowedOrigins ++ ["https://a.example"%string].
Proof. vm_compute. reflexivity. Qed.

(** ** Binary64 rounding *)

Lemma roundHalfEven_nearest (x : Q) :
  (Qabs (x - inject_Z (roundHalfEven x)) <= 1 # 2)%Q.
Proof.
  unfold roundHalfEven.
  pose proof (Qfloor_le x) as Hlow. pose proof (Qlt_floor x) as Hhigh.
  rewrite inject_Z_plus in Hhigh. change (inject_Z 1) with 1%Q in Hhigh.
  destruct (Qcompare_spec (x - inject_Z (Qfloor x)) (1 # 2)) as [Heq | Hlt | Hgt].
  - destruct (Z.even (Qfloor x));
      [|rewrite inject_Z_plus; change (inject_Z 1) with 1%Q];
      apply Qabs_Qle_condition; split; lra.
  - apply Qabs_Qle_condition; split; lra.
  - rewrite inject_Z_plus. change (inject_Z 1) with 1%Q.
    apply Qabs_Qle_condition; split; lra.
Qed.

Lemma roundHalfEven_tie (x : Q) :
  (x - inject_Z (Qfloor x) == 1 # 2)%Q -> Z.even (roundHalfEven x) = true.
Proof.
  intros Htie. unfold roundHalfEven.
  destruct (Qcompare_spec (x - inject_Z (Qfloor x)) (1 # 2)) as [Heq | Hlt | Hgt];
    [|lra|lra].
  destruct (Z.even (Qfloor x)) eqn:Heven; [exact Heven|].
  rewrite Z.even_add, Heven. reflexivity.
Qed.

(** The literal [0.1], and the two products [0.5 * 10000] and
    [nearHalf * 10000]: the first product is exact, the second is rounded up
    to [5001] although it is below it.  A binary64 number is left as it is.
    The draw that equals the literal [0.1] does not pay, the binary64 number
    after it does. *)
Example binary64_on_known_numbers :
  (binary64 (1 # 10) == 3602879701896397 # 36028797018963968)%Q
  /\ (binary64 ((1 # 2) * 10000) == 5000)%Q
  /\ (nearHalf * 10000 < 5001)%Q
  /\ (binary64 (nearHalf * 10000) == 5001)%Q
  /\ (binary64 nearHalf == nearHalf)%Q
  /\ paymentSucceeds (3602879701896397 # 36028797018963968) = false
  /\ paymentSucceeds (3602879701896398 # 36028797018963968) = true.
Proof. vm_compute. repeat split; reflexivity. Qed.

(** ** The handlers on sample data *)

Open Scope list_scope.

(** C2 on the code: a promotion pass stores the candidate as confirmed before
    it asks for the seats.  Here the event service rejects the only delta of
    the pass, and the booking is left confirmed and paid in the collection:
    no seat was consumed for it. *)
Theorem promotion_confirms_before_the_ledger_accepts :
  let w := worldAt (steadyEnv (1 # 2) (GetOk (concert 5)) (PatchErr notEnoughSeats))
             [stored 0 2 Waitlisted PaymentPending None 500] in
  let w' := snd (promoteWaitlistIfPossible acceptAll "e1" (JNum 5) w) in
  bookings w'
  = [stored 0 2 Confirmed Completed (Some "TXN10005000") 500]
  /\ trace w'
     = [AxiosGet "e1";
        BookingSave (stored 0 2 Confirmed Completed (Some "TXN10005000") 500);
        AxiosPatch "e1" 2 (PatchErr notEnoughSeats);
        ConsoleError "Waitlist promotion failed:"]
  /\ forall eventId delta data,
       ~ In (AxiosPatch eventId delta (PatchOk data)) (trace w').
Proof.
  cbv zeta. split; [vm_compute; reflexivity|].
  split; [vm_compute; reflexivity|].
  intros eventId delta data Hin. vm_compute in Hin.
  repeat (destruct Hin as [Hin | Hin]; [discriminate Hin|]). exact Hin.
Qed.

(** The scenarios of the specification: X cancels its five seats while Y and
    Z wait.  With Y wanting three and Z two, both are promoted, Y first. *)
Example cancellation_promotes_both :
  let w' := snd (cancelBooking acceptAll (cancelRequest 0) (soldOut (seatsReply 5) 3 2)) in
  map Booking.bookingStatus (bookings w') = [Cancelled; Confirmed; Confirmed]
  /\ seatDeltas (trace w') = [("e1", -5); ("e1", 3); ("e1", 2)]
  /\ map Booking._id (savedDocs (trace w')) = [0%nat; 1%nat; 2%nat].
Proof. vm_compute. repeat split; reflexivity. Qed.

(** With Y wanting six, the pass stops at Y and Z stays on the waitlist. *)
Example cancellation_blocked_by_first :
  let w' := snd (cancelBooking acceptAll (cancelRequest 0) (soldOut (seatsReply 5) 6 1)) in
  map Booking.bookingStatus (bookings w') = [Cancelled; Waitlisted; Waitlisted]
  /\ seatDeltas (trace w') = [("e1", -5)].
Proof. vm_compute. repeat split; reflexivity. Qed.

(** A request for [-1] tickets under a schema that wants at least one: the
    seat delta [-1] has gone out before [save()] rejects the document, and
    the reply is the 500 of the outer [catch]. *)
Example negative_count_fails_after_the_delta :
  let run := createBooking atLeastOneTicket sampleReference (request "e1" (-1) false)
               (worldAt (steadyEnv (1 # 2) (GetOk (concert 10)) (seatsReply 11)) []) in
  fst run = Return (mkResponse 500
                      (JObj [("error", JStr "Failed to create booking");
                             ("details", JStr "Booking validation failed")]))
  /\ seatDeltas (trace (snd run)) = [("e1", -1)]
  /\ bookings (snd run) = [].
Proof. vm_compute. repeat split; reflexivity. Qed.

(** C1, counterexample: the creation of a two-ticket booking that ends
    confirmed sends the delta [+2], not [-2]; the cancellation of the
    five-ticket booking X sends [-5], not [+5]. *)
Lemma confirmation_sends_positive_delta :
  let created := createBooking acceptAll sampleReference (request "e1" 2 false) openWorld in
  let cancelled := cancelBooking acceptAll (cancelRequest 0) (soldOut (seatsReply 5) 6 1) in
  (exists resp, fst created = Return resp /\ statusCode resp = 201)
  /\ seatDeltas (trace (snd created)) = [("e1", 2)]
  /\ seatDeltas (trace (snd created)) <> [("e1", -2)]
  /\ Booking.bookingStatus bookingX = Confirmed
  /\ (exists resp, fst cancelled = Return resp /\ statusCode resp = 200)
  /\ seatDeltas (trace (snd cancelled)) = [("e1", -5)]
  /\ seatDeltas (trace (snd cancelled)) <> [("e1", 5)].
Proof.
  cbv zeta.
  split; [eexists; split; vm_compute; reflexivity|].
  split; [vm_compute; reflexivity|].
  split; [vm_compute; discriminate|].
  split; [reflexivity|].
  split; [eexists; split; vm_compute; reflexivity|].
  split; [vm_compute; reflexivity|].
  vm_compute; discriminate.
Qed.

(** C6, counterexample: the fetched event reports no free seat, the hint says
    five.  The pass starts from five and promotes the three-ticket booking Y;
    had the event's count been used, the pass would have stopped at once. *)
Lemma hint_overrides_the_snapshot :
  let w := soldOut (seatsReply 2) 3 4 in
  let w' := snd (promoteWaitlistIfPossible acceptAll "e1" (JNum 5) w) in
  eventServiceGet (env w) (getsMade w) "e1" = GetOk (concert 0)
  /\ Event.availableSeats (concert 0) = 0
  /\ initialAvailableSeats (JNum 5) (concert 0) <> Event.availableSeats (concert 0)
  /\ map Booking.bookingStatus (bookings w') = [Confirmed; Confirmed; Waitlisted]
  /\ seatDeltas (trace w') = [("e1", 3)].
Proof.
  cbv zeta.
  split; [reflexivity|]. split; [reflexivity|].
  split; [vm_compute; discriminate|].
  split; vm_compute; reflexivity.
Qed.

(** ** The theorems at work on the sample data *)

(** A sample request for the concert passes the checks before the seat check. *)
Lemma request_reaches_seat_check (n : Z) (joinWaitlist : bool) (seats : Z)
    (r : Q) (patch : PatchReply) :
  n <> 0 ->
  reachesSeatCheck (request "e1" n joinWaitlist)
    (worldAt (steadyEnv r (GetOk (concert seats)) patch) []) "e1" n (concert seats).
Proof.
  intros Hn. unfold reachesSeatCheck, requiredFields. cbn.
  apply Z.eqb_neq in Hn. rewrite Hn.
  repeat split; [discriminate | lia].
Defined.

(** C7 at work: three tickets wanted, two left, no waitlist. *)
Lemma shortage_without_waitlist_is_refused_witness :
  reachesSeatCheck (request "e1" 3 false) shortWorld "e1" 3 (concert 2)
  /\ Event.availableSeats (concert 2) < 3
  /\ Body.joinWaitlist (body (request "e1" 3 false)) = false
  /\ exists w',
       createBooking acceptAll sampleReference (request "e1" 3 false) shortWorld
       = (Return (mkResponse 400
                    (JObj [("error", JStr "Not enough seats available");
                           ("availableSeats", JNum 2);
                           ("requested", JNum 3)])), w')
       /\ bookings w' = []
       /\ seatDeltas (trace w') = [].
Proof.
  assert (H1 : reachesSeatCheck (request "e1" 3 false) shortWorld "e1" 3 (concert 2))
    by (apply request_reaches_seat_check; discriminate).
  assert (H2 : Event.availableSeats (concert 2) < 3) by (cbn; lia).
  assert (H3 : Body.joinWaitlist (body (request "e1" 3 false)) = false) by reflexivity.
  split; [exact H1|]. split; [exact H2|]. split; [exact H3|].
  destruct (shortage_without_waitlist_is_refused acceptAll sampleReference
              (request "e1" 3 false) shortWorld "e1" 3 (concert 2) H1 H2 H3)
    as (w' & Hrun & Hdb & _ & _ & Hdeltas).
  exists w'. split; [exact Hrun|]. split; [exact Hdb | exact Hdeltas].
Defined.

(** C8 at work: three tickets wanted, two left, waitlist accepted. *)
Lemma shortage_with_waitlist_is_queued_witness :
  reachesSeatCheck (request "e1" 3 true) shortWorld "e1" 3 (concert 2)
  /\ Event.availableSeats (concert 2) < 3
  /\ Body.joinWaitlist (body (request "e1" 3 true)) = true
  /\ acceptAll (markWaitlisted
                  (draftBooking sampleReference (request "e1" 3 true) shortWorld
                     (concert 2) 3)) = true
  /\ exists booking resp w',
       createBooking acceptAll sampleReference (request "e1" 3 true) shortWorld
       = (Return resp, w')
       /\ statusCode resp = 202
       /\ getField "booking" (payload resp)
          = JObj [("bookingReference", JStr "BK10000");
                  ("bookingStatus", JStr "waitlisted");
                  ("eventTitle", JStr "Concert");
                  ("eventDate", JNum 2000);
                  ("eventVenue", JStr "Hall");
                  ("numberOfTickets", JNum 3)]
       /\ bookings w' = [booking]
       /\ Booking.bookingStatus booking = Waitlisted
       /\ Booking.paymentStatus booking = PaymentPending
       /\ Booking.transactionId booking = None
       /\ randomsDrawn w' = 0%nat
       /\ seatDeltas (trace w') = [].
Proof.
  assert (H1 : reachesSeatCheck (request "e1" 3 true) shortWorld "e1" 3 (concert 2))
    by (apply request_reaches_seat_check; discriminate).
  assert (H2 : Event.availableSeats (concert 2) < 3) by (cbn; lia).
  assert (H3 : Body.joinWaitlist (body (request "e1" 3 true)) = true) by reflexivity.
  split; [exact H1|]. split; [exact H2|]. split; [exact H3|]. split; [reflexivity|].
  destruct (shortage_with_waitlist_is_queued acceptAll sampleReference
              (request "e1" 3 true) shortWorld "e1" 3 (concert 2) H1 H2 H3 eq_refl)
    as (booking & w' & Hrun & Hdoc & Hdb & Hst & Hpay & Htxn & _ & Hrand & _ & Hdeltas).
  exists booking. eexists. exists w'.
  split; [exact Hrun|]. split; [reflexivity|].
  split; [rewrite Hdoc; vm_compute; reflexivity|].
  repeat split; assumption.
Defined.

(** C4 at work: the payment goes through and the event service is down. *)
Lemma ledger_rejection_leaves_booking_unconfirmed_witness :
  reachesSeatCheck (request "e1" 2 false) ledgerDownWorld "e1" 2 (concert 10)
  /\ 2 <= Event.availableSeats (concert 10)
  /\ nextPaymentSucceeds ledgerDownWorld = true
  /\ eventServicePatch (env ledgerDownWorld) (patchesMade ledgerDownWorld) "e1" 2
     = PatchErr ledgerDown
  /\ exists resp w',
       createBooking acceptAll sampleReference (request "e1" 2 false) ledgerDownWorld
       = (Return resp, w')
       /\ statusCode resp = 500
       /\ bookings w' = []
       /\ savedDocs (trace w') = [].
Proof.
  assert (H1 : reachesSeatCheck (request "e1" 2 false) ledgerDownWorld "e1" 2 (concert 10))
    by (apply request_reaches_seat_check; discriminate).
  assert (H2 : 2 <= Event.availableSeats (concert 10)) by (cbn; lia).
  split; [exact H1|]. split; [exact H2|]. split; [reflexivity|]. split; [reflexivity|].
  destruct (ledger_rejection_leaves_booking_unconfirmed acceptAll sampleReference
              (request "e1" 2 false) ledgerDownWorld "e1" 2 (concert 10) ledgerDown
              H1 H2 eq_refl eq_refl)
    as (resp & w' & Hrun & H500 & _ & _ & Hdb & _ & _ & Hsaved).
  exists resp, w'. repeat split; assumption.
Defined.

(** C10 at work: the event service is down in one world, the payment is
    declined in the other. *)
Lemma ledger_failure_stores_nothing_unlike_payment_failure_witness :
  (reachesSeatCheck (request "e1" 2 false) ledgerDownWorld "e1" 2 (concert 10)
   /\ 2 <= Event.availableSeats (concert 10)
   /\ nextPaymentSucceeds ledgerDownWorld = true
   /\ exists resp w',
        createBooking acceptAll sampleReference (request "e1" 2 false) ledgerDownWorld
        = (Return resp, w')
        /\ bookings w' = []
        /\ getField "bookingReference" (payload resp) = JUndefined)
  /\ (reachesSeatCheck (request "e1" 2 false) declinedWorld "e1" 2 (concert 10)
      /\ nextPaymentSucceeds declinedWorld = false
      /\ exists resp booking w',
           createBooking acceptAll sampleReference (request "e1" 2 false) declinedWorld
           = (Return resp, w')
           /\ bookings w' = [booking]
           /\ Booking.bookingStatus booking = Pending
           /\ Booking.paymentStatus booking = Failed
           /\ getField "bookingReference" (payload resp)
              = JStr (Booking.bookingReference booking)).
Proof.
  assert (H1 : reachesSeatCheck (request "e1" 2 false) ledgerDownWorld "e1" 2 (concert 10))
    by (apply request_reaches_seat_check; discriminate).
  assert (H1' : reachesSeatCheck (request "e1" 2 false) declinedWorld "e1" 2 (concert 10))
    by (apply request_reaches_seat_check; discriminate).
  assert (H2 : 2 <= Event.availableSeats (concert 10)) by (cbn; lia).
  split.
  - split; [exact H1|]. split; [exact H2|]. split; [reflexivity|].
    destruct (proj1 (ledger_failure_stores_nothing_unlike_payment_failure
                       acceptAll sampleReference (request "e1" 2 false)
                       ledgerDownWorld "e1" 2 (concert 10) H1 H2)
                ledgerDown eq_refl eq_refl)
      as (resp & w' & Hrun & _ & Hdb & _ & Href).
    exists resp, w'. repeat split; assumption.
  - split; [exact H1'|]. split; [reflexivity|].
    destruct (proj2 (ledger_failure_stores_nothing_unlike_payment_failure
                       acceptAll sampleReference (request "e1" 2 false)
                       declinedWorld "e1" 2 (concert 10) H1' H2)
                eq_refl eq_refl)
      as (resp & booking & w' & Hrun & _ & _ & Hdb & _ & Hst & Hpay & Href).
    exists resp, booking, w'. repeat split; assumption.
Defined.

(** C3 at work: five seats freed, Y wants six, Z wants one and stays put. *)
Lemma promotion_is_fifo_with_head_of_line_blocking_witness :
  let w := soldOut (seatsReply 3) 6 1 in
  eventServiceGet (env w) (getsMade w) "e1" = GetOk (concert 0)
  /\ waitlistOf "e1" (bookings w) = [] ++ bookingY 6 :: [bookingZ 1]
  /\ initialAvailableSeats (JNum 5) (concert 0) - ticketsOf []
     < Booking.numberOfTickets (bookingY 6)
  /\ NoDup (map Booking._id (bookings w))
  /\ exists w',
       promoteWaitlistIfPossible acceptAll "e1" (JNum 5) w = (Return tt, w')
       /\ savedDocs (trace w') = []
       /\ seatDeltas (trace w') = []
       /\ In (bookingZ 1) (bookings w').
Proof.
  intros w.
  assert (H1 : eventServiceGet (env w) (getsMade w) "e1" = GetOk (concert 0))
    by reflexivity.
  assert (H2 : waitlistOf "e1" (bookings w) = [] ++ bookingY 6 :: [bookingZ 1])
    by reflexivity.
  assert (H3 : initialAvailableSeats (JNum 5) (concert 0) - ticketsOf []
               < Booking.numberOfTickets (bookingY 6)) by (cbn; lia).
  assert (H4 : NoDup (map Booking._id (bookings w))).
  { cbn. repeat constructor; cbn; intuition discriminate. }
  split; [exact H1|]. split; [exact H2|]. split; [exact H3|]. split; [exact H4|].
  destruct (promotion_is_fifo_with_head_of_line_blocking acceptAll "e1" (JNum 5) w
              (concert 0) [] (bookingY 6) [bookingZ 1] H1 H2 H3)
    as (_ & _ & promoted & later & added & w' & Hrun & Htr & Hpre & Hdocs & Hdeltas & Hkept).
  exists w'. split; [exact Hrun|].
  destruct promoted; [|discriminate Hpre].
  assert (Hsaved : savedDocs added = []) by (inversion Hdocs; reflexivity).
  rewrite Htr, savedDocs_app, seatDeltas_app.
  cbn. rewrite Hsaved, Hdeltas.
  split; [reflexivity|]. split; [reflexivity|].
  apply (Hkept H4). right. left. reflexivity.
Defined.

(** C5 at work: X is cancelled while the event service is down. *)
Lemma cancellation_survives_restore_failure_witness :
  let w := soldOut (PatchErr ledgerDown) 3 2 in
  reachesCancellation (cancelRequest 0) w bookingX
  /\ Booking.bookingStatus bookingX = Confirmed
  /\ acceptAll (markCancelled bookingX) = true
  /\ restoreReply bookingX w = PatchErr ledgerDown
  /\ exists w',
       cancelBooking acceptAll (cancelRequest 0) w = (Return (cancelledReply bookingX), w')
       /\ bookings w' = upsert (markCancelled bookingX) (bookings w)
       /\ getsMade w' = getsMade w.
Proof.
  intros w.
  assert (H1 : reachesCancellation (cancelRequest 0) w bookingX).
  { unfold reachesCancellation. cbn.
    repeat split; [left; reflexivity | discriminate | lia]. }
  split; [exact H1|]. split; [reflexivity|]. split; [reflexivity|].
  split; [reflexivity|].
  destruct (cancellation_survives_restore_failure acceptAll (cancelRequest 0) w
              bookingX H1 eq_refl eq_refl)
    as (w' & added & Hrun & _ & _ & Hfail & _).
  exists w'. split; [exact Hrun|].
  destruct (Hfail ledgerDown eq_refl) as (_ & Hdb & _ & Hgets).
  split; assumption.
Defined.

(** C6 at work: the hint says five, the fetched event says none. *)
Lemma promotion_starts_from_numeric_hint_witness :
  let w := soldOut (seatsReply 2) 3 4 in
  eventServiceGet (env w) (getsMade w) "e1" = GetOk (concert 0)
  /\ promoteWaitlistIfPossible acceptAll "e1" (JNum 5) w
     = tryCatch
         (promoteLoop acceptAll "e1" (concert 0) (waitlistOf "e1" (bookings w)) 5)
         (fun _ => console_error "Waitlist promotion failed:")
         (afterFetch "e1" w).
Proof.
  intros w.
  assert (H1 : eventServiceGet (env w) (getsMade w) "e1" = GetOk (concert 0))
    by reflexivity.
  split; [exact H1|].
  exact (proj1 (promotion_starts_from_numeric_hint acceptAll "e1" (JNum 5) w
                  (concert 0) H1)).
Defined.

(** C1 at work: cancelling X, a confirmed booking of five tickets. *)
Lemma seat_deltas_use_seatsToBook_sign_witness :
  let w := soldOut (seatsReply 5) 6 1 in
  reachesCancellation (cancelRequest 0) w bookingX
  /\ Booking.bookingStatus bookingX = Confirmed
  /\ acceptAll (markCancelled bookingX) = true
  /\ exists w' added later,
       cancelBooking acceptAll (cancelRequest 0) w = (Return (cancelledReply bookingX), w')
       /\ trace w' = trace w ++ added
       /\ seatDeltas added = ("e1", -5) :: later.
Proof.
  intros w.
  assert (H1 : reachesCancellation (cancelRequest 0) w bookingX).
  { unfold reachesCancellation. cbn.
    repeat split; [left; reflexivity | discriminate | lia]. }
  split; [exact H1|]. split; [reflexivity|]. split; [reflexivity|].
  exact (proj2 (proj2 (seat_deltas_use_seatsToBook_sign acceptAll sampleReference))
           (cancelRequest 0) w bookingX H1 eq_refl eq_refl).
Defined.

(** ** The further theorems at work on the sample data *)

(** A request without a ticket count. *)
Lemma creation_requires_event_and_tickets_witness :
  let req := mkCreateRequest alice (Body.mk (Some "e1"%string) None None false) in
  (Body.eventId (body req) = None \/ Body.eventId (body req) = Some ""%string
   \/ Body.numberOfTickets (body req) = None
   \/ Body.numberOfTickets (body req) = Some 0)
  /\ createBooking acceptAll sampleReference req openWorld
     = (Return (mkResponse 400 (errorBody "Event ID and number of tickets are required")),
        openWorld).
Proof.
  intros req.
  assert (H : Body.eventId (body req) = None \/ Body.eventId (body req) = Some ""%string
              \/ Body.numberOfTickets (body req) = None
              \/ Body.numberOfTickets (body req) = Some 0)
    by (right; right; left; reflexivity).
  split; [exact H|].
  exact (creation_requires_event_and_tickets acceptAll sampleReference req openWorld H).
Defined.

(** The event service is down when the event is looked up. *)
Lemma creation_without_event_is_not_found_witness :
  requiredFields (body (request "e1" 2 false)) = Some ("e1"%string, 2)
  /\ eventServiceGet (env (downWorld [])) (getsMade (downWorld [])) "e1"
     = GetErr ledgerDown
  /\ exists w',
       createBooking acceptAll sampleReference (request "e1" 2 false) (downWorld [])
       = (Return (mkResponse 404 (errorBody "Event not found")), w')
       /\ trace w' = [AxiosGet "e1"]
       /\ bookings w' = [].
Proof.
  split; [reflexivity|]. split; [reflexivity|].
  destruct (creation_without_event_is_not_found acceptAll sampleReference
              (request "e1" 2 false) (downWorld []) "e1" 2 ledgerDown eq_refl eq_refl)
    as (w' & Hrun & Htr & Hdb & _).
  exists w'. repeat split; assumption.
Defined.

(** The concert has been called off. *)
Lemma creation_refuses_closed_events_witness :
  requiredFields (body (request "e1" 2 false)) = Some ("e1"%string, 2)
  /\ eventServiceGet (env calledOffWorld) (getsMade calledOffWorld) "e1"
     = GetOk cancelledConcert
  /\ (Event.status cancelledConcert = "cancelled"%string
      \/ Event.date cancelledConcert < now calledOffWorld)
  /\ createBooking acceptAll sampleReference (request "e1" 2 false) calledOffWorld
     = (Return (mkResponse 400 (errorBody "Event has been cancelled")),
        afterFetch "e1" calledOffWorld).
Proof.
  assert (H : Event.status cancelledConcert = "cancelled"%string
              \/ Event.date cancelledConcert < now calledOffWorld)
    by (left; reflexivity).
  split; [reflexivity|]. split; [reflexivity|]. split; [exact H|].
  destruct (creation_refuses_closed_events acceptAll sampleReference
              (request "e1" 2 false) calledOffWorld "e1" 2 cancelledConcert
              eq_refl eq_refl H)
    as (msg & Hrun & Hmsg & _).
  rewrite (Hmsg eq_refl) in Hrun. exact Hrun.
Defined.

(** Two tickets of ten, paid and accepted.  The draw is the binary64 number
    next to [0.5001]: its exact product with [10000] is just below [5001],
    the binary64 product is [5001], and that is what the id ends with. *)
Lemma creation_confirms_a_paid_booking_witness :
  reachesSeatCheck (request "e1" 2 false) roundingWorld "e1" 2 (concert 10)
  /\ 2 <= Event.availableSeats (concert 10)
  /\ nextPaymentSucceeds roundingWorld = true
  /\ eventServicePatch (env roundingWorld) (patchesMade roundingWorld) "e1" 2
     = seatsReply 8
  /\ acceptAll (paidBooking sampleReference (request "e1" 2 false) roundingWorld
                  (concert 10) 2) = true
  /\ Qfloor (nearHalf * 10000) = 5000
  /\ exists booking resp w',
       createBooking acceptAll sampleReference (request "e1" 2 false) roundingWorld
       = (Return resp, w')
       /\ statusCode resp = 201
       /\ getField "transactionId" (getField "booking" (payload resp))
          = JStr "TXN10005001"
       /\ bookings w' = [booking]
       /\ Booking.bookingStatus booking = Confirmed
       /\ Booking.transactionId booking = Some "TXN10005001"%string
       /\ seatDeltas (trace w') = [("e1"%string, 2)].
Proof.
  assert (H1 : reachesSeatCheck (request "e1" 2 false) roundingWorld "e1" 2
                 (concert 10))
    by (apply request_reaches_seat_check; discriminate).
  assert (H2 : 2 <= Event.availableSeats (concert 10)) by (cbn; lia).
  assert (H3 : nextPaymentSucceeds roundingWorld = true) by (vm_compute; reflexivity).
  split; [exact H1|]. split; [exact H2|]. split; [exact H3|].
  split; [reflexivity|]. split; [reflexivity|]. split; [vm_compute; reflexivity|].
  destruct (creation_confirms_a_paid_booking acceptAll sampleReference
              (request "e1" 2 false) roundingWorld "e1" 2 (concert 10) _
              H1 H2 H3 eq_refl eq_refl)
    as (booking & txn & w' & Hrun & Hid & Hdb & Hst & _ & Htxn & _ & _ & _ & Htr & _).
  assert (Hdigits : txn = "TXN10005001"%string)
    by (rewrite Hid; vm_compute; reflexivity).
  exists booking. eexists. exists w'.
  split; [exact Hrun|]. split; [reflexivity|].
  split; [rewrite Hdigits; reflexivity|]. split; [exact Hdb|].
  split; [exact Hst|]. split; [rewrite Htxn, Hdigits; reflexivity|].
  rewrite Htr. reflexivity.
Defined.

(** A request for [-1] tickets under a schema that wants at least one: the
    delta is accepted, the save is not. *)
Lemma creation_keeps_seats_when_save_fails_witness :
  let w := worldAt (steadyEnv (1 # 2) (GetOk (concert 10)) (seatsReply 11)) [] in
  reachesSeatCheck (request "e1" (-1) false) w "e1" (-1) (concert 10)
  /\ -1 <= Event.availableSeats (concert 10)
  /\ nextPaymentSucceeds w = true
  /\ eventServicePatch (env w) (patchesMade w) "e1" (-1) = seatsReply 11
  /\ atLeastOneTicket (paidBooking sampleReference (request "e1" (-1) false) w
                         (concert 10) (-1)) = false
  /\ exists resp w',
       createBooking atLeastOneTicket sampleReference (request "e1" (-1) false) w
       = (Return resp, w')
       /\ statusCode resp = 500
       /\ bookings w' = []
       /\ seatDeltas (trace w') = [("e1"%string, -1)].
Proof.
  intros w.
  assert (H1 : reachesSeatCheck (request "e1" (-1) false) w "e1" (-1) (concert 10))
    by (apply request_reaches_seat_check; discriminate).
  assert (H2 : -1 <= Event.availableSeats (concert 10)) by (cbn; lia).
  split; [exact H1|]. split; [exact H2|]. split; [reflexivity|].
  split; [reflexivity|]. split; [reflexivity|].
  destruct (creation_keeps_seats_when_save_fails atLeastOneTicket sampleReference
              (request "e1" (-1) false) w "e1" (-1) (concert 10) _
              H1 H2 eq_refl eq_refl eq_refl)
    as (resp & w' & Hrun & H500 & _ & Hdb & _ & Hdeltas).
  exists resp, w'. repeat split; assumption.
Defined.

(** The event service refuses the delta: 500, nothing stored. *)
Lemma creation_status_tells_the_effects_witness :
  let run := createBooking acceptAll sampleReference (request "e1" 2 false)
               ledgerDownWorld in
  run = (Return (mkResponse 500
                   (JObj [("error", JStr "Failed to update event seats");
                          ("details", errorDetails ledgerDown)])), snd run)
  /\ bookings (snd run) = bookings ledgerDownWorld
  /\ savedDocs (trace (snd run)) = savedDocs (trace ledgerDownWorld).
Proof.
  intros run.
  assert (Hrun : run = (Return (mkResponse 500
                                  (JObj [("error", JStr "Failed to update event seats");
                                         ("details", errorDetails ledgerDown)])),
                        snd run))
    by (vm_compute; reflexivity).
  split; [exact Hrun|].
  exact (proj1 (creation_status_tells_the_effects acceptAll sampleReference
                  (request "e1" 2 false) ledgerDownWorld _ _ Hrun)
           (or_intror eq_refl)).
Defined.

(** [bob] tries to cancel the booking X of [alice]; nobody has booking 7. *)
Lemma cancel_needs_the_owner_or_an_admin_witness :
  let w := soldOut (seatsReply 5) 3 2 in
  findById 7 (bookings w) = None
  /\ cancelBooking acceptAll (mkCancelRequest alice 7) w
     = (Return (mkResponse 404 (errorBody "Booking not found")), w)
  /\ findById 0 (bookings w) = Some bookingX
  /\ Booking.userId bookingX <> User._id bob
  /\ User.role bob <> "admin"%string
  /\ cancelBooking acceptAll (mkCancelRequest bob 0) w
     = (Return (mkResponse 403 (errorBody "Access denied")), w).
Proof.
  intros w.
  assert (H1 : Booking.userId bookingX <> User._id bob) by discriminate.
  assert (H2 : User.role bob <> "admin"%string) by discriminate.
  split; [reflexivity|].
  split; [exact (proj1 (cancel_needs_the_owner_or_an_admin acceptAll
                          (mkCancelRequest alice 7) w) eq_refl)|].
  split; [reflexivity|]. split; [exact H1|]. split; [exact H2|].
  exact (proj2 (cancel_needs_the_owner_or_an_admin acceptAll
                  (mkCancelRequest bob 0) w) bookingX eq_refl H1 H2).
Defined.

(** A booking of [alice] that is already cancelled. *)
Lemma closed_booking_is_not_cancelled_witness :
  let gone := stored 0 5 Cancelled Refunded (Some "TXN4001234"%string) 400 in
  let w := worldAt (steadyEnv (1 # 2) (GetOk (concert 5)) (seatsReply 10)) [gone] in
  findById (params_id (cancelRequest 0)) (bookings w) = Some gone
  /\ (Booking.userId gone = User._id (caller (cancelRequest 0))
      \/ User.role (caller (cancelRequest 0)) = "admin"%string)
  /\ (Booking.bookingStatus gone = Cancelled \/ Booking.eventDate gone < now w)
  /\ cancelBooking acceptAll (cancelRequest 0) w
     = (Return (mkResponse 400 (errorBody "Booking is already cancelled")), w).
Proof.
  intros gone w.
  assert (H2 : Booking.userId gone = User._id (caller (cancelRequest 0))
               \/ User.role (caller (cancelRequest 0)) = "admin"%string)
    by (left; reflexivity).
  assert (H3 : Booking.bookingStatus gone = Cancelled \/ Booking.eventDate gone < now w)
    by (left; reflexivity).
  split; [reflexivity|]. split; [exact H2|]. split; [exact H3|].
  destruct (closed_booking_is_not_cancelled acceptAll (cancelRequest 0) w gone
              eq_refl H2 H3) as (msg & Hrun & Hmsg & _).
  rewrite (Hmsg eq_refl) in Hrun. exact Hrun.
Defined.

Lemma sample_reaches_cancellation (id : nat) (b : Booking.t) (w : World) :
  findById id (bookings w) = Some b ->
  Booking.userId b = "u1"%string ->
  Booking.bookingStatus b <> Cancelled ->
  now w <= Booking.eventDate b ->
  reachesCancellation (cancelRequest id) w b.
Proof.
  intros Hfound Hown Hopen Hdate. unfold reachesCancellation.
  repeat split; try assumption. left. exact Hown.
Defined.

(** [alice] gives up her place Y on the waitlist. *)
Lemma cancelling_unconfirmed_booking_returns_no_seats_witness :
  let w := soldOut (seatsReply 5) 3 2 in
  reachesCancellation (cancelRequest 1) w (bookingY 3)
  /\ Booking.bookingStatus (bookingY 3) <> Confirmed
  /\ acceptAll (markCancelled (bookingY 3)) = true
  /\ exists w',
       cancelBooking acceptAll (cancelRequest 1) w
       = (Return (cancelledReply (bookingY 3)), w')
       /\ trace w' = [BookingSave (markCancelled (bookingY 3))]
       /\ patchesMade w' = 0%nat
       /\ getsMade w' = 0%nat.
Proof.
  intros w.
  assert (H1 : reachesCancellation (cancelRequest 1) w (bookingY 3)).
  { apply sample_reaches_cancellation;
      [reflexivity | reflexivity | discriminate | cbn; lia]. }
  assert (H2 : Booking.bookingStatus (bookingY 3) <> Confirmed) by discriminate.
  split; [exact H1|]. split; [exact H2|]. split; [reflexivity|].
  destruct (cancelling_unconfirmed_booking_returns_no_seats acceptAll
              (cancelRequest 1) w (bookingY 3) H1 H2 eq_refl)
    as (w' & Hrun & _ & Htr & Hpatches & Hgets & _).
  exists w'. repeat split; assumption.
Defined.

(** The store rejects the cancelled document of X. *)
Lemma cancellation_fails_before_restoring_seats_witness :
  let w := soldOut (seatsReply 5) 3 2 in
  reachesCancellation (cancelRequest 0) w bookingX
  /\ rejectAll (markCancelled bookingX) = false
  /\ exists resp w',
       cancelBooking rejectAll (cancelRequest 0) w = (Return resp, w')
       /\ statusCode resp = 500
       /\ bookings w' = bookings w
       /\ patchesMade w' = 0%nat.
Proof.
  intros w.
  assert (H1 : reachesCancellation (cancelRequest 0) w bookingX).
  { apply sample_reaches_cancellation;
      [reflexivity | reflexivity | discriminate | cbn; lia]. }
  split; [exact H1|]. split; [reflexivity|].
  destruct (cancellation_fails_before_restoring_seats rejectAll (cancelRequest 0) w
              bookingX H1 eq_refl)
    as (resp & w' & Hrun & H500 & _ & Hdb & _ & Hpatches).
  exists resp, w'. repeat split; assumption.
Defined.

Lemma soldOut_ids_distinct (patch : PatchReply) (y z : Z) :
  NoDup (map Booking._id (bookings (soldOut patch y z))).
Proof.
  cbn. repeat constructor; cbn; intuition discriminate.
Defined.

(** X is cancelled, Y and Z are promoted, and X is cancelled once more. *)
Lemma second_cancellation_is_refused_witness :
  let w := soldOut (seatsReply 5) 3 2 in
  reachesCancellation (cancelRequest 0) w bookingX
  /\ NoDup (map Booking._id (bookings w))
  /\ acceptAll (markCancelled bookingX) = true
  /\ exists w',
       cancelBooking acceptAll (cancelRequest 0) w
       = (Return (cancelledReply bookingX), w')
       /\ cancelBooking acceptAll (cancelRequest 0) w'
          = (Return (mkResponse 400 (errorBody "Booking is already cancelled")), w').
Proof.
  intros w.
  assert (H1 : reachesCancellation (cancelRequest 0) w bookingX).
  { apply sample_reaches_cancellation;
      [reflexivity | reflexivity | discriminate | cbn; lia]. }
  assert (H2 : NoDup (map Booking._id (bookings w))) by apply soldOut_ids_distinct.
  split; [exact H1|]. split; [exact H2|]. split; [reflexivity|].
  destruct (second_cancellation_is_refused acceptAll
              (cancelRequest 0) w bookingX H1 H2 eq_refl)
    as (w' & Hfirst & _ & Hsecond).
  exists w'. split; assumption.
Defined.

(** Five seats freed; Y wants three, Z wants four. *)
Lemma promotion_never_exceeds_the_starting_count_witness :
  let w := soldOut (seatsReply 2) 3 4 in
  eventServiceGet (env w) (getsMade w) "e1" = GetOk (concert 0)
  /\ exists promoted added w',
       promoteWaitlistIfPossible acceptAll "e1" (JNum 5) w = (Return tt, w')
       /\ seatDeltas added
          = map (fun b => ("e1"%string, Booking.numberOfTickets b)) promoted
       /\ ticketsOf promoted <= 5.
Proof.
  intros w.
  assert (H1 : eventServiceGet (env w) (getsMade w) "e1" = GetOk (concert 0))
    by reflexivity.
  split; [exact H1|].
  destruct (promotion_never_exceeds_the_starting_count acceptAll "e1" (JNum 5) w
              (concert 0) H1)
    as (promoted & added & w' & Hrun & _ & _ & Hdeltas & Hsum).
  exists promoted, added, w'. repeat split; assumption.
Defined.


(** The event service is down: nobody is promoted. *)
Lemma promotion_without_event_or_seats_is_idle_witness :
  let w := downWorld [bookingY 3; bookingZ 2] in
  ((exists err, eventServiceGet (env w) (getsMade w) "e1" = GetErr err)
   \/ (exists event, eventServiceGet (env w) (getsMade w) "e1" = GetOk event
                     /\ initialAvailableSeats (JNum 5) event <= 0))
  /\ exists w',
       promoteWaitlistIfPossible acceptAll "e1" (JNum 5) w = (Return tt, w')
       /\ bookings w' = bookings w
       /\ seatDeltas (trace w') = [].
Proof.
  intros w.
  assert (H : (exists err, eventServiceGet (env w) (getsMade w) "e1" = GetErr err)
              \/ (exists event, eventServiceGet (env w) (getsMade w) "e1" = GetOk event
                                /\ initialAvailableSeats (JNum 5) event <= 0))
    by (left; exists ledgerDown; reflexivity).
  split; [exact H|].
  destruct (promotion_without_event_or_seats_is_idle acceptAll "e1" (JNum 5) w H)
    as (w' & Hrun & Hdb & _ & Hdeltas & _).
  exists w'. repeat split; assumption.
Defined.

(** [alice] joins the waitlist and reads her booking back. *)
Lemma created_booking_can_be_read_back_witness :
  let run := createBooking acceptAll sampleReference (request "e1" 3 true) shortWorld in
  (exists resp, run = (Return resp, snd run) /\ statusCode resp = 202)
  /\ exists doc,
       getBooking alice (nextId shortWorld) (snd run)
       = (Return (ReplyBooking doc), snd run)
       /\ Booking.userId doc = "u1"%string
       /\ Booking.bookingStatus doc = Waitlisted.
Proof.
  intros run.
  set (resp := mkResponse 202
                 (JObj [("message",
                         JStr "Event is full. You have been added to the waitlist.");
                        ("booking",
                         waitlistedProjection
                           (markWaitlisted
                              (draftBooking sampleReference (request "e1" 3 true)
                                 shortWorld (concert 2) 3)))])).
  assert (Hrun : run = (Return resp, snd run)) by (vm_compute; reflexivity).
  split; [exists resp; split; [exact Hrun | reflexivity]|].
  destruct (created_booking_can_be_read_back acceptAll sampleReference
              (request "e1" 3 true) shortWorld resp (snd run) Hrun
              (or_intror eq_refl))
    as (doc & Hread & _ & Huser & _ & H202).
  exists doc. split; [exact Hread|]. split; [exact Huser | exact (H202 eq_refl)].
Defined.

(** [alice] is no admin. *)
Lemma statistics_are_for_admins_only_witness :
  User.role alice <> "admin"%string
  /\ getAnalytics alice (soldOut (seatsReply 5) 3 2)
     = (Return (ReplyJson (mkResponse 403 (errorBody "Access denied. Admin only."))),
        soldOut (seatsReply 5) 3 2).
Proof.
  assert (H : User.role alice <> "admin"%string) by discriminate.
  split; [exact H|].
  exact (proj1 (statistics_are_for_admins_only alice "e1" (soldOut (seatsReply 5) 3 2) H)).
Defined.

(** The concert is called off; [root] looks at its three bookings. *)
Lemma event_listing_after_cancel_all_witness :
  let w := twoEvents (seatsReply 5) 3 2 in
  User.role root = "admin"%string
  /\ exists stats docs w1,
       snd (cancelAllForEvent "e1" w) = w1
       /\ getEventBookings root "e1" w1 = (Return (ReplyEventBookings stats docs), w1)
       /\ EventStats.totalBookings stats = 3%nat
       /\ EventStats.cancelledBookings stats = 3%nat
       /\ EventStats.confirmedBookings stats = 0%nat
       /\ EventStats.totalTicketsSold stats = 0.
Proof.
  intros w. split; [reflexivity|].
  destruct (event_listing_after_cancel_all root "e1" w eq_refl)
    as (stats & docs & w1 & Hw1 & Hrun & Hconf & Hsold & Hcancelled & Htotal & _).
  exists stats, docs, w1.
  split; [exact Hw1|]. split; [exact Hrun|].
  assert (H3 : EventStats.totalBookings stats = 3%nat) by (rewrite Htotal; reflexivity).
  split; [exact H3|]. split; [rewrite Hcancelled; exact H3|].
  split; assumption.
Defined.

(** [root] asks for the analytics while three bookings wait for two events. *)
Lemma analytics_counts_add_up_witness :
  let w := twoEvents (seatsReply 5) 3 2 in
  User.role root = "admin"%string
  /\ exists stats entries w',
       getAnalytics root w = (Return (ReplyAnalytics stats entries), w')
       /\ Stats.totalBookings stats = 4%nat
       /\ list_sum (map WaitlistEntry.count entries) = Stats.waitlistedBookings stats
       /\ NoDup (map WaitlistEntry._id entries).
Proof.
  intros w. split; [reflexivity|].
  destruct (analytics_counts_add_up root w eq_refl)
    as (stats & entries & w' & Hrun & _ & _ & Hnd & _ & _ & Hsum).
  exists stats, entries, w'.
  split; [exact Hrun|].
  assert (Hstats : stats = analyticsStats (bookings w)).
  { assert (Hcomputed : exists entries0 w0,
               getAnalytics root w
               = (Return (ReplyAnalytics (analyticsStats (bookings w)) entries0), w0))
      by (eexists; eexists; vm_compute; reflexivity).
    destruct Hcomputed as (entries0 & w0 & Hrun0).
    rewrite Hrun in Hrun0. inversion Hrun0. reflexivity. }
  split; [rewrite Hstats; reflexivity|]. split; assumption.
Defined.

(** The same request when the event service knows only the concert: the
    entry of the concert gets its title, the entry of the play the
    fallback. *)
Lemma analytics_survives_event_service_failures_witness :
  let w := concertOnlyWorld in
  User.role root = "admin"%string
  /\ exists stats entries added w',
       getAnalytics root w = (Return (ReplyAnalytics stats entries), w')
       /\ trace w' = trace w ++ added
       /\ eventFetches added = ["e1"%string; "e2"%string]
       /\ map WaitlistEntry.title entries = ["Concert"%string; "Unknown event"%string].
Proof.
  intros w. split; [reflexivity|].
  destruct (analytics_survives_event_service_failures root w eq_refl)
    as (stats & entries & added & w' & Hrun & _ & Htr & Hfetch & _ & _ & Hok & Herr & _).
  assert (Hids : exists t1 t2,
             entries = [WaitlistEntry.mk "e1" 2 t1; WaitlistEntry.mk "e2" 1 t2]).
  { assert (Hcomputed : exists s0 t1 t2 w0,
               getAnalytics root w
               = (Return (ReplyAnalytics s0 [WaitlistEntry.mk "e1" 2 t1;
                                             WaitlistEntry.mk "e2" 1 t2]), w0))
      by (do 4 eexists; vm_compute; reflexivity).
    destruct Hcomputed as (s0 & t1 & t2 & w0 & Hrun0).
    rewrite Hrun in Hrun0. inversion Hrun0. exists t1, t2. reflexivity. }
  destruct Hids as (t1 & t2 & Hentries).
  exists stats, entries, added, w'.
  split; [exact Hrun|]. split; [exact Htr|].
  split; [rewrite Hfetch, Hentries; reflexivity|].
  assert (H1 : t1 = "Concert"%string).
  { apply (Hok 0%nat (WaitlistEntry.mk "e1" 2 t1) (concert 0));
      [rewrite Hentries; reflexivity | reflexivity]. }
  assert (H2 : t2 = "Unknown event"%string).
  { apply (Herr 1%nat (WaitlistEntry.mk "e2" 1 t2) ledgerDown);
      [rewrite Hentries; reflexivity | reflexivity]. }
  rewrite Hentries, H1, H2. reflexivity.
Defined.

(** The read routes on the two sample events. *)
Example reads_on_two_events :
  let w := twoEvents (seatsReply 5) 3 2 in
  fst (listMyBookings alice w)
  = Return (ReplyBookings 3 [bookingZ 2; bookingY 3; bookingX])
  /\ fst (getBooking bob 0 w)
     = Return (ReplyJson (mkResponse 403 (errorBody "Access denied")))
  /\ fst (getBooking root 0 w) = Return (ReplyBooking bookingX)
  /\ fst (checkMyBooking bob "e1" w)
     = Return (ReplyJson (mkResponse 200 (JObj [("hasBooking", JBool false)])))
  /\ fst (getAnalytics root w)
     = Return (ReplyAnalytics (Stats.mk 4 1 0 3 250 5)
                 [WaitlistEntry.mk "e1" 2 "Concert"; WaitlistEntry.mk "e2" 1 "Concert"])
  /\ eventFetches (trace (snd (getAnalytics root w))) = ["e1"%string; "e2"%string].
Proof. vm_compute. repeat split; reflexivity. Qed.

(** A pass over the sold-out concert leaves the confirmed booking alone. *)
Lemma promotion_touches_only_the_waitlist_witness :
  let w := soldOut (seatsReply 5) 3 2 in
  NoDup (map Booking._id (bookings w))
  /\ In bookingX (bookings w)
  /\ Booking.bookingStatus bookingX <> Waitlisted
  /\ exists w',
       promoteWaitlistIfPossible acceptAll "e1" (JNum 5) w = (Return tt, w')
       /\ map Booking._id (bookings w') = map Booking._id (bookings w)
       /\ In bookingX (bookings w').
Proof.
  intros w.
  assert (Hids : NoDup (map Booking._id (bookings w))) by apply soldOut_ids_distinct.
  assert (Hin : In bookingX (bookings w)) by (left; reflexivity).
  assert (Hstatus : Booking.bookingStatus bookingX <> Waitlisted) by discriminate.
  split; [exact Hids|]. split; [exact Hin|]. split; [exact Hstatus|].
  destruct (promotion_touches_only_the_waitlist acceptAll "e1" (JNum 5) w)
    as (w' & Hrun & Hsame & Hkept).
  exists w'. split; [exact Hrun|]. split; [exact Hsame|].
  exact (Hkept Hids bookingX Hin (or_intror Hstatus)).
Defined.

(** With no setting the allowed origins are the three defaults. *)
Lemma default_origins_are_always_allowed_first_witness :
  trimBlanks "" = ""%string
  /\ allowedOrigins trimBlanks None = defaultAllowedOrigins.
Proof.
  assert (Htrim : trimBlanks "" = ""%string) by reflexivity.
  split; [exact Htrim|].
  destruct (default_origins_are_always_allowed_first trimBlanks None)
    as (extra & Heq & _ & Hnone).
  rewrite Heq, (Hnone Htrim (or_introl eq_refl)). apply app_nil_r.
Defined.
